(** * goagain: zero-downtime restarts

    A shallow embedding of the two generations of the [goagain] package:

    - the strategy generation (package variables [Strategy], [OnSIGHUP],
      [OnSIGUSR1]; functions [Exec], [ForkExec], [Kill], [Listener], [Wait]),
      in module [StrategyGen];
    - the bounded-wait generation of [goagain.go] ([Kill sig], [forkExec],
      [Wait] with a timeout), in module [BoundedWait].

    [lookPath], [setEnvs] and [Listener] are textually the same in both and
    are embedded once.  The process (environment, descriptor table, children,
    the answers of the operating system) is an explicit [world]; every
    function of the package is a computation of the monad [M] over it. *)

From Stdlib Require Import ZArith Ascii String List Lia Bool.
From stdpp Require Import base option gmap strings list.

Local Open Scope Z_scope.

(** ** Errors and results *)

Inductive num_err := ErrSyntax | ErrRange.

(** Go error values.  [io_EOF] is the sentinel [io.EOF]; [ErrExpectedInteger]
    is the scanner's [errors.New("expected integer")]; [NumError] is
    [*strconv.NumError]; [Errorf] is a [fmt.Errorf] with its rendered text;
    [Errno] is an error of the operating system. *)
Inductive error :=
| io_EOF
| ErrExpectedInteger
| NumError (fn : string) (num : string) (kind : num_err)
| Errorf (msg : string)
| Errno (name : string).

Inductive result (A : Type) :=
| Ok (a : A)
| Err (e : error)
| Panic (msg : string).
Arguments Ok {A} a.
Arguments Err {A} e.
Arguments Panic {A} msg.

(** ** fmt: scanning and printing integers *)

Module Fmt.

Definition code (c : ascii) : Z := Z.of_N (N_of_ascii c).

(** [lower(c) = c | ('x' - 'X')] of strconv. *)
Definition lower (c : Z) : Z := Z.lor c 32.

(** The scanner's table of white space, on the UTF-8 encoding of the runes:
    U+0009-000D and U+0020 (one byte), U+0085 and U+00A0 (two bytes), U+1680,
    U+2000-200A, U+2028, U+2029, U+202F, U+205F and U+3000 (three bytes). *)
Definition is_space1 (a : Z) : bool := ((9 <=? a) && (a <=? 13)) || (a =? 32).
Definition is_space2 (a b : Z) : bool := (a =? 194) && ((b =? 133) || (b =? 160)).
Definition is_space3 (a b c : Z) : bool :=
  ((a =? 225) && (b =? 154) && (c =? 128)) ||
  ((a =? 226) && (b =? 128) &&
     (((128 <=? c) && (c <=? 138)) || (c =? 168) || (c =? 169) || (c =? 175))) ||
  ((a =? 226) && (b =? 129) && (c =? 159)) ||
  ((a =? 227) && (b =? 128) && (c =? 128)).

(** [ss.SkipSpace] for [Sscan], where a newline counts as a space. *)
Fixpoint SkipSpace (s : string) : string :=
  match s with
  | String c r =>
      if is_space1 (code c) then SkipSpace r else
      match r with
      | String c2 r2 =>
          if is_space2 (code c) (code c2) then SkipSpace r2 else
          match r2 with
          | String c3 r3 =>
              if is_space3 (code c) (code c2) (code c3) then SkipSpace r3 else s
          | EmptyString => s
          end
      | EmptyString => s
      end
  | EmptyString => s
  end.

(** The digit sets of the scanner; each is used with the separator [_]. *)
Inductive digit_set := binaryDigits | octalDigits | decimalDigits | hexadecimalDigits.

Definition in_digits (ds : digit_set) (c : Z) : bool :=
  (c =? 95) ||
  match ds with
  | binaryDigits => (48 <=? c) && (c <=? 49)
  | octalDigits => (48 <=? c) && (c <=? 55)
  | decimalDigits => (48 <=? c) && (c <=? 57)
  | hexadecimalDigits =>
      ((48 <=? c) && (c <=? 57)) || ((97 <=? lower c) && (lower c <=? 102))
  end.

(** [for s.accept(digits) {}]: the longest prefix made of [ds], and the rest. *)
Fixpoint accept_all (ds : digit_set) (s : string) : string * string :=
  match s with
  | String c r =>
      if in_digits ds (code c)
      then let '(t, r') := accept_all ds r in (String c t, r')
      else (EmptyString, s)
  | EmptyString => (EmptyString, EmptyString)
  end.

(** [ss.scanBasePrefix]: the prefix put in the token, the digit set, whether
    a digit was seen, and the rest of the input. *)
Definition scanBasePrefix (s : string) : string * digit_set * bool * string :=
  match s with
  | String c r =>
      if code c =? 48 then
        match r with
        | String c2 r2 =>
            let l := lower (code c2) in
            if l =? 98 then (String c (String c2 EmptyString), binaryDigits, true, r2)
            else if l =? 111 then (String c (String c2 EmptyString), octalDigits, true, r2)
            else if l =? 120 then (String c (String c2 EmptyString), hexadecimalDigits, true, r2)
            else (String c EmptyString, octalDigits, true, r)
        | EmptyString => (String c EmptyString, octalDigits, true, r)
        end
      else (EmptyString, decimalDigits, false, s)
  | EmptyString => (EmptyString, decimalDigits, false, s)
  end.

(** [ss.scanNumber]: the token, or [io.EOF] at the end of the input, or
    "expected integer". *)
Definition scanNumber (ds : digit_set) (haveDigits : bool) (s : string)
  : result string :=
  if haveDigits then Ok (fst (accept_all ds s))
  else match s with
       | EmptyString => Err io_EOF
       | String c _ =>
           if in_digits ds (code c) then Ok (fst (accept_all ds s))
           else Err ErrExpectedInteger
       end.

(** [strconv.underscoreOK]; [saw] is 0 at the beginning, 1 after a digit,
    2 after an underscore, 3 after anything else. *)
Fixpoint underscore_loop (hex : bool) (saw : Z) (s : string) : bool :=
  match s with
  | EmptyString => negb (saw =? 2)
  | String c r =>
      let a := code c in
      if ((48 <=? a) && (a <=? 57)) ||
         (hex && (97 <=? lower a) && (lower a <=? 102))
      then underscore_loop hex 1 r
      else if a =? 95 then
        if saw =? 1 then underscore_loop hex 2 r else false
      else if saw =? 2 then false
      else underscore_loop hex 3 r
  end.

Definition strip_sign (s : string) : string :=
  match s with
  | String c r => if (code c =? 45) || (code c =? 43) then r else s
  | EmptyString => s
  end.

Definition underscoreOK (s : string) : bool :=
  let s := strip_sign s in
  match s with
  | String c (String c2 r2) =>
      let l := lower (code c2) in
      if (code c =? 48) && ((l =? 98) || (l =? 111) || (l =? 120))
      then underscore_loop (l =? 120) 1 r2
      else underscore_loop false 0 s
  | _ => underscore_loop false 0 s
  end.

Definition maxUint64 : Z := 2 ^ 64 - 1.

Inductive digits_result := DigitsOk (n : Z) (underscores : bool) | DigitsSyntax | DigitsRange.

(** The digit loop of [strconv.ParseUint] for base 0 (underscores allowed)
    and 64 bits. *)
Fixpoint ParseUint_loop (base : Z) (n : Z) (underscores : bool) (s : string)
  : digits_result :=
  match s with
  | EmptyString => DigitsOk n underscores
  | String ch r =>
      let c := code ch in
      if c =? 95 then ParseUint_loop base n true r
      else
        let d := if (48 <=? c) && (c <=? 57) then Some (c - 48)
                 else if (97 <=? lower c) && (lower c <=? 122) then Some (lower c - 97 + 10)
                 else None in
        match d with
        | None => DigitsSyntax
        | Some d =>
            if base <=? d then DigitsSyntax
            else if maxUint64 / base + 1 <=? n then DigitsRange
            else if maxUint64 <? n * base + d then DigitsRange
            else ParseUint_loop base (n * base + d) underscores r
        end
  end.

(** [strconv.ParseUint(s, 0, 64)]. *)
Definition ParseUint (s : string) : result Z :=
  match s with
  | EmptyString => Err (NumError "ParseUint" s ErrSyntax)
  | String c r =>
      let '(base, body) :=
        if code c =? 48 then
          match r with
          | String c2 (String c3 r3) =>
              let l := lower (code c2) in
              let r2 := String c3 r3 in
              if l =? 98 then (2, r2)
              else if l =? 111 then (8, r2)
              else if l =? 120 then (16, r2)
              else (8, r)
          | _ => (8, r)
          end
        else (10, s) in
      match ParseUint_loop base 0 false body with
      | DigitsSyntax => Err (NumError "ParseUint" s ErrSyntax)
      | DigitsRange => Err (NumError "ParseUint" s ErrRange)
      | DigitsOk n underscores =>
          if underscores && negb (underscoreOK s)
          then Err (NumError "ParseUint" s ErrSyntax)
          else Ok n
      end
  end.

(** [strconv.ParseInt(s, 0, 64)]. *)
Definition ParseInt (s : string) : result Z :=
  match s with
  | EmptyString => Err (NumError "ParseInt" s ErrSyntax)
  | String c r =>
      let neg := code c =? 45 in
      let body := if (code c =? 43) || neg then r else s in
      let cutoff := 2 ^ 63 in
      match ParseUint body with
      | Err (NumError _ _ ErrRange) => Err (NumError "ParseInt" s ErrRange)
      | Err _ => Err (NumError "ParseInt" s ErrSyntax)
      | Panic m => Panic m
      | Ok un =>
          if negb neg && (cutoff <=? un) then Err (NumError "ParseInt" s ErrRange)
          else if neg && (cutoff <? un) then Err (NumError "ParseInt" s ErrRange)
          else Ok (if neg then - un else un)
      end
  end.

(** [fmt.Sscan(s, &v)] for [v] of a signed 64-bit integer kind ([int],
    [syscall.Signal]), as [ss.scanInt] does it for the verb [v]: skip the
    white space; report [io.EOF] if nothing is left; take a sign; take the
    base prefix; take the digits, reporting [io.EOF] if the input ends
    before the first of them and "expected integer" if another character
    comes; convert the token.  What follows the token is left unread. *)
Definition Sscan_int (s : string) : result Z :=
  match SkipSpace s with
  | EmptyString => Err io_EOF
  | String c r as s1 =>
      let '(sign, s2) :=
        if (code c =? 43) || (code c =? 45) then (String c EmptyString, r)
        else (EmptyString, s1) in
      let '(pre, ds, have, s3) := scanBasePrefix s2 in
      match scanNumber ds have s3 with
      | Ok body => ParseInt (sign +:+ pre +:+ body)
      | Err e => Err e
      | Panic m => Panic m
      end
  end.

(** [fmt.Sscan(s, &v)] for [v] of kind [uintptr] ([ss.scanUint]): the same
    without a sign. *)
Definition Sscan_uintptr (s : string) : result Z :=
  match SkipSpace s with
  | EmptyString => Err io_EOF
  | s1 =>
      let '(pre, ds, have, s3) := scanBasePrefix s1 in
      match scanNumber ds have s3 with
      | Ok body => ParseUint (pre +:+ body)
      | Err e => Err e
      | Panic m => Panic m
      end
  end.

(** Printing: [fmtInteger] in base 10 fills its buffer from the right. *)
Definition digit_char (d : Z) : ascii := ascii_of_N (Z.to_N (48 + d)).

Fixpoint fmt_digits (fuel : nat) (u : Z) (acc : string) : string :=
  match fuel with
  | O => acc
  | S f =>
      if u <? 10 then String (digit_char u) acc
      else fmt_digits f (u / 10) (String (digit_char (u mod 10)) acc)
  end.

(** [fmt.Sprint(v)] for [v] of kind [uintptr]; twenty digits hold 2^64 - 1. *)
Definition Sprint_uintptr (v : Z) : string := fmt_digits 20 (v mod 2 ^ 64) "".

(** [fmt.Sprint(v)] and [fmt.Sprintf("%d", v)] for a signed 64-bit [v]. *)
Definition Sprint_int (v : Z) : string :=
  if v <? 0 then String "-" (fmt_digits 20 (- v) "") else fmt_digits 20 v "".

End Fmt.


(** ** The process and the operating system *)

(** [net.Addr]: [Network()] and [String()]. *)
Record Addr := { Network : string; AddrString : string }.

(** What a descriptor refers to: a listening socket of some family with its
    bound local address, or anything else. *)
Inductive sock_kind := SockTCP | SockUnix | SockOther.

Inductive file :=
| Socket (k : sock_kind) (laddr : Addr)
| Plain (name : string).

(** [net.Listener] values: the two concrete types the package accepts, with
    the descriptor they own and their cached local address, and any other
    implementation of the interface, with the name [%T] prints for it. *)
Inductive listener :=
| TCPListener (fd : Z) (laddr : Addr)
| UnixListener (fd : Z) (laddr : Addr)
| OtherListener (type_name : string) (laddr : Addr).

Definition Addr_of (l : listener) : Addr :=
  match l with
  | TCPListener _ a | UnixListener _ a | OtherListener _ a => a
  end.

Definition type_name_of (l : listener) : string :=
  match l with
  | TCPListener _ _ => "*net.TCPListener"
  | UnixListener _ _ => "*net.UnixListener"
  | OtherListener n _ => n
  end.

Inductive strategy := Single | Double.

(** Signal numbers (Linux). *)
Definition SIGHUP : Z := 1.
Definition SIGINT : Z := 2.
Definition SIGQUIT : Z := 3.
Definition SIGKILL : Z := 9.
Definition SIGUSR1 : Z := 10.
Definition SIGUSR2 : Z := 12.
Definition SIGTERM : Z := 15.

(** The state of one process.  The [sys_] fields are the answers the
    operating system gives to the calls the package makes. *)
Record world := {
  env : gmap string string;
  fds : gmap Z file;
  nofile : nat;
  pid : Z;
  ppid : Z;
  Args : list string;
  children : gset Z;
  Strategy : strategy;
  Logger : bool;
  sys_LookPath : string -> result string;
  sys_Stat : string -> option error;
  sys_Getwd : result string;
  sys_StartProcess : string -> result Z;
  sys_Exec : string -> option error;
  sys_Kill : Z -> Z -> option error
}.

Definition set_env (f : gmap string string -> gmap string string) (w : world) : world :=
  {| env := f (env w); fds := fds w; nofile := nofile w; pid := pid w;
     ppid := ppid w; Args := Args w; children := children w;
     Strategy := Strategy w; Logger := Logger w;
     sys_LookPath := sys_LookPath w; sys_Stat := sys_Stat w;
     sys_Getwd := sys_Getwd w; sys_StartProcess := sys_StartProcess w;
     sys_Exec := sys_Exec w; sys_Kill := sys_Kill w |}.

Definition set_fds (f : gmap Z file -> gmap Z file) (w : world) : world :=
  {| env := env w; fds := f (fds w); nofile := nofile w; pid := pid w;
     ppid := ppid w; Args := Args w; children := children w;
     Strategy := Strategy w; Logger := Logger w;
     sys_LookPath := sys_LookPath w; sys_Stat := sys_Stat w;
     sys_Getwd := sys_Getwd w; sys_StartProcess := sys_StartProcess w;
     sys_Exec := sys_Exec w; sys_Kill := sys_Kill w |}.

Definition set_children (f : gset Z -> gset Z) (w : world) : world :=
  {| env := env w; fds := fds w; nofile := nofile w; pid := pid w;
     ppid := ppid w; Args := Args w; children := f (children w);
     Strategy := Strategy w; Logger := Logger w;
     sys_LookPath := sys_LookPath w; sys_Stat := sys_Stat w;
     sys_Getwd := sys_Getwd w; sys_StartProcess := sys_StartProcess w;
     sys_Exec := sys_Exec w; sys_Kill := sys_Kill w |}.

(** What a call leaves behind besides the new state. *)
Inductive logval := LStr (s : string) | LInt (n : Z) | LSig (n : Z) | LErr (e : error).

Inductive event :=
| EvLog (vs : list logval)
| EvSetenv (key value : string)
| EvNotify (sigs : list Z)
| EvHook (name : string)
| EvStart (argv0 dir : string) (files : list (option Z)) (child : world)
| EvExec (argv0 : string)
| EvWait4 (target : Z)
| EvSignal (target sig : Z).

(** ** The monad of the package's functions *)

Definition M (A : Type) : Type := world -> result A * world * list event.

Definition ret {A} (a : A) : M A := fun w => (Ok a, w, []).

Definition bind {A B} (m : M A) (f : A -> M B) : M B :=
  fun w =>
    match m w with
    | (Ok a, w1, t1) => let '(r, w2, t2) := f a w1 in (r, w2, t1 ++ t2)
    | (Err e, w1, t1) => (Err e, w1, t1)
    | (Panic s, w1, t1) => (Panic s, w1, t1)
    end.

Notation "x <- m ;; k" := (bind m (fun x => k))
  (at level 100, m at next level, right associativity).
Notation "m ;;; k" := (bind m (fun _ => k))
  (at level 100, right associativity).

Definition fail {A} (e : error) : M A := fun w => (Err e, w, []).
Definition panic {A} (s : string) : M A := fun w => (Panic s, w, []).
Definition lift {A} (r : result A) : M A := fun w => (r, w, []).
Definition emit (e : event) : M unit := fun w => (Ok tt, w, [e]).
Definition get {A} (f : world -> A) : M A := fun w => (Ok (f w), w, []).
Definition modify (f : world -> world) : M unit := fun w => (Ok tt, f w, []).

(** [v, err := f()] where the caller goes on after an error. *)
Definition attempt {A} (m : M A) : M (A + error) :=
  fun w =>
    match m w with
    | (Ok a, w1, t1) => (Ok (inl a), w1, t1)
    | (Err e, w1, t1) => (Ok (inr e), w1, t1)
    | (Panic s, w1, t1) => (Panic s, w1, t1)
    end.

Definition result_of {A} (r : result A * world * list event) : result A := r.1.1.
Definition world_of {A} (r : result A * world * list event) : world := r.1.2.
Definition trace_of {A} (r : result A * world * list event) : list event := r.2.

(** ** Library calls *)

Definition logln (vs : list logval) : M unit :=
  fun w => (Ok tt, w, if Logger w then [EvLog vs] else []).

Definition Getenv (key : string) : M string :=
  get (fun w => default "" (env w !! key)).

Fixpoint has_byte (b : Z) (s : string) : bool :=
  match s with
  | EmptyString => false
  | String c r => (Fmt.code c =? b) || has_byte b r
  end.

(** [os.Setenv]: [EINVAL] for an empty key, a key with [=] or NUL, a value
    with NUL. *)
Definition Setenv (key value : string) : M unit :=
  if String.eqb key "" || has_byte 61 key || has_byte 0 key || has_byte 0 value
  then fail (Errno "setenv: invalid argument")
  else modify (set_env (<[key := value]>)) ;;; emit (EvSetenv key value).

(** Descriptors are C ints: none is allocated at or above 2^31, whatever the
    limit of the process. *)
Definition lowest_free (t : gmap Z file) (limit : nat) : option Z :=
  List.find (fun n => bool_decide (t !! n = None))
            (Z.of_nat <$> seq 0 (Z.to_nat (Z.min (Z.of_nat limit) (2 ^ 31)))).

(** [dup] of an open descriptor onto the lowest free one. *)
Definition dup (fd : Z) : M Z :=
  fun w =>
    match fds w !! fd with
    | None => (Err (Errno "bad file descriptor"), w, [])
    | Some f =>
        match lowest_free (fds w) (nofile w) with
        | None => (Err (Errno "too many open files"), w, [])
        | Some n => (Ok n, set_fds (<[n := f]>) w, [])
        end
    end.

Definition close (fd : Z) : M unit := modify (set_fds (delete fd)).

(** [File()] of a [net.TCPListener] or [net.UnixListener], followed by
    [Fd()]: a duplicate of the listener's descriptor. *)
Definition File (fd : Z) : M Z := dup fd.

(** [net.FileListener(os.NewFile(fd, name))]: a listener on a copy of the
    descriptor, of the type the socket's family calls for. *)
Definition net_FileListener (fd : Z) (name : string) : M listener :=
  f <- get (fun w => fds w !! fd) ;;
  match f with
  | Some (Socket SockTCP a) => n <- dup fd ;; ret (TCPListener n a)
  | Some (Socket SockUnix a) => n <- dup fd ;; ret (UnixListener n a)
  | Some (Socket SockOther _) => fail (Errno "invalid argument")
  | Some (Plain _) => fail (Errno "socket operation on non-socket")
  | None => fail (Errno "bad file descriptor")
  end.

(** The descriptor table of a process started with [ProcAttr.Files = files]:
    slot [i] of the child is the parent's descriptor [files[i]]; a nil slot
    is closed. *)
Fixpoint inherit_from (pfds : gmap Z file) (i : Z) (files : list (option Z))
  : gmap Z file :=
  match files with
  | [] => ∅
  | o :: r =>
      let m := inherit_from pfds (i + 1) r in
      match o ≫= (fun fd => pfds !! fd) with
      | Some f => <[i := f]> m
      | None => m
      end
  end.

Definition child_world (w : world) (files : list (option Z)) (cpid : Z) : world :=
  {| env := env w; fds := inherit_from (fds w) 0 files; nofile := nofile w;
     pid := cpid; ppid := pid w; Args := Args w; children := ∅;
     Strategy := Strategy w; Logger := Logger w;
     sys_LookPath := sys_LookPath w; sys_Stat := sys_Stat w;
     sys_Getwd := sys_Getwd w; sys_StartProcess := sys_StartProcess w;
     sys_Exec := sys_Exec w; sys_Kill := sys_Kill w |}.

(** [os.StartProcess(argv0, os.Args, &os.ProcAttr{Dir, Env: os.Environ(), Files})];
    the event records the process it starts. *)
Definition StartProcess (argv0 : string) (dir : string) (files : list (option Z)) : M Z :=
  fun w =>
    match sys_StartProcess w argv0 with
    | Ok p =>
        (Ok p, set_children (fun c => {[p]} ∪ c) w,
         [EvStart argv0 dir files (child_world w files p)])
    | Err e => (Err e, w, [])
    | Panic s => (Panic s, w, [])
    end.

(** [Kill()] of an [os.Process]. *)
Definition Process_Kill (p : Z) : M unit :=
  fun w =>
    if bool_decide (p ∈ children w)
    then (Ok tt, set_children (fun c => c ∖ {[p]}) w, [EvSignal p SIGKILL])
    else (Err (Errno "os: process already finished"), w, []).

(** [syscall.Kill(pid, sig)]. *)
Definition syscall_Kill (target sig : Z) : M unit :=
  fun w =>
    match sys_Kill w target sig with
    | None => (Ok tt, w, [EvSignal target sig])
    | Some e => (Err e, w, [EvSignal target sig])
    end.

Definition exec_LookPath (file : string) : M string :=
  fun w => (sys_LookPath w file, w, []).

Definition Stat (name : string) : M unit :=
  fun w => (match sys_Stat w name with Some e => Err e | None => Ok tt end, w, []).

Definition Getwd : M string := fun w => (sys_Getwd w, w, []).

(** ** Functions shared by the two generations *)

Definition lookPath : M string :=
  args <- get Args ;;
  match args with
  | [] => panic "index out of range"
  | a0 :: _ =>
      argv0 <- exec_LookPath a0 ;;
      Stat argv0 ;;;
      ret argv0
  end.

Definition fd_name (l : listener) : string :=
  Network (Addr_of l) +:+ ":" +:+ AddrString (Addr_of l) +:+ "->".

Definition setEnvs (l : listener) : M Z :=
  fd <- match l with
        | TCPListener t _ => File t
        | UnixListener t _ => File t
        | OtherListener _ _ =>
            fail (Errorf ("setEnvs: file descriptor is " +:+ type_name_of l +:+
                          " not *net.TCPListener or *net.UnixListener"))
        end ;;
  Setenv "GOAGAIN_FD" (Fmt.Sprint_uintptr fd) ;;;
  Setenv "GOAGAIN_NAME" (fd_name l) ;;;
  ret fd.

(** [Listener], with the call of [net.FileListener] as a parameter.  The
    deferred [fdf.Close()] runs on every path after [os.NewFile]. *)
Definition Listener_via (FileListener : Z -> string -> M listener) : M listener :=
  s <- Getenv "GOAGAIN_FD" ;;
  fd <- lift (Fmt.Sscan_uintptr s) ;;
  name <- Getenv "GOAGAIN_NAME" ;;
  r <- attempt (FileListener fd name) ;;
  close fd ;;;
  match r with
  | inr e => fail e
  | inl l =>
      match l with
      | TCPListener _ _ | UnixListener _ _ => ret l
      | OtherListener _ _ =>
          fail (Errorf ("file descriptor is " +:+ type_name_of l +:+
                        " not *net.TCPListener or *net.UnixListener"))
      end
  end.

Definition Listener : M listener := Listener_via net_FileListener.

(** [files := make([]*os.File, fd+1)] with slots 0, 1, 2 and [fd] filled;
    an index out of range panics. *)
Definition file_table (fd : Z) : result (list (option Z)) :=
  let n := (fd + 1) mod 2 ^ 64 in
  if (n <=? 2) || (n <=? fd) then Panic "index out of range"
  else Ok (<[Z.to_nat fd := Some fd]>
             (<[2%nat := Some 2]> (<[1%nat := Some 1]> (<[0%nat := Some 0]>
                (replicate (Z.to_nat n) None))))).

(** ** Errors of the network *)

(** ** Errors of the network *)
(** A Go [error] as [IsErrClosing] looks at it: the nil interface; an
    interface that holds a nil [*net.OpError]; a [*net.OpError] with its
    fields ([Source] and [Addr] by the text of their [String()], absent
    when nil); or an error of any other type, with the text its [Error()]
    returns. *)
Inductive go_error :=
| nil_error
| nil_OpError
| OtherError (text : string)
| OpError (Op Net : string) (Source Addr : option string) (Err : go_error).

Definition nil_dereference : string :=
  "invalid memory address or nil pointer dereference".

(** What [OpError.Error()] puts before the text of the wrapped error. *)
Definition OpError_prefix (Op Net : string) (Source Addr : option string) : string :=
  let s := Op in
  let s := if String.eqb Net "" then s else s +:+ " " +:+ Net in
  let s := match Source with Some a => s +:+ " " +:+ a | None => s end in
  let s := match Addr with
           | Some a => (match Source with Some _ => s +:+ "->" | None => s +:+ " " end) +:+ a
           | None => s
           end in
  s +:+ ": ".

(** [err.Error()]; calling it on the nil interface panics, and the method
    of [*net.OpError] answers for a nil receiver. *)
Fixpoint Error_text (e : go_error) : result string :=
  match e with
  | nil_error => Panic nil_dereference
  | nil_OpError => Ok "<nil>"
  | OtherError text => Ok text
  | OpError op net src addr inner =>
      match Error_text inner with
      | Ok text => Ok (OpError_prefix op net src addr +:+ text)
      | r => r
      end
  end.


Definition errClosing_text : string := "use of closed network connection".

(** [IsErrClosing(err)]: one [net.OpError] is unwrapped, reading the field
    [Err] through the pointer, then the text of the error is compared. *)
Definition IsErrClosing (err : go_error) : result bool :=
  match err with
  | nil_OpError => Panic nil_dereference
  | _ =>
      let err := match err with
                 | OpError _ _ _ _ inner => inner
                 | _ => err
                 end in
      match Error_text err with
      | Ok text => Ok (String.eqb errClosing_text text)
      | Err x => Err x
      | Panic m => Panic m
      end
  end.

(** ** The strategy generation *)

Module StrategyGen.

(** What [syscall.Exec(argv0, os.Args, os.Environ())] starts when it
    succeeds; the call does not return then. *)
Record image := {
  img_argv0 : string;
  img_args : list string;
  img_env : gmap string string
}.

Definition syscall_Exec (argv0 : string) : M image :=
  fun w =>
    match sys_Exec w argv0 with
    | Some e => (Err e, w, [])
    | None =>
        (Ok {| img_argv0 := argv0; img_args := Args w; img_env := env w |},
         w, [EvExec argv0])
    end.

(** [Exec]: [Ok] is the replaced image, [Err] the error returned. *)
Definition Exec (l : listener) : M image :=
  s <- Getenv "GOAGAIN_PID" ;;
  let pid_ := match Fmt.Sscan_int s with Ok p => p | _ => 0 end in
  pp <- get ppid ;;
  if pp =? pid_ then fail (Errorf "goagain.Exec called by a child process")
  else
    argv0 <- lookPath ;;
    setEnvs l ;;;
    Setenv "GOAGAIN_SIGNAL" (Fmt.Sprint_int SIGQUIT) ;;;
    logln [LStr "re-executing"; LStr argv0] ;;;
    syscall_Exec argv0.

Definition handshake_signal (st : strategy) : Z :=
  match st with
  | Double => SIGUSR2
  | Single => SIGQUIT
  end.

Definition ForkExec (l : listener) : M unit :=
  argv0 <- lookPath ;;
  wd <- Getwd ;;
  fd <- setEnvs l ;;
  Setenv "GOAGAIN_PID" "" ;;;
  p <- get pid ;;
  Setenv "GOAGAIN_PPID" (Fmt.Sprint_int p) ;;;
  st <- get Strategy ;;
  Setenv "GOAGAIN_SIGNAL" (Fmt.Sprint_int (handshake_signal st)) ;;;
  files <- lift (file_table fd) ;;
  cp <- StartProcess argv0 wd files ;;
  logln [LStr "spawned child"; LInt cp] ;;;
  Setenv "GOAGAIN_PID" (Fmt.Sprint_int cp).

(** The first three statements of [Kill]: the pid to signal. *)
Definition target_pid : M Z :=
  s <- Getenv "GOAGAIN_PID" ;;
  match Fmt.Sscan_int s with
  | Err io_EOF => s' <- Getenv "GOAGAIN_PPID" ;; lift (Fmt.Sscan_int s')
  | r => lift r
  end.

Definition Kill : M unit :=
  target <- target_pid ;;
  s <- Getenv "GOAGAIN_SIGNAL" ;;
  let sig := match Fmt.Sscan_int s with Ok v => v | _ => SIGQUIT end in
  st <- get Strategy ;;
  (if (SIGQUIT =? sig) && (match st with Double => true | Single => false end)
   then emit (EvWait4 target) else ret tt) ;;;
  logln [LStr "sending signal"; LSig sig; LStr "to process"; LInt target] ;;;
  syscall_Kill target sig.

(** [OnSIGHUP] and [OnSIGUSR1]: a hook is any function of the listener that
    may change the process and returns an error or nil. *)
Definition hook : Type := listener -> world -> option error * world.

Inductive wait_status :=
| Returned (sig : Z) (err : option error)
| Receiving (forked : bool).

Section Coordinator.

Variables OnSIGHUP OnSIGUSR1 : option hook.

Definition run_hook (name : string) (h : option hook) (l : listener) : M unit :=
  match h with
  | None => ret tt
  | Some f =>
      r <- (fun w => let '(e, w') := f l w in (Ok e, w', [EvHook name])) ;;
      match r with
      | Some e => logln [LStr (name +:+ ":"); LErr e]
      | None => ret tt
      end
  end.

(** The body of the [for] loop of [Wait] for one signal received from [ch]:
    [Returned] when it returns, [Receiving] with the new value of [forked]
    when it goes around. *)
Definition Wait_step (l : listener) (forked : bool) (sig : Z) : M wait_status :=
  logln [LSig sig] ;;;
  if sig =? SIGHUP then
    run_hook "OnSIGHUP" OnSIGHUP l ;;; ret (Receiving forked)
  else if sig =? SIGINT then ret (Returned SIGINT None)
  else if sig =? SIGQUIT then ret (Returned SIGQUIT None)
  else if sig =? SIGTERM then ret (Returned SIGTERM None)
  else if sig =? SIGUSR1 then
    run_hook "OnSIGUSR1" OnSIGUSR1 l ;;; ret (Receiving forked)
  else if sig =? SIGUSR2 then
    if forked then ret (Returned SIGUSR2 None)
    else
      r <- attempt (ForkExec l) ;;
      match r with
      | inr e => ret (Returned SIGUSR2 (Some e))
      | inl _ => ret (Receiving true)
      end
  else ret (Receiving forked).

(** The loop on the signals received, in order; [Receiving] when it is back
    at [sig := <-ch] with none left. *)
Fixpoint Wait_loop (l : listener) (forked : bool) (sigs : list Z) : M wait_status :=
  match sigs with
  | [] => ret (Receiving forked)
  | sig :: rest =>
      r <- Wait_step l forked sig ;;
      match r with
      | Receiving forked' => Wait_loop l forked' rest
      | Returned s e => ret (Returned s e)
      end
  end.

Definition Wait (l : listener) (sigs : list Z) : M wait_status :=
  emit (EvNotify [SIGHUP; SIGINT; SIGQUIT; SIGTERM; SIGUSR1; SIGUSR2]) ;;;
  Wait_loop l false sigs.

End Coordinator.

End StrategyGen.

(** ** The bounded-wait generation *)

Module BoundedWait.

Definition target_pid : M Z :=
  s <- Getenv "GOAGAIN_PID" ;;
  match Fmt.Sscan_int s with
  | Err io_EOF => s' <- Getenv "GOAGAIN_PPID" ;; lift (Fmt.Sscan_int s')
  | r => lift r
  end.

Definition Kill (sig : Z) : M unit :=
  target <- target_pid ;;
  logln [LStr "sending signal"; LSig sig; LStr "to process"; LInt target] ;;;
  syscall_Kill target sig.

(** [forkExec]: [Err e] is [(nil, e)], [Ok (p, Some e)] is [(p, e)] and
    [Ok (p, None)] is [(p, nil)].  [quitSignal] is not used by the body. *)
Definition forkExec (l : listener) (quitSignal : Z) : M (Z * option error) :=
  argv0 <- lookPath ;;
  wd <- Getwd ;;
  fd <- setEnvs l ;;
  Setenv "GOAGAIN_PID" "" ;;;
  p <- get pid ;;
  Setenv "GOAGAIN_PPID" (Fmt.Sprint_int p) ;;;
  files <- lift (file_table fd) ;;
  cp <- StartProcess argv0 wd files ;;
  logln [LStr "spawned child"; LInt cp] ;;;
  r <- attempt (Setenv "GOAGAIN_PID" (Fmt.Sprint_int cp)) ;;
  match r with
  | inr e => ret (cp, Some e)
  | inl _ => ret (cp, None)
  end.

(** How one run of [Wait] unfolds: whether [forkSignal] ever arrives on
    [forkCh]; when [quitSignal] arrives on [quitCh], in nanoseconds after
    the [select] starts (never, if [None]); which case the [select] takes
    when both are ready at once; whether the successor has exited by itself
    when the timer fires. *)
Record schedule := {
  fork_received : bool;
  quit_arrival : option Z;
  tie_quit : bool;
  child_gone : bool
}.

(** The case [select] takes: [true] for [<-quitCh], [false] for
    [<-time.After(timeout)], which fires at once for a timeout that is not
    positive. *)
Definition select_quit (timeout : Z) (sch : schedule) : bool :=
  match quit_arrival sch with
  | None => false
  | Some t =>
      (t <? Z.max 0 timeout) || ((t =? Z.max 0 timeout) && tie_quit sch)
  end.

Inductive wait_status :=
| AwaitingFork
| Finished (err : option error).

Definition timeout_error : error :=
  Errorf "Timed out waiting for child to send signal.".

Definition kill_logged (cp : Z) (what : string) : M unit :=
  k <- attempt (Process_Kill cp) ;;
  match k with
  | inr e => logln [LStr what; LErr e]
  | inl _ => ret tt
  end.

Definition Wait (l : listener) (forkSignal quitSignal : Z) (timeout : Z)
    (sch : schedule) : M wait_status :=
  emit (EvNotify [forkSignal]) ;;;
  logln [LStr "Waiting for fork signal from system..."] ;;;
  if negb (fork_received sch) then ret AwaitingFork
  else
    r <- attempt (forkExec l quitSignal) ;;
    match r with
    | inr e => logln [LErr e] ;;; ret (Finished (Some e))
    | inl (cp, Some e) =>
        logln [LErr e] ;;;
        kill_logged cp "Unable to kill process after bad forkExec" ;;;
        ret (Finished (Some e))
    | inl (cp, None) =>
        logln [LStr "Waiting for quit signal from child..."] ;;;
        emit (EvNotify [quitSignal]) ;;;
        if select_quit timeout sch then
          logln [LStr "Received quit signal from child."] ;;;
          ret (Finished None)
        else
          logln [LStr "Received quit signal from child."] ;;;
          (if child_gone sch
           then modify (set_children (fun c => c ∖ {[cp]})) else ret tt) ;;;
          kill_logged cp "Unable to kill process after timeout" ;;;
          ret (Finished (Some timeout_error))
    end.

End BoundedWait.

(** ** Vocabulary of the statements *)

(** Reading a trace: the fields written, the processes started, the calls of
    a hook, the signals sent. *)
Definition writes (t : list event) : list string :=
  omap (fun e => match e with EvSetenv k _ => Some k | _ => None end) t.

Definition apply_writes (t : list event) (e : gmap string string) : gmap string string :=
  foldl (fun m ev => match ev with EvSetenv k v => <[k := v]> m | _ => m end) e t.

Definition spawned (t : list event) : list world :=
  omap (fun e => match e with EvStart _ _ _ c => Some c | _ => None end) t.

Definition hook_calls (name : string) (t : list event) : nat :=
  length (List.filter (fun e => match e with
                                | EvHook n => String.eqb n name
                                | _ => false
                                end) t).

Definition signals_sent (t : list event) : list (Z * Z) :=
  omap (fun e => match e with EvSignal p s => Some (p, s) | _ => None end) t.

Definition execs (t : list event) : list string :=
  omap (fun e => match e with EvExec a => Some a | _ => None end) t.

(** The listener is live in the process: its descriptor is an open socket
    of its family, bound to its address. *)
Definition bound_in (w : world) (l : listener) : Prop :=
  match l with
  | TCPListener fd a => fds w !! fd = Some (Socket SockTCP a)
  | UnixListener fd a => fds w !! fd = Some (Socket SockUnix a)
  | OtherListener _ _ => False
  end.

Definition accepted (l : listener) : Prop :=
  match l with
  | TCPListener _ _ | UnixListener _ _ => True
  | OtherListener _ _ => False
  end.

(** The successor has the two fields [setEnvs] wrote as the predecessor
    left them, and the predecessor's descriptor [fd] at the same number. *)
Definition inherits (parent : world) (fd : Z) (child : world) : Prop :=
  env child !! "GOAGAIN_FD" = env parent !! "GOAGAIN_FD" /\
  env child !! "GOAGAIN_NAME" = env parent !! "GOAGAIN_NAME" /\
  fds child !! fd = fds parent !! fd.

(** Every byte is a decimal digit. *)
Fixpoint all_decimal (s : string) : bool :=
  match s with
  | EmptyString => true
  | String c r => (48 <=? Fmt.code c) && (Fmt.code c <=? 57) && all_decimal r
  end.

(** Nothing but white space, then at most one sign. *)
Definition blank (s : string) : Prop :=
  Fmt.SkipSpace s = "" \/ Fmt.SkipSpace s = "+" \/ Fmt.SkipSpace s = "-".

Definition getenv (w : world) (key : string) : string := default "" (env w !! key).

(** The call sent exactly one signal, [sig] to [p]. *)
Definition sends {A} (r : result A * world * list event) (p sig : Z) : Prop :=
  signals_sent (trace_of r) = [(p, sig)].

(** The pid and the signal the fields of the environment scan to. *)
Definition scanned_pid (w : world) : result Z :=
  match Fmt.Sscan_int (getenv w "GOAGAIN_PID") with
  | Err io_EOF => Fmt.Sscan_int (getenv w "GOAGAIN_PPID")
  | r => r
  end.

Definition scanned_signal (w : world) : Z :=
  match Fmt.Sscan_int (getenv w "GOAGAIN_SIGNAL") with
  | Ok v => v
  | _ => SIGQUIT
  end.

Definition valid_key (k : string) : bool :=
  negb (String.eqb k "" || has_byte 61 k || has_byte 0 k).

(** The order in which the two spawners write the fields of the handoff. *)
Definition fields_strategy : list string :=
  ["GOAGAIN_FD"; "GOAGAIN_NAME"; "GOAGAIN_PID"; "GOAGAIN_PPID";
   "GOAGAIN_SIGNAL"; "GOAGAIN_PID"].


(** What a spawner has done to the handoff fields when it ends in [w'] with
    trace [t], from [w]: the fields are written in the order [fields], the
    environment is the old one with these writes, and no descriptor was
    closed; if it succeeded, all the fields are written and one process was
    started; if not, none was started. *)
Definition handoff_writes (fields : list string) (w : world) (ok : bool)
    (w' : world) (t : list event) : Prop :=
  writes t `prefix_of` fields /\
  env w' = apply_writes t (env w) /\
  (forall fd f, fds w !! fd = Some f -> fds w' !! fd = Some f) /\
  (ok = true -> writes t = fields /\ length (spawned t) = 1%nat) /\
  (ok = false -> children w' = children w /\ spawned t = []).




(** [wp m Q w]: running [m] from [w] ends in a result, a state and a trace
    that satisfy [Q]. *)
Definition wp {A} (m : M A) (Q : result A -> world -> list event -> Prop)
    (w : world) : Prop :=
  Q (result_of (m w)) (world_of (m w)) (trace_of (m w)).

(** Signals after which the loop of [Wait] goes on without spawning. *)
Definition quiet (sig : Z) : bool :=
  negb ((sig =? SIGINT) || (sig =? SIGQUIT) || (sig =? SIGTERM) || (sig =? SIGUSR2)).

(** The descriptor a TCP or unix listener owns. *)
Definition listener_fd (l : listener) : option Z :=
  match l with
  | TCPListener fd _ | UnixListener fd _ => Some fd
  | OtherListener _ _ => None
  end.

(** What the predecessor is when [ForkExec] calls [os.StartProcess]. *)
Definition at_spawn (l : listener) (n : Z) (f : file) (sig : option Z) (w : world) : world :=
  let w4 := set_env (<["GOAGAIN_PPID" := Fmt.Sprint_int (pid w)]>)
              (set_env (<["GOAGAIN_PID" := ""]>)
                 (set_env (<["GOAGAIN_NAME" := fd_name l]>)
                    (set_env (<["GOAGAIN_FD" := Fmt.Sprint_uintptr n]>)
                       (set_fds (<[n := f]>) w)))) in
  match sig with
  | Some s => set_env (<["GOAGAIN_SIGNAL" := Fmt.Sprint_int s]>) w4
  | None => w4
  end.

(** The pid the guard of [Exec] compares the parent pid with. *)
Definition guard_pid (w : world) : Z :=
  match Fmt.Sscan_int (getenv w "GOAGAIN_PID") with Ok p => p | _ => 0 end.

(** [c] is the process a spawn by [w] started, [w'] the predecessor after
    the spawn: the pids, the fields of the handoff as the successor finds
    them, and its descriptors, which are the predecessor's 0, 1, 2 and the
    copy [fd] of the listener's descriptor and nothing else. *)
Definition successor_of (l : listener) (w w' c : world) : Prop :=
  ppid c = pid w /\
  children w' = {[pid c]} ∪ children w /\
  getenv w' "GOAGAIN_PID" = Fmt.Sprint_int (pid c) /\
  getenv c "GOAGAIN_PID" = "" /\
  getenv c "GOAGAIN_PPID" = Fmt.Sprint_int (pid w) /\
  getenv c "GOAGAIN_NAME" = fd_name l /\
  Args c = Args w /\ Strategy c = Strategy w /\ nofile c = nofile w /\
  exists fd lfd,
    Fmt.Sscan_uintptr (getenv c "GOAGAIN_FD") = Ok fd /\ 2 <= fd /\
    listener_fd l = Some lfd /\ is_Some (fds w !! lfd) /\
    fds c !! fd = fds w !! lfd /\
    forall k, fds c !! k =
              if (k =? 0) || (k =? 1) || (k =? 2) || (k =? fd)
              then fds w' !! k else None.

(** The process an image becomes: this environment in place of the old. *)
Definition reexecuted (img : StrategyGen.image) (w : world) : world :=
  set_env (fun _ => StrategyGen.img_env img) w.

(** Signals that make [Wait] return at once. *)
Definition terminating (sig : Z) : bool :=
  (sig =? SIGINT) || (sig =? SIGQUIT) || (sig =? SIGTERM).

(** Signals that do nothing but call a hook. *)
Definition hook_signal (sig : Z) : bool := (sig =? SIGHUP) || (sig =? SIGUSR1).

(** Looking a variable up in an environment written by [Setenv]. *)
Ltac env_lookup :=
  repeat first [ rewrite lookup_insert_eq
               | rewrite lookup_insert_ne by discriminate ].

(** ** Concrete processes used in the examples *)

Definition tcp_addr : Addr := {| Network := "tcp"; AddrString := "127.0.0.1:48879" |}.
Definition unix_addr : Addr := {| Network := "unix"; AddrString := "/tmp/goagain.sock" |}.

Definition stdio : gmap Z file :=
  <[0 := Plain "/dev/stdin"]> (<[1 := Plain "/dev/stdout"]> (<[2 := Plain "/dev/stderr"]> ∅)).

(** A server with pid 4242 started from a shell with pid 100, listening on
    descriptor 3, with nothing of the handoff in its environment. *)
Definition server (st : strategy) (sock : file) : world :=
  {| env := ∅; fds := <[3 := sock]> stdio; nofile := 16;
     pid := 4242; ppid := 100; Args := ["./server"]; children := ∅;
     Strategy := st; Logger := true;
     sys_LookPath := fun a => Ok ("/srv/" +:+ a);
     sys_Stat := fun _ => None;
     sys_Getwd := Ok "/srv";
     sys_StartProcess := fun _ => Ok 4243;
     sys_Exec := fun _ => None;
     sys_Kill := fun _ _ => None |}.

Definition tcp_server (st : strategy) : world := server st (Socket SockTCP tcp_addr).


Definition tcp_listener : listener := TCPListener 3 tcp_addr.
Definition unix_listener : listener := UnixListener 3 unix_addr.

(** The process that [ForkExec] starts from the server, as it begins. *)
Definition successor (st : strategy) : world :=
  match spawned (trace_of (StrategyGen.ForkExec tcp_listener (tcp_server st))) with
  | c :: _ => c
  | [] => tcp_server st
  end.

(** A process with just these variables in its environment. *)
Definition with_env (vars : list (string * string)) : world :=
  set_env (fun _ => list_to_map vars) (tcp_server Single).

(** A process whose successor-pid field holds one space. *)
Definition blank_pid_env : world :=
  with_env [("GOAGAIN_PID", " "); ("GOAGAIN_PPID", "4242")].

(** A reload hook that always fails. *)
Definition failing_hook : StrategyGen.hook :=
  fun _ w => (Some (Errorf "reload failed"), w).

(** A run of the bounded [Wait] in which the successor never answers. *)
Definition silent_successor : BoundedWait.schedule :=
  {| BoundedWait.fork_received := true; BoundedWait.quit_arrival := None;
     BoundedWait.tie_quit := false; BoundedWait.child_gone := false |}.

(** The server after its executable was removed from the disk. *)
Definition moved_server (st : strategy) : world :=
  let w := tcp_server st in
  {| env := env w; fds := fds w; nofile := nofile w; pid := pid w;
     ppid := ppid w; Args := Args w; children := children w;
     Strategy := Strategy w; Logger := Logger w;
     sys_LookPath := sys_LookPath w;
     sys_Stat := fun _ => Some (Errno "stat: no such file or directory");
     sys_Getwd := sys_Getwd w; sys_StartProcess := sys_StartProcess w;
     sys_Exec := sys_Exec w; sys_Kill := sys_Kill w |}.

(** The server started with its standard input closed. *)
Definition detached_server (st : strategy) : world :=
  set_fds (delete 0) (tcp_server st).

(** The server run as the first process of a container: no parent. *)
Definition init_server (st : strategy) : world :=
  let w := tcp_server st in
  {| env := env w; fds := fds w; nofile := nofile w; pid := 1;
     ppid := 0; Args := Args w; children := children w;
     Strategy := Strategy w; Logger := Logger w;
     sys_LookPath := sys_LookPath w; sys_Stat := sys_Stat w;
     sys_Getwd := sys_Getwd w; sys_StartProcess := sys_StartProcess w;
     sys_Exec := sys_Exec w; sys_Kill := sys_Kill w |}.

(** The image [Exec] starts in the server once it has spawned its
    successor, and the server as that image. *)
Definition second_image : StrategyGen.image :=
  let w1 := world_of (StrategyGen.ForkExec tcp_listener (tcp_server Double)) in
  match result_of (StrategyGen.Exec tcp_listener w1) with
  | Ok img => img
  | _ => {| StrategyGen.img_argv0 := ""; StrategyGen.img_args := [];
            StrategyGen.img_env := ∅ |}
  end.

Definition reexecuted_server : world :=
  reexecuted second_image
    (world_of (StrategyGen.ForkExec tcp_listener (tcp_server Double))).

(** A run of the bounded [Wait] in which the successor answers after a
    millisecond. *)
Definition prompt_successor : BoundedWait.schedule :=
  {| BoundedWait.fork_received := true; BoundedWait.quit_arrival := Some 1000000;
     BoundedWait.tie_quit := false; BoundedWait.child_gone := false |}.

(** * Properties *)

(** ** The scanner and the printer *)

Example scan_examples :
  Fmt.Sscan_int "" = Err io_EOF /\
  Fmt.Sscan_int " " = Err io_EOF /\
  Fmt.Sscan_int "-" = Err io_EOF /\
  Fmt.Sscan_int "4242" = Ok 4242 /\
  Fmt.Sscan_int " -17 rest" = Ok (-17) /\
  Fmt.Sscan_int "0x1f" = Ok 31 /\
  Fmt.Sscan_int "010" = Ok 8 /\
  Fmt.Sscan_int "1_000" = Ok 1000 /\
  Fmt.Sscan_int "1__0" = Err (NumError "ParseInt" "1__0" ErrSyntax) /\
  Fmt.Sscan_int "abc" = Err ErrExpectedInteger /\
  Fmt.Sscan_int "9223372036854775808" = Err (NumError "ParseInt" "9223372036854775808" ErrRange) /\
  Fmt.Sscan_uintptr "7" = Ok 7 /\
  Fmt.Sscan_uintptr "-7" = Err ErrExpectedInteger /\
  Fmt.Sprint_uintptr 18446744073709551615 = "18446744073709551615" /\
  Fmt.Sprint_int (-12) = "-12" /\
  Fmt.Sprint_int 0 = "0".
Proof. repeat split; vm_compute; reflexivity. Qed.

Example unix_handoff :
  let parent := server Double (Socket SockUnix unix_addr) in
  let run := StrategyGen.ForkExec unix_listener parent in
  result_of run = Ok tt /\
  getenv (world_of run) "GOAGAIN_NAME" = "unix:/tmp/goagain.sock->" /\
  (fun c => result_of (Listener c)) <$> spawned (trace_of run) =
    [Ok (UnixListener 3 unix_addr)] /\
  (fun c => signals_sent (trace_of (StrategyGen.Kill c))) <$> spawned (trace_of run) =
    [[(4242, SIGUSR2)]].
Proof. cbv zeta. repeat split; vm_compute; reflexivity. Qed.

Section FmtRoundTrip.

Import Fmt.

Lemma code_digit_char (d : Z) : 0 <= d < 10 -> code (digit_char d) = 48 + d.
Proof.
  intros H.
  assert (d = 0 \/ d = 1 \/ d = 2 \/ d = 3 \/ d = 4 \/ d = 5 \/ d = 6 \/
          d = 7 \/ d = 8 \/ d = 9) as Hd by lia.
  repeat (destruct Hd as [-> | Hd]; [reflexivity |]).
  subst d. reflexivity.
Qed.

Lemma append_cons (c : ascii) (s1 s2 : string) :
  String c s1 +:+ s2 = String c (s1 +:+ s2).
Proof. reflexivity. Qed.

Lemma append_nil (s : string) : "" +:+ s = s.
Proof. reflexivity. Qed.

Lemma append_String_assoc (s1 s2 s3 : string) :
  (s1 +:+ s2) +:+ s3 = s1 +:+ (s2 +:+ s3).
Proof.
  induction s1 as [| c s1 IH]; [reflexivity |].
  now rewrite !append_cons, IH.
Qed.

Lemma fmt_digits_acc (f : nat) : forall u acc,
  fmt_digits f u acc = fmt_digits f u "" +:+ acc.
Proof.
  induction f as [| f IH]; intros u acc; simpl; [reflexivity |].
  destruct (u <? 10); [reflexivity |].
  rewrite (IH (u / 10) (String _ acc)), (IH (u / 10) (String _ "")).
  now rewrite append_String_assoc, append_cons, append_nil.
Qed.

Lemma fmt_digits_step (f : nat) (u : Z) :
  fmt_digits (S f) u "" =
  if u <? 10 then String (digit_char u) ""
  else fmt_digits f (u / 10) "" +:+ String (digit_char (u mod 10)) "".
Proof. simpl. destruct (u <? 10); [reflexivity | apply fmt_digits_acc]. Qed.

Lemma ParseUint_loop_app (b : Z) (s1 : string) : forall n us s2,
  ParseUint_loop b n us (s1 +:+ s2) =
  match ParseUint_loop b n us s1 with
  | DigitsOk n' us' => ParseUint_loop b n' us' s2
  | r => r
  end.
Proof.
  induction s1 as [| c s1 IH]; intros n us s2; [reflexivity |].
  rewrite append_cons. simpl.
  destruct (code c =? 95); [apply IH |].
  destruct (if (48 <=? code c) && (code c <=? 57) then _ else _) as [d |];
    [| reflexivity].
  repeat (match goal with |- context [if ?c then _ else _] => destruct c end;
          try reflexivity).
  apply IH.
Qed.

Lemma ParseUint_digit (n d : Z) :
  0 <= d < 10 -> 0 <= n -> n * 10 + d <= maxUint64 ->
  ParseUint_loop 10 n false (String (digit_char d) "") = DigitsOk (n * 10 + d) false.
Proof.
  intros Hd Hn Hmax. unfold maxUint64 in Hmax. simpl.
  rewrite (code_digit_char d Hd).
  replace (48 + d =? 95) with false by lia.
  replace ((48 <=? 48 + d) && (48 + d <=? 57)) with true by lia.
  replace (48 + d - 48) with d by lia.
  replace (10 <=? d) with false by lia.
  replace (maxUint64 / 10 + 1 <=? n) with false
    by (unfold maxUint64; symmetry; apply Z.leb_gt;
        change (2 ^ 64 - 1) with 18446744073709551615;
        change (18446744073709551615 / 10) with 1844674407370955161; lia).
  replace (maxUint64 <? n * 10 + d) with false by (unfold maxUint64; lia).
  reflexivity.
Qed.

Lemma ParseUint_loop_fmt (f : nat) : forall u,
  0 <= u < 10 ^ Z.of_nat f -> u <= maxUint64 ->
  ParseUint_loop 10 0 false (fmt_digits f u "") = DigitsOk u false.
Proof.
  induction f as [| f IH]; intros u Hu Hmax.
  - simpl in Hu. assert (u = 0) as -> by lia. reflexivity.
  - rewrite fmt_digits_step. destruct (Z.ltb_spec u 10) as [Hlt | Hge].
    + rewrite (ParseUint_digit 0 u) by (simpl; lia). f_equal.
    + rewrite ParseUint_loop_app.
      assert (0 <= u / 10 < 10 ^ Z.of_nat f) as Hq.
      { split; [apply Z.div_pos; lia |].
        apply Z.div_lt_upper_bound; [lia |].
        rewrite Nat2Z.inj_succ, Z.pow_succ_r in Hu by lia. lia. }
      assert (u / 10 * 10 + u mod 10 = u) as Heq.
      { pose proof (Z.div_mod u 10 ltac:(lia)). lia. }
      rewrite IH; [| exact Hq |].
      * rewrite ParseUint_digit; [now rewrite Heq | | lia | lia].
        apply Z.mod_pos_bound; lia.
      * pose proof (Z.mod_pos_bound u 10 ltac:(lia)). lia.
Qed.

(** Every byte the printer writes is a decimal digit. *)
Lemma all_decimal_app (s1 s2 : string) :
  all_decimal (s1 +:+ s2) = all_decimal s1 && all_decimal s2.
Proof.
  induction s1 as [| c s1 IH]; [reflexivity |].
  rewrite append_cons. simpl. rewrite IH. now rewrite andb_assoc.
Qed.

Lemma all_decimal_digit (d : Z) :
  0 <= d < 10 -> all_decimal (String (digit_char d) "") = true.
Proof. intros H. simpl. rewrite (code_digit_char d H). lia. Qed.

Lemma fmt_digits_decimal (f : nat) : forall u,
  0 <= u -> all_decimal (fmt_digits f u "") = true.
Proof.
  induction f as [| f IH]; intros u Hu; [reflexivity |].
  rewrite fmt_digits_step. destruct (Z.ltb_spec u 10).
  - apply all_decimal_digit; lia.
  - rewrite all_decimal_app, IH by (apply Z.div_pos; lia).
    apply all_decimal_digit, Z.mod_pos_bound; lia.
Qed.

Lemma accept_all_decimal (s : string) :
  all_decimal s = true -> accept_all decimalDigits s = (s, "").
Proof.
  induction s as [| c s IH]; simpl; [reflexivity |].
  intros H. apply andb_prop in H as [Hc Hs].
  unfold in_digits. rewrite Hc, orb_true_r, (IH Hs). reflexivity.
Qed.

(** A number that is not zero is printed with a first digit from 1 to 9. *)
Lemma fmt_digits_head (f : nat) : forall u,
  1 <= u < 10 ^ Z.of_nat f ->
  exists c r, fmt_digits f u "" = String c r /\ 49 <= code c <= 57.
Proof.
  induction f as [| f IH]; intros u Hu; [simpl in Hu; lia |].
  rewrite fmt_digits_step. destruct (Z.ltb_spec u 10) as [Hlt | Hge].
  - eexists _, _. split; [reflexivity |]. rewrite code_digit_char; lia.
  - destruct (IH (u / 10)) as (c & r & -> & Hc).
    + split; [apply Z.div_le_lower_bound; lia |].
      apply Z.div_lt_upper_bound; [lia |].
      rewrite Nat2Z.inj_succ, Z.pow_succ_r in Hu by lia. lia.
    + rewrite append_cons. eauto.
Qed.

Lemma SkipSpace_graphic (c : ascii) (r : string) :
  33 <= code c <= 127 -> SkipSpace (String c r) = String c r.
Proof.
  intros H. simpl.
  replace (is_space1 (code c)) with false by (unfold is_space1; lia).
  destruct r as [| c2 r2]; [reflexivity |].
  replace (is_space2 (code c) (code c2)) with false by (unfold is_space2; lia).
  destruct r2 as [| c3 r3]; [reflexivity |].
  replace (is_space3 (code c) (code c2) (code c3)) with false
    by (unfold is_space3; lia).
  reflexivity.
Qed.

Lemma Sscan_Sprint_uintptr (v : Z) :
  0 <= v < 2 ^ 64 -> Sscan_uintptr (Sprint_uintptr v) = Ok v.
Proof.
  intros Hv. unfold Sprint_uintptr. rewrite Z.mod_small by exact Hv.
  destruct (Z.eq_dec v 0) as [-> | Hnz]; [reflexivity |].
  assert (1 <= v < 10 ^ Z.of_nat 20) as Hr
    by (change (10 ^ Z.of_nat 20) with 100000000000000000000;
        change (2 ^ 64) with 18446744073709551616 in Hv; lia).
  destruct (fmt_digits_head 20 v Hr) as (c & r & Heq & Hc).
  pose proof (fmt_digits_decimal 20 v ltac:(lia)) as Hdec.
  pose proof (ParseUint_loop_fmt 20 v ltac:(lia)
                ltac:(unfold maxUint64; lia)) as Hloop.
  rewrite Heq in *. unfold Sscan_uintptr.
  rewrite SkipSpace_graphic by lia.
  unfold scanBasePrefix. replace (code c =? 48) with false by lia.
  unfold scanNumber. simpl in Hdec.
  assert (in_digits decimalDigits (code c) = true) as ->
    by (unfold in_digits; lia).
  rewrite (accept_all_decimal (String c r)) by exact Hdec. simpl fst.
  rewrite append_nil.
  unfold ParseUint. replace (code c =? 48) with false by lia.
  rewrite Hloop. reflexivity.
Qed.

Lemma all_decimal_no_NUL (s : string) :
  all_decimal s = true -> has_byte 0 s = false.
Proof.
  induction s as [| c s IH]; simpl; [reflexivity |].
  intros H. apply andb_prop in H as [Hc Hs]. rewrite (IH Hs).
  apply andb_prop in Hc as [Hlo _]. lia.
Qed.

Lemma Sprint_uintptr_no_NUL (v : Z) : has_byte 0 (Sprint_uintptr v) = false.
Proof.
  apply all_decimal_no_NUL, fmt_digits_decimal, Z.mod_pos_bound.
  reflexivity.
Qed.

Lemma Sprint_int_no_NUL (v : Z) : has_byte 0 (Sprint_int v) = false.
Proof.
  unfold Sprint_int. destruct (Z.ltb_spec v 0).
  - change (has_byte 0 (String "-" ?s)) with (false || has_byte 0 s).
    apply all_decimal_no_NUL, fmt_digits_decimal. lia.
  - apply all_decimal_no_NUL, fmt_digits_decimal. lia.
Qed.

End FmtRoundTrip.

Lemma ParseUint_never_panics (s : string) (m : string) : Fmt.ParseUint s <> Panic m.
Proof.
  unfold Fmt.ParseUint. destruct s as [| c r]; [discriminate |].
  destruct (if Fmt.code c =? 48 then _ else _) as [base body].
  destruct (Fmt.ParseUint_loop base 0 false body) as [n us | |];
    try discriminate.
  destruct (us && negb (Fmt.underscoreOK (String c r))); discriminate.
Qed.

Lemma ParseInt_outcome (s : string) :
  match Fmt.ParseInt s with
  | Ok _ | Err (NumError _ _ _) => True
  | _ => False
  end.
Proof.
  unfold Fmt.ParseInt. destruct s as [| c r]; [exact I |].
  destruct (Fmt.ParseUint _) as [un | e | m] eqn:Hu.
  - repeat match goal with |- context [if ?b then _ else _] => destruct b end;
      exact I.
  - destruct e as [| | fn num []| |]; exact I.
  - now apply ParseUint_never_panics in Hu.
Qed.

Lemma code_inj (c d : ascii) : Fmt.code c = Fmt.code d -> c = d.
Proof.
  unfold Fmt.code. intros H. apply N2Z.inj in H.
  rewrite <- (ascii_N_embedding c), <- (ascii_N_embedding d). now rewrite H.
Qed.

Lemma sign_char (c : ascii) :
  (Fmt.code c =? 43) || (Fmt.code c =? 45) = true ->
  c = "+"%char \/ c = "-"%char.
Proof.
  intros H. apply orb_true_iff in H as [H | H]; apply Z.eqb_eq in H;
    [left | right]; now apply code_inj.
Qed.

Lemma scanNumber_EOF (ds : Fmt.digit_set) (have : bool) (s : string) :
  Fmt.scanNumber ds have s = Err io_EOF -> have = false /\ s = "".
Proof.
  unfold Fmt.scanNumber. destruct have; [discriminate |].
  destruct s as [| c r]; [tauto |].
  destruct (Fmt.in_digits ds (Fmt.code c)); discriminate.
Qed.

Lemma scanBasePrefix_rest (s pre s3 : string) (ds : Fmt.digit_set) :
  Fmt.scanBasePrefix s = (pre, ds, false, s3) -> s3 = s.
Proof.
  unfold Fmt.scanBasePrefix. destruct s as [| c r]; [now intros [= <-] |].
  destruct (Fmt.code c =? 48); [| now intros [= <-]].
  destruct r as [| c2 r2]; [discriminate |].
  repeat match goal with |- context [if ?b then _ else _] => destruct b end;
    discriminate.
Qed.

(** The scanner reports [io.EOF] exactly on a blank input. *)
Lemma Sscan_int_EOF (s : string) :
  Fmt.Sscan_int s = Err io_EOF <-> blank s.
Proof.
  unfold blank, Fmt.Sscan_int.
  destruct (Fmt.SkipSpace s) as [| c r]; [tauto |].
  split.
  - destruct ((Fmt.code c =? 43) || (Fmt.code c =? 45)) eqn:Hsign.
    + destruct (Fmt.scanBasePrefix r) as [[[pre ds] have] s3] eqn:Hpre.
      destruct (Fmt.scanNumber ds have s3) as [body | e | m] eqn:Hn.
      * intros E. pose proof (ParseInt_outcome (String c "" +:+ pre +:+ body)) as Ho.
        rewrite E in Ho. destruct Ho.
      * intros [= ->]. apply scanNumber_EOF in Hn as [-> ->].
        apply scanBasePrefix_rest in Hpre as <-.
        right. destruct (sign_char c Hsign) as [-> | ->]; tauto.
      * discriminate.
    + destruct (Fmt.scanBasePrefix (String c r)) as [[[pre ds] have] s3] eqn:Hpre.
      destruct (Fmt.scanNumber ds have s3) as [body | e | m] eqn:Hn.
      * intros E. pose proof (ParseInt_outcome ("" +:+ pre +:+ body)) as Ho.
        rewrite E in Ho. destruct Ho.
      * intros [= ->]. apply scanNumber_EOF in Hn as [-> ->].
        now apply scanBasePrefix_rest in Hpre.
      * discriminate.
  - intros [H | [H | H]]; [discriminate | |]; injection H as -> ->; reflexivity.
Qed.

Lemma Sscan_int_never_panics (s m : string) : Fmt.Sscan_int s <> Panic m.
Proof.
  unfold Fmt.Sscan_int. destruct (Fmt.SkipSpace s) as [| c r]; [discriminate |].
  destruct (if (Fmt.code c =? 43) || (Fmt.code c =? 45) then _ else _) as [sign s2].
  destruct (Fmt.scanBasePrefix s2) as [[[pre ds] have] s3].
  destruct (Fmt.scanNumber ds have s3) as [body | e | p] eqn:Hn.
  - pose proof (ParseInt_outcome (sign +:+ pre +:+ body)) as Ho.
    intros E. rewrite E in Ho. exact Ho.
  - discriminate.
  - unfold Fmt.scanNumber in Hn.
    repeat match type of Hn with
           | context [if ?b then _ else _] => destruct b
           | context [match ?x with _ => _ end] => destruct x
           end; discriminate.
Qed.

Lemma Sscan_int_unset : Fmt.Sscan_int "" = Err io_EOF.
Proof. reflexivity. Qed.

(** ** Running the monad *)

Lemma bind_Ok {A B} (m : M A) (f : A -> M B) w b w' t :
  bind m f w = (Ok b, w', t) ->
  exists a w1 t1 t2,
    m w = (Ok a, w1, t1) /\ f a w1 = (Ok b, w', t2) /\ t = t1 ++ t2.
Proof.
  unfold bind. destruct (m w) as [[[a | e | s] w1] t1]; try discriminate.
  destruct (f a w1) as [[r w2] t2] eqn:Hf. intros [= -> -> <-].
  eauto 8.
Qed.

Lemma bind_run {A B} (m : M A) (f : A -> M B) w a w1 t1 :
  m w = (Ok a, w1, t1) ->
  bind m f w = (result_of (f a w1), world_of (f a w1), t1 ++ trace_of (f a w1)).
Proof.
  intros H. unfold bind. rewrite H.
  destruct (f a w1) as [[r w2] t2]. reflexivity.
Qed.

Lemma triple_eta {A} (x : result A * world * list event) :
  x = (result_of x, world_of x, trace_of x).
Proof. now destruct x as [[r w] t]. Qed.

Lemma Setenv_run (k v : string) (w : world) :
  valid_key k = true ->
  Setenv k v w =
  if has_byte 0 v then (Err (Errno "setenv: invalid argument"), w, [])
  else (Ok tt, set_env (<[k := v]>) w, [EvSetenv k v]).
Proof.
  unfold valid_key, Setenv. intros H. apply negb_true_iff in H.
  rewrite H. simpl. destruct (has_byte 0 v); reflexivity.
Qed.

Lemma getenv_run (k : string) (w : world) :
  Getenv k w = (Ok (getenv w k), w, []).
Proof. reflexivity. Qed.

Lemma lowest_free_spec (t : gmap Z file) (limit : nat) (n : Z) :
  lowest_free t limit = Some n -> t !! n = None /\ 0 <= n < 2 ^ 31.
Proof.
  unfold lowest_free. intros H. apply find_some in H as [Hin Hfree].
  apply bool_decide_eq_true in Hfree. split; [exact Hfree |].
  apply list_elem_of_In, list_elem_of_fmap in Hin as (i & -> & Hi).
  apply elem_of_seq in Hi. lia.
Qed.

(** What a successful [setEnvs] has done. *)
Lemma setEnvs_Ok (l : listener) (w w' : world) (fd : Z) (t : list event) :
  setEnvs l w = (Ok fd, w', t) ->
  exists lfd f,
    (l = TCPListener lfd (Addr_of l) \/ l = UnixListener lfd (Addr_of l)) /\
    fds w !! lfd = Some f /\
    fds w !! fd = None /\ 0 <= fd < 2 ^ 31 /\
    w' = set_env (<["GOAGAIN_NAME" := fd_name l]>)
           (set_env (<["GOAGAIN_FD" := Fmt.Sprint_uintptr fd]>)
              (set_fds (<[fd := f]>) w)) /\
    t = [EvSetenv "GOAGAIN_FD" (Fmt.Sprint_uintptr fd);
         EvSetenv "GOAGAIN_NAME" (fd_name l)].
Proof.
  unfold setEnvs. intros H.
  apply bind_Ok in H as (n & w1 & t1 & t2 & Hfile & H & ->).
  apply bind_Ok in H as ([] & w2 & t3 & t4 & Hfd & H & ->).
  apply bind_Ok in H as ([] & w3 & t5 & t6 & Hname & H & ->).
  injection H as <- <- <-.
  rewrite Setenv_run in Hfd, Hname by reflexivity.
  rewrite Sprint_uintptr_no_NUL in Hfd. injection Hfd as <- <-.
  destruct (has_byte 0 (fd_name l)); [discriminate |].
  injection Hname as <- <-.
  assert (exists lfd, (l = TCPListener lfd (Addr_of l) \/
                       l = UnixListener lfd (Addr_of l)) /\
                      dup lfd w = (Ok n, w1, t1)) as (lfd & Hl & Hdup).
  { destruct l as [lfd a | lfd a |]; [eauto | eauto | discriminate]. }
  unfold dup in Hdup.
  destruct (fds w !! lfd) as [f |] eqn:Hlook; [| discriminate].
  destruct (lowest_free (fds w) (nofile w)) as [m |] eqn:Hfree; [| discriminate].
  injection Hdup as <- <- <-.
  apply lowest_free_spec in Hfree as [Hnone Hrange].
  exists lfd, f. repeat split; try assumption; lia.
Qed.

Lemma signals_sent_app (t1 t2 : list event) :
  signals_sent (t1 ++ t2) = signals_sent t1 ++ signals_sent t2.
Proof. apply omap_app. Qed.

Lemma spawned_app (t1 t2 : list event) :
  spawned (t1 ++ t2) = spawned t1 ++ spawned t2.
Proof. apply omap_app. Qed.

Lemma hook_calls_app (name : string) (t1 t2 : list event) :
  hook_calls name (t1 ++ t2) = (hook_calls name t1 + hook_calls name t2)%nat.
Proof. unfold hook_calls. now rewrite List.filter_app, length_app. Qed.

Lemma not_elem_of_remove (c : gset Z) (p : Z) : p ∉ c ∖ {[p]}.
Proof.
  intros H. apply elem_of_difference in H as [_ H].
  apply H, elem_of_singleton. reflexivity.
Qed.

Lemma insert_keeps_open (t : gmap Z file) (n fd : Z) (f g : file) :
  t !! n = None -> t !! fd = Some f -> <[n := g]> t !! fd = Some f.
Proof.
  intros Hn Hfd. rewrite lookup_insert_ne; [exact Hfd | congruence].
Qed.

(** ** A weakest-precondition calculus for [M] *)

Section WP.

Context {A : Type}.
Implicit Types Q : result A -> world -> list event -> Prop.

Lemma wp_ret (a : A) Q w : Q (Ok a) w [] -> wp (ret a) Q w.
Proof. exact id. Qed.

Lemma wp_fail (e : error) Q w : Q (Err e) w [] -> wp (fail e) Q w.
Proof. exact id. Qed.

Lemma wp_panic (s : string) Q w : Q (Panic s) w [] -> wp (panic s) Q w.
Proof. exact id. Qed.

Lemma wp_lift (r : result A) Q w : Q r w [] -> wp (lift r) Q w.
Proof. exact id. Qed.

Lemma wp_get (f : world -> A) Q w : Q (Ok (f w)) w [] -> wp (get f) Q w.
Proof. exact id. Qed.

Lemma wp_bind {B} (m : M B) (f : B -> M A) Q w :
  wp m (fun r w1 t1 =>
          match r with
          | Ok b => wp (f b) (fun r' w2 t2 => Q r' w2 (t1 ++ t2)) w1
          | Err e => Q (Err e) w1 t1
          | Panic s => Q (Panic s) w1 t1
          end) w ->
  wp (bind m f) Q w.
Proof.
  unfold wp, bind, result_of, world_of, trace_of.
  destruct (m w) as [[[b | e | s] w1] t1]; cbn; [| exact id | exact id].
  destruct (f b w1) as [[r w2] t2]. exact id.
Qed.

Lemma wp_run (m : M A) Q (w w' : world) r t :
  wp m Q w -> m w = (r, w', t) -> Q r w' t.
Proof. unfold wp. intros H E. now rewrite E in H. Qed.

End WP.

Lemma wp_attempt {A} (m : M A) (Q : result (A + error) -> world -> list event -> Prop) w :
  wp m (fun r w1 t1 =>
          match r with
          | Ok a => Q (Ok (inl a)) w1 t1
          | Err e => Q (Ok (inr e)) w1 t1
          | Panic s => Q (Panic s) w1 t1
          end) w ->
  wp (attempt m) Q w.
Proof.
  unfold wp, attempt, result_of, world_of, trace_of.
  destruct (m w) as [[[a | e | s] w1] t1]; exact id.
Qed.

Lemma wp_modify (f : world -> world) Q w : Q (Ok tt) (f w) [] -> wp (modify f) Q w.
Proof. exact id. Qed.

Lemma wp_emit (e : event) Q w : Q (Ok tt) w [e] -> wp (emit e) Q w.
Proof. exact id. Qed.

Lemma wp_logln (vs : list logval) Q w :
  Q (Ok tt) w (if Logger w then [EvLog vs] else []) -> wp (logln vs) Q w.
Proof. exact id. Qed.

Lemma wp_Getenv (k : string) Q w : Q (Ok (getenv w k)) w [] -> wp (Getenv k) Q w.
Proof. exact id. Qed.

Lemma wp_Setenv (k v : string) Q w :
  valid_key k = true ->
  (has_byte 0 v = true -> Q (Err (Errno "setenv: invalid argument")) w []) ->
  (has_byte 0 v = false -> Q (Ok tt) (set_env (<[k := v]>) w) [EvSetenv k v]) ->
  wp (Setenv k v) Q w.
Proof.
  intros Hk He Ho. unfold wp. rewrite Setenv_run by exact Hk.
  destruct (has_byte 0 v); [apply He | apply Ho]; reflexivity.
Qed.

Lemma wp_dup (fd : Z) Q w :
  (fds w !! fd = None -> Q (Err (Errno "bad file descriptor")) w []) ->
  (forall f, fds w !! fd = Some f ->
             lowest_free (fds w) (nofile w) = None ->
             Q (Err (Errno "too many open files")) w []) ->
  (forall f n, fds w !! fd = Some f -> fds w !! n = None -> 0 <= n < 2 ^ 31 ->
               Q (Ok n) (set_fds (<[n := f]>) w) []) ->
  wp (dup fd) Q w.
Proof.
  intros H1 H2 H3. unfold wp, dup.
  destruct (fds w !! fd) as [f |] eqn:Hfd; [| now apply H1].
  destruct (lowest_free (fds w) (nofile w)) as [n |] eqn:Hfree.
  - apply lowest_free_spec in Hfree as [Hn Hr]. now apply (H3 f n).
  - now apply (H2 f).
Qed.

Lemma wp_exec_LookPath (a : string) Q w :
  Q (sys_LookPath w a) w [] -> wp (exec_LookPath a) Q w.
Proof. exact id. Qed.

Lemma wp_Stat (a : string) Q w :
  Q (match sys_Stat w a with Some e => Err e | None => Ok tt end) w [] ->
  wp (Stat a) Q w.
Proof. exact id. Qed.

Lemma wp_Getwd Q w : Q (sys_Getwd w) w [] -> wp Getwd Q w.
Proof. exact id. Qed.

Lemma wp_StartProcess (argv0 dir : string) (files : list (option Z)) Q w :
  (forall p, sys_StartProcess w argv0 = Ok p ->
             Q (Ok p) (set_children (fun c => {[p]} ∪ c) w)
               [EvStart argv0 dir files (child_world w files p)]) ->
  (forall e, sys_StartProcess w argv0 = Err e -> Q (Err e) w []) ->
  (forall s, sys_StartProcess w argv0 = Panic s -> Q (Panic s) w []) ->
  wp (StartProcess argv0 dir files) Q w.
Proof.
  intros H1 H2 H3. unfold wp, StartProcess.
  destruct (sys_StartProcess w argv0) as [p | e | s];
    [apply H1 | apply H2 | apply H3]; reflexivity.
Qed.

Lemma wp_lookPath Q w :
  (forall r, Q r w []) -> wp lookPath Q w.
Proof.
  intros H. unfold lookPath. apply wp_bind, wp_get.
  destruct (Args w) as [| a0 args]; [apply wp_panic, H |].
  apply wp_bind, wp_exec_LookPath.
  destruct (sys_LookPath w a0) as [argv0 | e | s]; [| apply H | apply H].
  apply wp_bind, wp_Stat.
  destruct (sys_Stat w argv0); [apply H |]. apply wp_ret, H.
Qed.

(** The steps of [setEnvs], for any postcondition. *)
Lemma wp_setEnvs (l : listener) Q w :
  (forall e, Q (Err e) w []) ->
  (forall lfd f n,
      (l = TCPListener lfd (Addr_of l) \/ l = UnixListener lfd (Addr_of l)) ->
      fds w !! lfd = Some f -> fds w !! n = None -> 0 <= n < 2 ^ 31 ->
      let w1 := set_env (<["GOAGAIN_FD" := Fmt.Sprint_uintptr n]>)
                        (set_fds (<[n := f]>) w) in
      (has_byte 0 (fd_name l) = true ->
       forall e, Q (Err e) w1 [EvSetenv "GOAGAIN_FD" (Fmt.Sprint_uintptr n)]) /\
      (has_byte 0 (fd_name l) = false ->
       Q (Ok n) (set_env (<["GOAGAIN_NAME" := fd_name l]>) w1)
         [EvSetenv "GOAGAIN_FD" (Fmt.Sprint_uintptr n);
          EvSetenv "GOAGAIN_NAME" (fd_name l)])) ->
  wp (setEnvs l) Q w.
Proof.
  intros Herr Hok. unfold setEnvs. apply wp_bind.
  assert (forall lfd,
    (l = TCPListener lfd (Addr_of l) \/ l = UnixListener lfd (Addr_of l)) ->
    wp (File lfd)
      (fun r w1 t1 =>
         match r with
         | Ok b =>
             wp (Setenv "GOAGAIN_FD" (Fmt.Sprint_uintptr b);;;
                 Setenv "GOAGAIN_NAME" (fd_name l);;; ret b)
               (fun r' w2 t2 => Q r' w2 (t1 ++ t2)) w1
         | Err e => Q (Err e) w1 t1
         | Panic s => Q (Panic s) w1 t1
         end) w) as Hfile.
  { intros lfd Hl. apply wp_dup; [intros; apply Herr | intros; apply Herr |].
    intros f n Hf Hn Hr. destruct (Hok lfd f n Hl Hf Hn Hr) as [Hbad Hgood].
    apply wp_bind, wp_Setenv; [reflexivity | |].
    - now rewrite Sprint_uintptr_no_NUL.
    - intros _. apply wp_bind, wp_Setenv; [reflexivity | |].
      + intros Hb. apply Hbad, Hb.
      + intros Hb. apply wp_ret. apply Hgood, Hb. }
  destruct l as [lfd a | lfd a | ty a].
  - apply Hfile. now left.
  - apply Hfile. now right.
  - apply wp_fail, Herr.
Qed.

(** ** Every path of the two spawners *)

(** The paths of [ForkExec], for any postcondition: it fails before any
    field is written; or after [GOAGAIN_FD] alone; or after the five fields
    written before the spawn; or it succeeds. *)
Lemma wp_ForkExec (l : listener) Q w :
  (forall r, (forall u, r <> Ok u) -> Q r w []) ->
  (forall lfd f n,
      (l = TCPListener lfd (Addr_of l) \/ l = UnixListener lfd (Addr_of l)) ->
      fds w !! lfd = Some f -> fds w !! n = None -> 0 <= n < 2 ^ 31 ->
      let w1 := set_env (<["GOAGAIN_FD" := Fmt.Sprint_uintptr n]>)
                        (set_fds (<[n := f]>) w) in
      let sig := Fmt.Sprint_int (StrategyGen.handshake_signal (Strategy w)) in
      let w5 := set_env (<["GOAGAIN_SIGNAL" := sig]>)
                  (set_env (<["GOAGAIN_PPID" := Fmt.Sprint_int (pid w)]>)
                     (set_env (<["GOAGAIN_PID" := ""]>)
                        (set_env (<["GOAGAIN_NAME" := fd_name l]>) w1))) in
      let t5 := [EvSetenv "GOAGAIN_FD" (Fmt.Sprint_uintptr n);
                 EvSetenv "GOAGAIN_NAME" (fd_name l);
                 EvSetenv "GOAGAIN_PID" "";
                 EvSetenv "GOAGAIN_PPID" (Fmt.Sprint_int (pid w));
                 EvSetenv "GOAGAIN_SIGNAL" sig] in
      (has_byte 0 (fd_name l) = true ->
       forall e, Q (Err e) w1 [EvSetenv "GOAGAIN_FD" (Fmt.Sprint_uintptr n)]) /\
      (has_byte 0 (fd_name l) = false ->
       (forall r, (forall u, r <> Ok u) -> Q r w5 t5) /\
       (forall argv0 wd files p,
           file_table n = Ok files ->
           sys_StartProcess w argv0 = Ok p ->
           Q (Ok tt)
             (set_env (<["GOAGAIN_PID" := Fmt.Sprint_int p]>)
                (set_children (fun c => {[p]} ∪ c) w5))
             (t5 ++ EvStart argv0 wd files (child_world w5 files p) ::
                (if Logger w then [EvLog [LStr "spawned child"; LInt p]] else []) ++
                [EvSetenv "GOAGAIN_PID" (Fmt.Sprint_int p)])))) ->
  wp (StrategyGen.ForkExec l) Q w.
Proof.
  intros Hfail Hok. unfold StrategyGen.ForkExec.
  apply wp_bind, wp_lookPath. intros [argv0 | e | s];
    [| now apply Hfail | now apply Hfail].
  apply wp_bind, wp_Getwd. destruct (sys_Getwd w) as [wd | e | s];
    [| now apply Hfail | now apply Hfail].
  apply wp_bind, wp_setEnvs; [intros e; now apply Hfail |].
  intros lfd f n Hl Hf Hn Hr w1.
  destruct (Hok lfd f n Hl Hf Hn Hr) as [Hbad Hgood]. split; [exact Hbad |].
  intros Hb. destruct (Hgood Hb) as [Hlate Hdone].
  apply wp_bind, wp_Setenv; [reflexivity | discriminate | intros _].
  apply wp_bind, wp_get.
  apply wp_bind, wp_Setenv;
    [reflexivity | now rewrite Sprint_int_no_NUL | intros _].
  apply wp_bind, wp_get.
  apply wp_bind, wp_Setenv;
    [reflexivity | now rewrite Sprint_int_no_NUL | intros _].
  apply wp_bind, wp_lift.
  destruct (file_table n) as [files | e | s] eqn:Hfiles;
    [| now apply Hlate | now apply Hlate].
  apply wp_bind, wp_StartProcess;
    [| intros e _; now apply Hlate | intros s _; now apply Hlate].
  intros p Hp. apply wp_bind, wp_logln.
  apply wp_Setenv; [reflexivity | now rewrite Sprint_int_no_NUL | intros _].
  apply (Hdone argv0 wd files p eq_refl Hp).
Qed.

(** The paths of the bounded-wait [forkExec]. *)
Lemma wp_forkExec (l : listener) (q : Z) Q w :
  (forall r, (forall u, r <> Ok u) -> Q r w []) ->
  (forall lfd f n,
      (l = TCPListener lfd (Addr_of l) \/ l = UnixListener lfd (Addr_of l)) ->
      fds w !! lfd = Some f -> fds w !! n = None -> 0 <= n < 2 ^ 31 ->
      let w1 := set_env (<["GOAGAIN_FD" := Fmt.Sprint_uintptr n]>)
                        (set_fds (<[n := f]>) w) in
      let w4 := set_env (<["GOAGAIN_PPID" := Fmt.Sprint_int (pid w)]>)
                  (set_env (<["GOAGAIN_PID" := ""]>)
                     (set_env (<["GOAGAIN_NAME" := fd_name l]>) w1)) in
      let t4 := [EvSetenv "GOAGAIN_FD" (Fmt.Sprint_uintptr n);
                 EvSetenv "GOAGAIN_NAME" (fd_name l);
                 EvSetenv "GOAGAIN_PID" "";
                 EvSetenv "GOAGAIN_PPID" (Fmt.Sprint_int (pid w))] in
      (has_byte 0 (fd_name l) = true ->
       forall e, Q (Err e) w1 [EvSetenv "GOAGAIN_FD" (Fmt.Sprint_uintptr n)]) /\
      (has_byte 0 (fd_name l) = false ->
       (forall r, (forall u, r <> Ok u) -> Q r w4 t4) /\
       (forall argv0 wd files p,
           file_table n = Ok files ->
           sys_StartProcess w argv0 = Ok p ->
           Q (Ok (p, None))
             (set_env (<["GOAGAIN_PID" := Fmt.Sprint_int p]>)
                (set_children (fun c => {[p]} ∪ c) w4))
             (t4 ++ EvStart argv0 wd files (child_world w4 files p) ::
                (if Logger w then [EvLog [LStr "spawned child"; LInt p]] else []) ++
                [EvSetenv "GOAGAIN_PID" (Fmt.Sprint_int p)])))) ->
  wp (BoundedWait.forkExec l q) Q w.
Proof.
  intros Hfail Hok. unfold BoundedWait.forkExec.
  apply wp_bind, wp_lookPath. intros [argv0 | e | s];
    [| now apply Hfail | now apply Hfail].
  apply wp_bind, wp_Getwd. destruct (sys_Getwd w) as [wd | e | s];
    [| now apply Hfail | now apply Hfail].
  apply wp_bind, wp_setEnvs; [intros e; now apply Hfail |].
  intros lfd f n Hl Hf Hn Hr w1.
  destruct (Hok lfd f n Hl Hf Hn Hr) as [Hbad Hgood]. split; [exact Hbad |].
  intros Hb. destruct (Hgood Hb) as [Hlate Hdone].
  apply wp_bind, wp_Setenv; [reflexivity | discriminate | intros _].
  apply wp_bind, wp_get.
  apply wp_bind, wp_Setenv;
    [reflexivity | now rewrite Sprint_int_no_NUL | intros _].
  apply wp_bind, wp_lift.
  destruct (file_table n) as [files | e | s] eqn:Hfiles;
    [| now apply Hlate | now apply Hlate].
  apply wp_bind, wp_StartProcess;
    [| intros e _; now apply Hlate | intros s _; now apply Hlate].
  intros p Hp. apply wp_bind, wp_logln. apply wp_bind, wp_attempt.
  apply wp_Setenv; [reflexivity | now rewrite Sprint_int_no_NUL | intros _].
  apply wp_ret.
  rewrite app_nil_r.
  apply (Hdone argv0 wd files p eq_refl Hp).
Qed.

Lemma ForkExec_paths (l : listener) (w : world) :
  wp (StrategyGen.ForkExec l)
     (fun r w' t => handoff_writes fields_strategy w
                      (match r with Ok _ => true | _ => false end) w' t) w.
Proof.
  apply wp_ForkExec.
  - intros r Hr. destruct r as [u | e | s]; [now destruct (Hr u) | |];
      (split; [exists fields_strategy; reflexivity |]);
      repeat split; (discriminate || auto).
  - intros lfd f n _ Hf Hn _. cbn zeta. split; [intros _ e | intros _; split].
    + split; [eexists; reflexivity |].
      repeat split; try discriminate.
      intros fd g Hg. now apply insert_keeps_open.
    + intros r Hr. destruct r as [u | e | s]; [now destruct (Hr u) | |];
        (split; [eexists; reflexivity |]);
        (repeat split; try discriminate);
        intros fd g Hg; now apply insert_keeps_open.
    + intros argv0 wd files p _ _.
      destruct (Logger w); (split; [exists []; reflexivity |]);
        repeat split; try discriminate;
        intros fd g Hg; now apply insert_keeps_open.
Qed.

Lemma forkExec_child (l : listener) (q : Z) (w w1 : world) cp t1 :
  BoundedWait.forkExec l q w = (Ok (cp, None), w1, t1) -> cp ∈ children w1.
Proof.
  intros Hrun.
  refine (wp_run _ (fun r w' _ => r = Ok (cp, None) -> cp ∈ children w')
            _ _ _ _ _ Hrun eq_refl).
  apply wp_forkExec; [intros r Hr ->; now destruct (Hr (cp, None)) |].
  intros lfd f n _ _ _ _. cbn zeta. split; [discriminate | intros _; split].
  - intros r Hr ->. now destruct (Hr (cp, None)).
  - intros argv0 wd files p _ _ [= ->]. cbn.
    apply elem_of_union_l, elem_of_singleton. reflexivity.
Qed.

(** ** The pid and the signal of Kill *)

Lemma target_pid_run (w : world) :
  StrategyGen.target_pid w = (scanned_pid w, w, []).
Proof.
  unfold StrategyGen.target_pid, scanned_pid, bind, Getenv, get, lift. cbn.
  fold (getenv w "GOAGAIN_PID"). fold (getenv w "GOAGAIN_PPID").
  destruct (Fmt.Sscan_int (getenv w "GOAGAIN_PID")) as [p | [] | s];
    reflexivity.
Qed.

Lemma wp_target_pid Q (w : world) :
  (forall p, scanned_pid w = Ok p -> Q (Ok p) w []) ->
  (forall e, scanned_pid w = Err e -> Q (Err e) w []) ->
  wp StrategyGen.target_pid Q w.
Proof.
  intros Hok Herr. unfold wp. rewrite target_pid_run.
  cbn [result_of world_of trace_of fst snd].
  destruct (scanned_pid w) as [p | e | m] eqn:Hp; [now apply Hok | now apply Herr |].
  unfold scanned_pid in Hp.
  destruct (Fmt.Sscan_int (getenv w "GOAGAIN_PID")) as [? | [] | ?] eqn:E;
    try discriminate;
    try (now apply Sscan_int_never_panics in Hp);
    injection Hp as ->; now apply Sscan_int_never_panics in E.
Qed.

Lemma wp_syscall_Kill (p sig : Z) Q (w : world) :
  Q (match sys_Kill w p sig with None => Ok tt | Some e => Err e end) w
    [EvSignal p sig] ->
  wp (syscall_Kill p sig) Q w.
Proof. unfold wp, syscall_Kill. now destruct (sys_Kill w p sig). Qed.

Lemma wp_Kill_strategy Q (w : world) :
  (forall p, scanned_pid w = Ok p ->
     Q (match sys_Kill w p (scanned_signal w) with
        | None => Ok tt
        | Some e => Err e
        end) w
       ((if (SIGQUIT =? scanned_signal w) &&
            match Strategy w with Double => true | Single => false end
         then [EvWait4 p] else []) ++
        (if Logger w
         then [EvLog [LStr "sending signal"; LSig (scanned_signal w);
                      LStr "to process"; LInt p]]
         else []) ++
        [EvSignal p (scanned_signal w)])) ->
  (forall e, scanned_pid w = Err e -> Q (Err e) w []) ->
  wp StrategyGen.Kill Q w.
Proof.
  intros Hok Herr. unfold StrategyGen.Kill.
  apply wp_bind, wp_target_pid; [| exact Herr].
  intros p Hp. specialize (Hok p Hp).
  apply wp_bind, wp_Getenv. fold (scanned_signal w).
  apply wp_bind, wp_get. apply wp_bind.
  destruct ((SIGQUIT =? scanned_signal w) && _);
    [apply wp_emit | apply wp_ret];
    apply wp_bind, wp_logln, wp_syscall_Kill;
    destruct (sys_Kill w p (scanned_signal w)); exact Hok.
Qed.

Lemma wp_Kill_bounded (sig : Z) Q (w : world) :
  (forall p, scanned_pid w = Ok p ->
     Q (match sys_Kill w p sig with None => Ok tt | Some e => Err e end) w
       ((if Logger w
         then [EvLog [LStr "sending signal"; LSig sig; LStr "to process"; LInt p]]
         else []) ++
        [EvSignal p sig])) ->
  (forall e, scanned_pid w = Err e -> Q (Err e) w []) ->
  wp (BoundedWait.Kill sig) Q w.
Proof.
  intros Hok Herr. unfold BoundedWait.Kill.
  change BoundedWait.target_pid with StrategyGen.target_pid.
  apply wp_bind, wp_target_pid; [| exact Herr].
  intros p Hp. specialize (Hok p Hp).
  apply wp_bind, wp_logln, wp_syscall_Kill.
  destruct (sys_Kill w p sig); exact Hok.
Qed.

Lemma Kill_strategy_run (w : world) :
  (result_of (StrategyGen.Kill w), trace_of (StrategyGen.Kill w)) =
  match scanned_pid w with
  | Ok p =>
      (match sys_Kill w p (scanned_signal w) with
       | None => Ok tt
       | Some e => Err e
       end,
       (if (SIGQUIT =? scanned_signal w) &&
           match Strategy w with Double => true | Single => false end
        then [EvWait4 p] else []) ++
       (if Logger w
        then [EvLog [LStr "sending signal"; LSig (scanned_signal w);
                     LStr "to process"; LInt p]]
        else []) ++
       [EvSignal p (scanned_signal w)])
  | Err e => (Err e, [])
  | Panic m => (Panic m, [])
  end.
Proof.
  apply (wp_Kill_strategy (fun r _ t => (r, t) = _)).
  - now intros p ->.
  - now intros e ->.
Qed.

Lemma Kill_bounded_run (sig : Z) (w : world) :
  (result_of (BoundedWait.Kill sig w), trace_of (BoundedWait.Kill sig w)) =
  match scanned_pid w with
  | Ok p =>
      (match sys_Kill w p sig with None => Ok tt | Some e => Err e end,
       (if Logger w
        then [EvLog [LStr "sending signal"; LSig sig; LStr "to process"; LInt p]]
        else []) ++
       [EvSignal p sig])
  | Err e => (Err e, [])
  | Panic m => (Panic m, [])
  end.
Proof.
  apply (wp_Kill_bounded sig (fun r _ t => (r, t) = _)).
  - now intros p ->.
  - now intros e ->.
Qed.

Lemma Kill_strategy_sends (w : world) (p : Z) :
  scanned_pid w = Ok p -> sends (StrategyGen.Kill w) p (scanned_signal w).
Proof.
  intros Hp. pose proof (Kill_strategy_run w) as H. rewrite Hp in H.
  injection H as _ Ht. unfold sends. rewrite Ht.
  destruct (_ && _), (Logger w); reflexivity.
Qed.

Lemma Kill_bounded_sends (sig : Z) (w : world) (p : Z) :
  scanned_pid w = Ok p -> sends (BoundedWait.Kill sig w) p sig.
Proof.
  intros Hp. pose proof (Kill_bounded_run sig w) as H. rewrite Hp in H.
  injection H as _ Ht. unfold sends. rewrite Ht.
  destruct (Logger w); reflexivity.
Qed.

Lemma Kill_fails (w : world) (e : error) :
  scanned_pid w = Err e ->
  (result_of (StrategyGen.Kill w) = Err e /\ trace_of (StrategyGen.Kill w) = []) /\
  forall s, result_of (BoundedWait.Kill s w) = Err e /\
            trace_of (BoundedWait.Kill s w) = [].
Proof.
  intros He. split; [| intros s].
  - pose proof (Kill_strategy_run w) as H. rewrite He in H. now injection H.
  - pose proof (Kill_bounded_run s w) as H. rewrite He in H. now injection H.
Qed.

Lemma scanned_pid_frame (g : gmap string string -> gmap string string) (w : world) :
  (forall k, k <> "GOAGAIN_PPID" -> g (env w) !! k = env w !! k) ->
  ~ blank (getenv w "GOAGAIN_PID") ->
  scanned_pid (set_env g w) = scanned_pid w /\
  scanned_signal (set_env g w) = scanned_signal w.
Proof.
  intros Hg Hnb. unfold scanned_pid, scanned_signal, getenv. cbn.
  rewrite (Hg "GOAGAIN_PID"), (Hg "GOAGAIN_SIGNAL") by discriminate.
  split; [| reflexivity].
  destruct (Fmt.Sscan_int (default "" (env w !! "GOAGAIN_PID")))
    as [q | e | m] eqn:E; try reflexivity.
  destruct e; try reflexivity. now apply Sscan_int_EOF in E.
Qed.

(** ** The coordinator loop *)

Section Loop.

Import StrategyGen.

Variables OnSIGHUP OnSIGUSR1 : option hook.
Variable l : listener.

(** A run that is back at the receive goes on with the signals that follow. *)
Lemma Wait_loop_app (pre rest : list Z) : forall f0 w f w1 t1,
  Wait_loop OnSIGHUP OnSIGUSR1 l f0 pre w = (Ok (Receiving f), w1, t1) ->
  Wait_loop OnSIGHUP OnSIGUSR1 l f0 (pre ++ rest) w =
  (result_of (Wait_loop OnSIGHUP OnSIGUSR1 l f rest w1), world_of (Wait_loop OnSIGHUP OnSIGUSR1 l f rest w1),
   t1 ++ trace_of (Wait_loop OnSIGHUP OnSIGUSR1 l f rest w1)).
Proof.
  induction pre as [| sig pre IH]; intros f0 w f w1 t1 Hpre.
  - injection Hpre as <- <- <-. apply triple_eta.
  - cbn [Wait_loop app] in *.
    apply bind_Ok in Hpre as (r & w' & ta & tb & Hstep & Hk & ->).
    destruct r as [s e | f']; [discriminate |].
    rewrite (bind_run _ _ _ _ _ _ Hstep).
    rewrite (IH _ _ _ _ _ Hk). cbn [result_of world_of trace_of fst snd].
    now rewrite app_assoc.
Qed.

Lemma ForkExec_no_hooks (name : string) (w : world) :
  hook_calls name (trace_of (ForkExec l w)) = 0%nat /\
  signals_sent (trace_of (ForkExec l w)) = [].
Proof.
  apply (wp_ForkExec l (fun _ _ t => hook_calls name t = 0%nat /\
                                     signals_sent t = [])).
  - now intros r _.
  - intros lfd f n _ _ _ _. cbn zeta. split; [now intros _ e |].
    intros _. split; [now intros r _ |].
    intros argv0 wd files p _ _. now destruct (Logger w).
Qed.

Lemma run_hook_calls (name name' : string) (h : option hook) (w : world) :
  result_of (run_hook name' h l w) = Ok tt /\
  hook_calls name (trace_of (run_hook name' h l w)) =
  match h with
  | Some _ => if String.eqb name' name then 1%nat else 0%nat
  | None => 0%nat
  end /\
  spawned (trace_of (run_hook name' h l w)) = [].
Proof.
  unfold run_hook. destruct h as [f |]; [| now cbn].
  unfold bind, logln, ret, result_of, trace_of. cbn.
  destruct (f l w) as [[e |] w']; cbn;
    destruct (Logger w'), (String.eqb name' name); now cbn.
Qed.

(** One turn of the loop calls [OnSIGHUP] once for [SIGHUP], when the hook
    is set, and never otherwise. *)
Lemma Wait_step_hook_calls (forked : bool) (sig : Z) (w : world) :
  hook_calls "OnSIGHUP" (trace_of (Wait_step OnSIGHUP OnSIGUSR1 l forked sig w)) =
  match OnSIGHUP with
  | Some _ => if sig =? SIGHUP then 1%nat else 0%nat
  | None => 0%nat
  end.
Proof.
  unfold Wait_step.
  set (log := logln [LSig sig]).
  assert (forall (m : M wait_status) n,
             (forall w0, hook_calls "OnSIGHUP" (trace_of (m w0)) = n) ->
             hook_calls "OnSIGHUP" (trace_of ((log ;;; m) w)) = n) as Hlog.
  { intros m n Hm. specialize (Hm w).
    unfold bind, log, logln, trace_of in *.
    destruct (m w) as [[r w'] t]. cbn [fst snd] in *.
    destruct (Logger w); exact Hm. }
  assert (forall name h (r : wait_status) n,
             (forall w0, hook_calls "OnSIGHUP" (trace_of (run_hook name h l w0)) = n) ->
             forall w0, hook_calls "OnSIGHUP"
                          (trace_of ((run_hook name h l ;;; ret r) w0)) = n)
    as Hhook.
  { intros name h r n Hn w0. unfold bind. specialize (Hn w0).
    destruct (run_hook name h l w0) as [[[[] | e | s] w'] t]; cbn in *;
      rewrite ?app_nil_r; exact Hn. }
  destruct (Z.eqb_spec sig SIGHUP) as [-> | Hhup].
  { apply Hlog, Hhook. intros w0.
    destruct (run_hook_calls "OnSIGHUP" "OnSIGHUP" OnSIGHUP w0) as (_ & -> & _).
    now destruct OnSIGHUP. }
  assert (hook_calls "OnSIGHUP"
            (trace_of ((log ;;;
               if sig =? SIGINT then ret (Returned SIGINT None)
               else if sig =? SIGQUIT then ret (Returned SIGQUIT None)
               else if sig =? SIGTERM then ret (Returned SIGTERM None)
               else if sig =? SIGUSR1
                    then run_hook "OnSIGUSR1" OnSIGUSR1 l;;; ret (Receiving forked)
               else if sig =? SIGUSR2
                    then if forked then ret (Returned SIGUSR2 None)
                         else r <- attempt (ForkExec l);;
                              match r with
                              | inl _ => ret (Receiving true)
                              | inr e => ret (Returned SIGUSR2 (Some e))
                              end
               else ret (Receiving forked)) w)) = 0%nat) as H0.
  { apply Hlog. intros w0.
    repeat match goal with
           | |- context [if ?b then _ else _] => destruct b
           end; try reflexivity.
    - apply Hhook. intros w1.
      destruct (run_hook_calls "OnSIGHUP" "OnSIGUSR1" OnSIGUSR1 w1) as (_ & -> & _).
      now destruct OnSIGUSR1.
    - unfold bind, attempt.
      destruct (ForkExec_no_hooks "OnSIGHUP" w0) as [Hn _].
      destruct (ForkExec l w0) as [[[[] | e | s] w'] t]; cbn in *;
        rewrite ?app_nil_r; exact Hn. }
  rewrite H0. now destruct OnSIGHUP.
Qed.

Lemma Wait_loop_hook_calls (sigs : list Z) : forall f0 w f,
  result_of (Wait_loop OnSIGHUP OnSIGUSR1 l f0 sigs w) = Ok (Receiving f) ->
  hook_calls "OnSIGHUP" (trace_of (Wait_loop OnSIGHUP OnSIGUSR1 l f0 sigs w)) =
  match OnSIGHUP with
  | Some _ => count_occ Z.eq_dec sigs SIGHUP
  | None => 0%nat
  end.
Proof.
  induction sigs as [| sig rest IH]; intros f0 w f Hres.
  - now destruct OnSIGHUP.
  - cbn [Wait_loop] in *.
    pose proof (Wait_step_hook_calls f0 sig w) as Hstep.
    unfold bind, result_of, trace_of in *.
    destruct (Wait_step OnSIGHUP OnSIGUSR1 l f0 sig w)
      as [[[[s e | f'] | e | s] w'] ta]; try discriminate.
    specialize (IH f' w' f).
    destruct (Wait_loop OnSIGHUP OnSIGUSR1 l f' rest w') as [[r w2] tb].
    cbn [fst snd] in *. rewrite hook_calls_app, Hstep, (IH Hres).
    destruct OnSIGHUP; [| reflexivity].
    cbn [count_occ].
    destruct (Z.eqb_spec sig SIGHUP), (Z.eq_dec sig SIGHUP);
      congruence || reflexivity.
Qed.

Lemma Wait_loop_hook_calls_le (sigs : list Z) : forall f0 w,
  (hook_calls "OnSIGHUP" (trace_of (Wait_loop OnSIGHUP OnSIGUSR1 l f0 sigs w)) <=
   count_occ Z.eq_dec sigs SIGHUP)%nat.
Proof.
  induction sigs as [| sig rest IH]; intros f0 w; [reflexivity |].
  cbn [Wait_loop].
  pose proof (Wait_step_hook_calls f0 sig w) as Hstep.
  unfold bind, trace_of in *.
  destruct (Wait_step OnSIGHUP OnSIGUSR1 l f0 sig w)
    as [[[[s e | f'] | e | s] w'] ta]; cbn [fst snd] in *.
  - unfold ret. cbn [fst snd count_occ]. rewrite app_nil_r, Hstep.
    destruct OnSIGHUP, (Z.eqb_spec sig SIGHUP), (Z.eq_dec sig SIGHUP);
      (congruence || lia).
  - specialize (IH f' w').
    destruct (Wait_loop OnSIGHUP OnSIGUSR1 l f' rest w') as [[r w2] tb].
    cbn [fst snd count_occ] in *. rewrite hook_calls_app, Hstep.
    destruct OnSIGHUP, (Z.eqb_spec sig SIGHUP), (Z.eq_dec sig SIGHUP);
      (congruence || lia).
  - cbn [count_occ]. rewrite Hstep.
    destruct OnSIGHUP, (Z.eqb_spec sig SIGHUP), (Z.eq_dec sig SIGHUP);
      (congruence || lia).
  - cbn [count_occ]. rewrite Hstep.
    destruct OnSIGHUP, (Z.eqb_spec sig SIGHUP), (Z.eq_dec sig SIGHUP);
      (congruence || lia).
Qed.

Lemma Wait_step_quiet (f : bool) (sig : Z) (w : world) :
  quiet sig = true ->
  exists w' t, Wait_step OnSIGHUP OnSIGUSR1 l f sig w = (Ok (Receiving f), w', t) /\ spawned t = [].
Proof.
  unfold quiet. intros Hq. apply negb_true_iff in Hq.
  repeat (apply orb_false_iff in Hq as [Hq ?]).
  unfold Wait_step.
  assert (forall name h,
    exists w' t, (logln [LSig sig];;; run_hook name h l;;; ret (Receiving f)) w =
                 (Ok (Receiving f), w', t) /\ spawned t = []) as Hhook.
  { intros name h. unfold bind, logln.
    destruct (run_hook_calls "" name h w) as (Hr & _ & Hs).
    unfold result_of, trace_of in *.
    destruct (run_hook name h l w) as [[[[] | e | s] w'] t]; try discriminate.
    cbn in *. eexists _, _. split; [reflexivity |].
    rewrite app_nil_r. now destruct (Logger w). }
  destruct (sig =? SIGHUP); [apply Hhook |].
  rewrite Hq, H1, H0, H.
  destruct (sig =? SIGUSR1); [apply Hhook |].
  unfold bind, logln, ret. eexists _, _. split; [reflexivity |].
  now destruct (Logger w).
Qed.

Lemma Wait_loop_quiet (pre : list Z) : forall f w,
  forallb quiet pre = true ->
  exists w1 t1, Wait_loop OnSIGHUP OnSIGUSR1 l f pre w = (Ok (Receiving f), w1, t1) /\ spawned t1 = [].
Proof.
  induction pre as [| sig pre IH]; intros f w Hq.
  - now exists w, [].
  - cbn in Hq. apply andb_prop in Hq as [Hsig Hpre].
    destruct (Wait_step_quiet f sig w Hsig) as (w' & ta & Hstep & Hta).
    destruct (IH f w' Hpre) as (w1 & tb & Hloop & Htb).
    exists w1, (ta ++ tb). cbn [Wait_loop].
    rewrite (bind_run _ _ _ _ _ _ Hstep), Hloop. split; [reflexivity |].
    now rewrite spawned_app, Hta, Htb.
Qed.

End Loop.

(** * The claims *)

(** ** C1: decoding after encoding keeps the address *)

(** C1.  For a live TCP or unix-domain listener [l], let [setEnvs l] succeed
    in the predecessor with descriptor [fd], and let a successor inherit the
    resulting environment and the descriptor [fd], with a descriptor slot
    free for the copy [net.FileListener] makes.  Then [Listener] succeeds in
    the successor and the address string of the listener it returns is the
    address string of [l]. *)
Theorem decode_encode_preserves_address
    (l : listener) (w w' cw : world) (fd : Z) (t : list event) :
  bound_in w l ->
  setEnvs l w = (Ok fd, w', t) ->
  inherits w' fd cw ->
  is_Some (lowest_free (fds cw) (nofile cw)) ->
  exists l', result_of (Listener cw) = Ok l' /\
             accepted l' /\
             AddrString (Addr_of l') = AddrString (Addr_of l).
Proof.
  intros Hbound Henc (Henv & _ & Hfd) [n Hfree].
  apply setEnvs_Ok in Henc as (lfd & f & Hl & Hlook & _ & Hrange & -> & _).
  assert (getenv cw "GOAGAIN_FD" = Fmt.Sprint_uintptr fd) as Hget.
  { unfold getenv. rewrite Henv. cbn.
    rewrite lookup_insert_ne by discriminate.
    now rewrite lookup_insert_eq. }
  assert (fds cw !! fd = Some f) as Hcfd.
  { rewrite Hfd. cbn. apply lookup_insert_eq. }
  assert (Fmt.Sscan_uintptr (getenv cw "GOAGAIN_FD") = Ok fd) as Hscan.
  { rewrite Hget. apply Sscan_Sprint_uintptr.
    change (2 ^ 31) with 2147483648 in Hrange.
    change (2 ^ 64) with 18446744073709551616. lia. }
  assert (exists k, f = Socket k (Addr_of l) /\
                    (k = SockTCP \/ k = SockUnix)) as (k & -> & Hk).
  { destruct Hl as [Hl | Hl]; rewrite Hl in Hbound; cbn in Hbound;
      rewrite Hlook in Hbound; injection Hbound as ->; eauto. }
  unfold Listener, Listener_via, result_of.
  rewrite (bind_run _ _ _ _ _ _ (getenv_run _ _)).
  unfold lift at 1. rewrite Hscan.
  unfold bind at 1. cbn [fst snd result_of world_of trace_of].
  rewrite (bind_run _ _ _ _ _ _ (getenv_run _ _)).
  cbn [fst snd result_of world_of trace_of].
  unfold attempt, net_FileListener, bind, get, dup.
  destruct Hk as [-> | ->]; cbn; rewrite !Hcfd, Hfree; cbn;
    eexists; repeat split; reflexivity.
Qed.

(** The server hands its TCP listener to the successor [ForkExec] starts:
    [setEnvs] duplicates descriptor 3 onto 4, and the successor decodes a
    listener on the same address. *)
Lemma decode_encode_preserves_address_witness :
  exists l', result_of (Listener (successor Single)) = Ok l' /\
             accepted l' /\
             AddrString (Addr_of l') = AddrString (Addr_of tcp_listener).
Proof.
  apply (decode_encode_preserves_address tcp_listener (tcp_server Single)
           (world_of (setEnvs tcp_listener (tcp_server Single)))
           (successor Single) 4
           (trace_of (setEnvs tcp_listener (tcp_server Single)))).
  - vm_compute. reflexivity.
  - vm_compute. reflexivity.
  - repeat split; vm_compute; reflexivity.
  - exists 3. vm_compute. reflexivity.
Defined.

(** ** C2: the guard of Exec *)

(** What the guard of [Exec] compares: the parent pid with the integer
    scanned from [GOAGAIN_PID], or with 0 when that field does not scan. *)
Lemma Exec_guard (l : listener) (w : world) :
  ppid w = match Fmt.Sscan_int (getenv w "GOAGAIN_PID") with Ok p => p | _ => 0 end ->
  StrategyGen.Exec l w =
  (Err (Errorf "goagain.Exec called by a child process"), w, []).
Proof.
  intros H. unfold StrategyGen.Exec, bind, Getenv, get. cbn.
  fold (getenv w "GOAGAIN_PID"). rewrite <- H, Z.eqb_refl. reflexivity.
Qed.

(** C2, at the failing input.  The successor that [ForkExec] starts has the
    pid of its predecessor both as its parent pid and in [GOAGAIN_PPID],
    and an empty [GOAGAIN_PID].  [Exec] called there with the listener it
    inherited is not refused: it goes on to [syscall.Exec] and the image is
    replaced. *)
Lemma Exec_in_successor_not_refused :
  let w := successor Single in
  ppid w = 4242 /\
  Fmt.Sscan_int (getenv w "GOAGAIN_PPID") = Ok 4242 /\
  env w !! "GOAGAIN_PID" = Some "" /\
  exists l img,
    result_of (Listener w) = Ok l /\
    result_of (StrategyGen.Exec l (world_of (Listener w))) = Ok img /\
    execs (trace_of (StrategyGen.Exec l (world_of (Listener w)))) =
    ["/srv/./server"].
Proof.
  cbv zeta. split; [vm_compute; reflexivity |].
  split; [vm_compute; reflexivity |]. split; [vm_compute; reflexivity |].
  exists (TCPListener 3 tcp_addr).
  eexists.
  split; [vm_compute; reflexivity |]. split; vm_compute; reflexivity.
Qed.

(** ** C3: the handshake signal written by a spawn *)

(** C3, amended.  After every successful [ForkExec] of the strategy
    generation the field [GOAGAIN_SIGNAL] holds the decimal form of the
    handshake signal chosen from [Strategy]: [SIGUSR2], which is not the
    graceful-exit signal [SIGQUIT], under [Double], and [SIGQUIT] itself
    under [Single].  The [forkExec] of the bounded-wait generation never
    writes the field: whatever its outcome, the field is as it was. *)
Theorem handshake_signal_field (l : listener) (w : world) :
  (forall w' t,
      StrategyGen.ForkExec l w = (Ok tt, w', t) ->
      exists sig,
        env w' !! "GOAGAIN_SIGNAL" = Some (Fmt.Sprint_int sig) /\
        Fmt.Sscan_int (getenv w' "GOAGAIN_SIGNAL") = Ok sig /\
        (Strategy w = Double -> sig = SIGUSR2 /\ sig <> SIGQUIT) /\
        (Strategy w = Single -> sig = SIGQUIT)) /\
  (forall q,
      env (world_of (BoundedWait.forkExec l q w)) !! "GOAGAIN_SIGNAL" =
      env w !! "GOAGAIN_SIGNAL" /\
      "GOAGAIN_SIGNAL" ∉ writes (trace_of (BoundedWait.forkExec l q w))).
Proof.
  split.
  - intros w' t Hrun.
    refine (wp_run _ (fun r w' _ => r = Ok tt -> _) _ _ _ _ _ Hrun eq_refl).
    apply wp_ForkExec; [intros r Hr ->; now destruct (Hr tt) |].
    intros lfd f n _ _ _ _. cbn zeta.
    split; [discriminate | intros _; split].
    + intros r Hr ->. now destruct (Hr tt).
    + intros argv0 wd files p _ _ _.
      exists (StrategyGen.handshake_signal (Strategy w)).
      unfold getenv. cbn.
      rewrite lookup_insert_ne by discriminate. rewrite lookup_insert_eq.
      destruct (Strategy w); repeat split; (discriminate || reflexivity).
  - intros q. apply (wp_forkExec l q (fun _ w' t =>
      env w' !! "GOAGAIN_SIGNAL" = env w !! "GOAGAIN_SIGNAL" /\
      "GOAGAIN_SIGNAL" ∉ writes t)).
    + intros r _. split; [reflexivity | apply not_elem_of_nil].
    + intros lfd f n _ _ _ _. cbn zeta.
      split; [intros _ e | intros _; split].
      * cbn. rewrite lookup_insert_ne by discriminate.
        split; [reflexivity |]. intros H. apply list_elem_of_In in H.
        cbn in H. intuition discriminate.
      * intros r _. cbn. rewrite !lookup_insert_ne by discriminate.
        split; [reflexivity |]. intros H. apply list_elem_of_In in H.
        cbn in H. intuition discriminate.
      * intros argv0 wd files p _ _. cbn.
        rewrite !lookup_insert_ne by discriminate.
        split; [reflexivity |]. intros H. apply list_elem_of_In in H.
        destruct (Logger w); cbn in H; intuition discriminate.
Qed.

(** A server under [Double] spawns: the field then scans to [SIGUSR2]. *)
Lemma handshake_signal_field_witness :
  exists sig,
    env (world_of (StrategyGen.ForkExec tcp_listener (tcp_server Double)))
      !! "GOAGAIN_SIGNAL" = Some (Fmt.Sprint_int sig) /\
    Fmt.Sscan_int
      (getenv (world_of (StrategyGen.ForkExec tcp_listener (tcp_server Double)))
         "GOAGAIN_SIGNAL") = Ok sig /\
    (Strategy (tcp_server Double) = Double -> sig = SIGUSR2 /\ sig <> SIGQUIT) /\
    (Strategy (tcp_server Double) = Single -> sig = SIGQUIT).
Proof.
  apply (proj1 (handshake_signal_field tcp_listener (tcp_server Double))
           (world_of (StrategyGen.ForkExec tcp_listener (tcp_server Double)))
           (trace_of (StrategyGen.ForkExec tcp_listener (tcp_server Double)))).
  vm_compute. reflexivity.
Defined.

(** C3 as stated fails in the bounded-wait generation: its [forkExec]
    spawns a successor, and neither the predecessor nor the successor has a
    [GOAGAIN_SIGNAL] field. *)
Lemma bounded_spawn_writes_no_handshake_signal :
  let r := BoundedWait.forkExec tcp_listener SIGUSR2 (tcp_server Double) in
  result_of r = Ok (4243, None) /\
  env (world_of r) !! "GOAGAIN_SIGNAL" = None /\
  (fun c => env c !! "GOAGAIN_SIGNAL") <$> spawned (trace_of r) = [None].
Proof. repeat split; vm_compute; reflexivity. Qed.

(** ** C4: the pid and the signal of Kill *)

(** C4, amended.  In both generations [Kill] signals the pid scanned from
    [GOAGAIN_PID] when there is one, and the pid scanned from [GOAGAIN_PPID]
    when [GOAGAIN_PID] is unset or empty; when neither field holds a pid it
    returns an error and sends no signal.  In the strategy generation the
    signal is the number scanned from [GOAGAIN_SIGNAL], and [SIGQUIT] when
    that field is unset or does not scan.  In the bounded-wait generation
    the signal is the argument of [Kill], whatever the environment holds. *)
Theorem Kill_pid_and_signal (w : world) (p : Z) :
  (Fmt.Sscan_int (getenv w "GOAGAIN_PID") = Ok p \/
   (getenv w "GOAGAIN_PID" = "" /\
    Fmt.Sscan_int (getenv w "GOAGAIN_PPID") = Ok p) ->
   (forall v, Fmt.Sscan_int (getenv w "GOAGAIN_SIGNAL") = Ok v ->
              sends (StrategyGen.Kill w) p v) /\
   (env w !! "GOAGAIN_SIGNAL" = None \/
    (forall v, Fmt.Sscan_int (getenv w "GOAGAIN_SIGNAL") <> Ok v) ->
    sends (StrategyGen.Kill w) p SIGQUIT) /\
   (forall s, sends (BoundedWait.Kill s w) p s)) /\
  ((forall q, Fmt.Sscan_int (getenv w "GOAGAIN_PID") <> Ok q) ->
   (forall q, Fmt.Sscan_int (getenv w "GOAGAIN_PPID") <> Ok q) ->
   (exists e, result_of (StrategyGen.Kill w) = Err e) /\
   signals_sent (trace_of (StrategyGen.Kill w)) = [] /\
   forall s, (exists e, result_of (BoundedWait.Kill s w) = Err e) /\
             signals_sent (trace_of (BoundedWait.Kill s w)) = []).
Proof.
  split.
  - intros Hpid.
    assert (scanned_pid w = Ok p) as Hp.
    { unfold scanned_pid. destruct Hpid as [-> | [-> H]]; [reflexivity |].
      now rewrite Sscan_int_unset. }
    repeat split.
    + intros v Hv. pose proof (Kill_strategy_sends w p Hp) as H.
      unfold scanned_signal in H. now rewrite Hv in H.
    + intros Hsig. pose proof (Kill_strategy_sends w p Hp) as H.
      replace (scanned_signal w) with SIGQUIT in H; [exact H |].
      unfold scanned_signal. destruct Hsig as [Hnone | Hbad].
      * unfold getenv. now rewrite Hnone.
      * destruct (Fmt.Sscan_int (getenv w "GOAGAIN_SIGNAL")) as [v | |] eqn:E;
          [now destruct (Hbad v) | reflexivity | reflexivity].
    + intros s. now apply Kill_bounded_sends.
  - intros Hpid Hppid.
    assert (exists e, scanned_pid w = Err e) as [e He].
    { unfold scanned_pid.
      destruct (Fmt.Sscan_int (getenv w "GOAGAIN_PID")) as [q | e | m] eqn:E1;
        [now destruct (Hpid q) | | now apply Sscan_int_never_panics in E1].
      destruct (Fmt.Sscan_int (getenv w "GOAGAIN_PPID")) as [q | e' | m] eqn:E2;
        [now destruct (Hppid q) | | now apply Sscan_int_never_panics in E2].
      destruct e; eauto. }
    destruct (Kill_fails w e He) as [[Hr Ht] Hb].
    split; [eauto |]. split; [now rewrite Ht |].
    intros s. destruct (Hb s) as [Hr' Ht']. split; [eauto | now rewrite Ht'].
Qed.

(** With [GOAGAIN_PID] set to 4243, every [Kill] signals 4243. *)
Lemma Kill_pid_and_signal_witness :
  (forall v, Fmt.Sscan_int (getenv (with_env [("GOAGAIN_PID", "4243"); ("GOAGAIN_SIGNAL", "12")]) "GOAGAIN_SIGNAL") = Ok v ->
             sends (StrategyGen.Kill (with_env [("GOAGAIN_PID", "4243"); ("GOAGAIN_SIGNAL", "12")])) 4243 v) /\
  (env (with_env [("GOAGAIN_PID", "4243"); ("GOAGAIN_SIGNAL", "12")]) !! "GOAGAIN_SIGNAL" = None \/
   (forall v, Fmt.Sscan_int (getenv (with_env [("GOAGAIN_PID", "4243"); ("GOAGAIN_SIGNAL", "12")]) "GOAGAIN_SIGNAL") <> Ok v) ->
   sends (StrategyGen.Kill (with_env [("GOAGAIN_PID", "4243"); ("GOAGAIN_SIGNAL", "12")])) 4243 SIGQUIT) /\
  (forall s, sends (BoundedWait.Kill s (with_env [("GOAGAIN_PID", "4243"); ("GOAGAIN_SIGNAL", "12")])) 4243 s).
Proof.
  apply (proj1 (Kill_pid_and_signal
                  (with_env [("GOAGAIN_PID", "4243"); ("GOAGAIN_SIGNAL", "12")])
                  4243)).
  left. vm_compute. reflexivity.
Defined.

(** C4 as stated fails in the bounded-wait generation: with
    [GOAGAIN_SIGNAL] set to 12 its [Kill] sends the signal it is given, and
    with the field unset it sends that signal too, not [SIGQUIT]. *)
Lemma bounded_Kill_ignores_handshake_field :
  getenv (with_env [("GOAGAIN_PID", "4243"); ("GOAGAIN_SIGNAL", "12")])
    "GOAGAIN_SIGNAL" = "12" /\
  signals_sent (trace_of (BoundedWait.Kill SIGTERM
    (with_env [("GOAGAIN_PID", "4243"); ("GOAGAIN_SIGNAL", "12")]))) =
    [(4243, SIGTERM)] /\
  env (with_env [("GOAGAIN_PID", "4243")]) !! "GOAGAIN_SIGNAL" = None /\
  signals_sent (trace_of (BoundedWait.Kill SIGTERM
    (with_env [("GOAGAIN_PID", "4243")]))) = [(4243, SIGTERM)] /\
  SIGTERM <> SIGQUIT.
Proof. repeat split; try (vm_compute; reflexivity). discriminate. Qed.

(** ** C5: the bounded wait *)

(** C5.  In the bounded-wait [Wait], once the fork signal has arrived and
    the successor [cp] has been spawned, if the quit signal reaches the
    channel only after the timer has fired, or never, then [Wait] returns
    the timeout error, the successor is no longer running, and, unless it
    had already exited by itself, it was sent [SIGKILL]. *)
Theorem bounded_wait_times_out
    (l : listener) (forkSignal quitSignal timeout : Z)
    (sch : BoundedWait.schedule) (w w1 : world) (cp : Z) (t1 : list event) :
  BoundedWait.fork_received sch = true ->
  BoundedWait.forkExec l quitSignal w = (Ok (cp, None), w1, t1) ->
  (forall t, BoundedWait.quit_arrival sch = Some t -> Z.max 0 timeout < t) ->
  let r := BoundedWait.Wait l forkSignal quitSignal timeout sch w in
  result_of r = Ok (BoundedWait.Finished (Some BoundedWait.timeout_error)) /\
  (cp ∉ children (world_of r)) /\
  (BoundedWait.child_gone sch = false ->
   signals_sent (trace_of r) = signals_sent t1 ++ [(cp, SIGKILL)]).
Proof.
  intros Hfork Hrun Hlate.
  pose proof (forkExec_child _ _ _ _ _ _ Hrun) as Hchild.
  assert (BoundedWait.select_quit timeout sch = false) as Hsel.
  { unfold BoundedWait.select_quit.
    destruct (BoundedWait.quit_arrival sch) as [t |]; [| reflexivity].
    specialize (Hlate t eq_refl). lia. }
  cbv zeta.
  unfold BoundedWait.Wait, BoundedWait.kill_logged, Process_Kill, bind,
    attempt, emit, logln, modify, ret, result_of, world_of, trace_of.
  rewrite Hfork. cbn [negb]. rewrite Hrun, Hsel.
  destruct (BoundedWait.child_gone sch); cbn.
  - rewrite bool_decide_eq_false_2 by apply not_elem_of_remove. cbn.
    repeat split; [apply not_elem_of_remove | discriminate].
  - rewrite bool_decide_eq_true_2 by exact Hchild. cbn.
    repeat split; [apply not_elem_of_remove |]. intros _.
    rewrite !signals_sent_app.
    destruct (Logger w), (Logger w1); cbn; now rewrite ?app_nil_r.
Qed.

(** The successor of the server never answers within a microsecond: the
    bounded [Wait] kills it and reports the timeout. *)
Lemma bounded_wait_times_out_witness :
  let r := BoundedWait.Wait tcp_listener SIGUSR2 SIGQUIT 1000 silent_successor
             (tcp_server Single) in
  result_of r = Ok (BoundedWait.Finished (Some BoundedWait.timeout_error)) /\
  (4243 ∉ children (world_of r)) /\
  (BoundedWait.child_gone silent_successor = false ->
   signals_sent (trace_of r) =
   signals_sent (trace_of (BoundedWait.forkExec tcp_listener SIGQUIT (tcp_server Single)))
   ++ [(4243, SIGKILL)]).
Proof.
  apply (bounded_wait_times_out tcp_listener SIGUSR2 SIGQUIT 1000
           silent_successor (tcp_server Single)
           (world_of (BoundedWait.forkExec tcp_listener SIGQUIT (tcp_server Single)))
           4243
           (trace_of (BoundedWait.forkExec tcp_listener SIGQUIT (tcp_server Single)))).
  - reflexivity.
  - vm_compute. reflexivity.
  - intros t H. discriminate H.
Defined.

(** ** C6: the restart trigger *)

(** C6.  Let the loop of [Wait] receive [SIGUSR2] for the first time in the
    state [w1], after signals that neither end it nor spawn.  It calls
    [ForkExec].  If that fails, [Wait] returns [SIGUSR2] with that error at
    once: in the state and with the trace [ForkExec] left, whatever signals
    follow.  If it succeeds, the loop does not return: it is at its receive
    again, with [forked] set, in the state [ForkExec] left, and it stays
    there through the signals that neither end it nor spawn.  The next
    [SIGUSR2] is what makes [Wait] return, [SIGUSR2] with no error, in the
    state it was received in and with nothing but the signal logged; the
    one process started is the only one. *)
Theorem restart_trigger
    (OnSIGHUP OnSIGUSR1 : option StrategyGen.hook) (l : listener)
    (pre mid post : list Z) (w : world) :
  forallb quiet pre = true ->
  forallb quiet mid = true ->
  exists w1 t1,
    StrategyGen.Wait OnSIGHUP OnSIGUSR1 l pre w =
      (Ok (StrategyGen.Receiving false), w1, t1) /\
    spawned t1 = [] /\
    let run := StrategyGen.Wait OnSIGHUP OnSIGUSR1 l
                 (pre ++ SIGUSR2 :: mid ++ SIGUSR2 :: post) w in
    let spawn := StrategyGen.ForkExec l w1 in
    let t2 := t1 ++ (if Logger w1 then [EvLog [LSig SIGUSR2]] else []) ++
              trace_of spawn in
    match result_of spawn with
    | Err e =>
        run = (Ok (StrategyGen.Returned SIGUSR2 (Some e)), world_of spawn, t2)
    | Ok _ =>
        StrategyGen.Wait OnSIGHUP OnSIGUSR1 l (pre ++ [SIGUSR2]) w =
          (Ok (StrategyGen.Receiving true), world_of spawn, t2) /\
        (exists w3 t3,
            StrategyGen.Wait OnSIGHUP OnSIGUSR1 l (pre ++ SIGUSR2 :: mid) w =
              (Ok (StrategyGen.Receiving true), w3, t2 ++ t3) /\
            spawned t3 = [] /\
            run = (Ok (StrategyGen.Returned SIGUSR2 None), w3,
                   t2 ++ t3 ++ (if Logger w3 then [EvLog [LSig SIGUSR2]] else []))) /\
        result_of run = Ok (StrategyGen.Returned SIGUSR2 None) /\
        length (spawned (trace_of run)) = 1%nat
    | Panic m => result_of run = Panic m
    end.
Proof.
  intros Hpre Hmid.
  destruct (Wait_loop_quiet OnSIGHUP OnSIGUSR1 l pre false w Hpre)
    as (w1 & t1 & Hloop & Ht1).
  exists w1, (EvNotify [SIGHUP; SIGINT; SIGQUIT; SIGTERM; SIGUSR1; SIGUSR2] :: t1).
  unfold StrategyGen.Wait.
  rewrite !(bind_run _ _ w tt w [EvNotify [SIGHUP; SIGINT; SIGQUIT; SIGTERM; SIGUSR1; SIGUSR2]] eq_refl).
  rewrite Hloop. split; [reflexivity |]. split; [exact Ht1 |].
  cbv zeta. rewrite !(Wait_loop_app _ _ _ _ _ _ _ _ _ _ Hloop).
  cbn [StrategyGen.Wait_loop].
  pose proof (ForkExec_paths l w1) as Hpaths. unfold wp in Hpaths.
  assert (StrategyGen.Wait_step OnSIGHUP OnSIGUSR1 l false SIGUSR2 w1 =
          (match result_of (StrategyGen.ForkExec l w1) with
           | Ok _ => Ok (StrategyGen.Receiving true)
           | Err e => Ok (StrategyGen.Returned SIGUSR2 (Some e))
           | Panic m => Panic m
           end, world_of (StrategyGen.ForkExec l w1),
           (if Logger w1 then [EvLog [LSig SIGUSR2]] else []) ++
           trace_of (StrategyGen.ForkExec l w1))) as Hstep.
  { unfold StrategyGen.Wait_step, bind, attempt, logln, ret,
      result_of, world_of, trace_of. cbn.
    destruct (StrategyGen.ForkExec l w1) as [[[[] | e | m] w2] t2]; cbn;
      rewrite ?app_nil_r; reflexivity. }
  destruct (StrategyGen.ForkExec l w1) as [[[[] | e | m] w2] t2];
    cbn [result_of world_of trace_of fst snd] in *.
  - destruct Hpaths as (_ & _ & _ & Hok & _).
    destruct (Hok eq_refl) as [_ Hone].
    rewrite !(bind_run _ _ _ _ _ _ Hstep).
    destruct (Wait_loop_quiet OnSIGHUP OnSIGUSR1 l mid true w2 Hmid)
      as (w3 & t3 & Hloop3 & Ht3).
    rewrite (Wait_loop_app _ _ _ _ _ _ _ _ _ _ Hloop3).
    cbn [StrategyGen.Wait_loop].
    assert (StrategyGen.Wait_step OnSIGHUP OnSIGUSR1 l true SIGUSR2 w3 =
            (Ok (StrategyGen.Returned SIGUSR2 None), w3,
             if Logger w3 then [EvLog [LSig SIGUSR2]] else [])) as Hstep2.
    { unfold StrategyGen.Wait_step, bind, logln, ret. cbn.
      now rewrite app_nil_r. }
    rewrite (bind_run _ _ _ _ _ _ Hstep2).
    cbn [result_of world_of trace_of fst snd ret app].
    rewrite Hloop3. cbn [result_of world_of trace_of fst snd].
    rewrite ?app_nil_r.
    split; [reflexivity |].
    split.
    { exists w3, t3. split; [now rewrite <- ?app_assoc |].
      split; [exact Ht3 |]. now rewrite <- ?app_assoc. }
    split; [reflexivity |].
    assert (forall sigs t, spawned (EvNotify sigs :: t) = spawned t) as Hn
      by reflexivity.
    rewrite Hn, !spawned_app, Ht1, Ht3.
    destruct (Logger w1), (Logger w3); cbn; rewrite ?app_nil_r; exact Hone.
  - rewrite !(bind_run _ _ _ _ _ _ Hstep). cbn.
    now rewrite app_nil_r, <- ?app_assoc.
  - unfold bind. now rewrite !Hstep.
Qed.

(** The server receives [SIGHUP], [SIGUSR2], [SIGUSR1], [SIGUSR2] and then
    [SIGTERM]: it spawns once, goes on receiving, and returns at the second
    [SIGUSR2]. *)
Lemma restart_trigger_witness :
  exists w1 t1,
    StrategyGen.Wait None None tcp_listener [SIGHUP] (tcp_server Single) =
      (Ok (StrategyGen.Receiving false), w1, t1) /\
    spawned t1 = [] /\
    let run := StrategyGen.Wait None None tcp_listener
                 ([SIGHUP] ++ SIGUSR2 :: [SIGUSR1] ++ SIGUSR2 :: [SIGTERM])
                 (tcp_server Single) in
    let spawn := StrategyGen.ForkExec tcp_listener w1 in
    let t2 := t1 ++ (if Logger w1 then [EvLog [LSig SIGUSR2]] else []) ++
              trace_of spawn in
    match result_of spawn with
    | Err e =>
        run = (Ok (StrategyGen.Returned SIGUSR2 (Some e)), world_of spawn, t2)
    | Ok _ =>
        StrategyGen.Wait None None tcp_listener ([SIGHUP] ++ [SIGUSR2]) (tcp_server Single) =
          (Ok (StrategyGen.Receiving true), world_of spawn, t2) /\
        (exists w3 t3,
            StrategyGen.Wait None None tcp_listener ([SIGHUP] ++ SIGUSR2 :: [SIGUSR1])
              (tcp_server Single) =
              (Ok (StrategyGen.Receiving true), w3, t2 ++ t3) /\
            spawned t3 = [] /\
            run = (Ok (StrategyGen.Returned SIGUSR2 None), w3,
                   t2 ++ t3 ++ (if Logger w3 then [EvLog [LSig SIGUSR2]] else []))) /\
        result_of run = Ok (StrategyGen.Returned SIGUSR2 None) /\
        length (spawned (trace_of run)) = 1%nat
    | Panic m => result_of run = Panic m
    end.
Proof.
  apply (restart_trigger None None tcp_listener [SIGHUP] [SIGUSR1] [SIGTERM]
           (tcp_server Single)); reflexivity.
Defined.

(** ** C7: the reload hook *)

(** C7.  With a reload hook [h] registered: a [SIGHUP] received when the
    loop of [Wait] is at its receive calls [h] exactly once and leaves the
    loop at its receive, with [forked] as it was, whether [h] returns an
    error or nil.  What the turn leaves in the trace is the log of the
    signal, the call of the hook and, when [h] returned an error, the log
    of that error under the name of the hook: the error is logged, and it
    is not returned.  As long as the loop has not returned, the hook has
    been called as many times as [SIGHUP] was received; and in no run is it
    called more often than [SIGHUP] was delivered. *)
Theorem reload_hook_once_per_signal
    (h : StrategyGen.hook) (OnSIGUSR1 : option StrategyGen.hook) (l : listener) :
  (forall pre w f w1 t1,
      StrategyGen.Wait (Some h) OnSIGUSR1 l pre w =
        (Ok (StrategyGen.Receiving f), w1, t1) ->
      exists t2,
        StrategyGen.Wait (Some h) OnSIGUSR1 l (pre ++ [SIGHUP]) w =
          (Ok (StrategyGen.Receiving f), snd (h l w1), t1 ++ t2) /\
        hook_calls "OnSIGHUP" t2 = 1%nat /\
        t2 = (if Logger w1 then [EvLog [LSig SIGHUP]] else []) ++
             EvHook "OnSIGHUP" ::
             match fst (h l w1) with
             | Some e =>
                 if Logger (snd (h l w1))
                 then [EvLog [LStr "OnSIGHUP:"; LErr e]] else []
             | None => []
             end /\
        forall e, fst (h l w1) = Some e -> Logger (snd (h l w1)) = true ->
                  EvLog [LStr "OnSIGHUP:"; LErr e] ∈ t2) /\
  (forall sigs w f,
      result_of (StrategyGen.Wait (Some h) OnSIGUSR1 l sigs w) =
        Ok (StrategyGen.Receiving f) ->
      hook_calls "OnSIGHUP"
        (trace_of (StrategyGen.Wait (Some h) OnSIGUSR1 l sigs w)) =
      count_occ Z.eq_dec sigs SIGHUP) /\
  (forall sigs w,
      (hook_calls "OnSIGHUP"
         (trace_of (StrategyGen.Wait (Some h) OnSIGUSR1 l sigs w)) <=
       count_occ Z.eq_dec sigs SIGHUP)%nat).
Proof.
  split; [| split].
  - intros pre w f w1 t1 Hpre. unfold StrategyGen.Wait in *.
    apply bind_Ok in Hpre as ([] & w0 & ta & tb & Hemit & Hloop & ->).
    injection Hemit as <- <-.
    rewrite (bind_run _ _ w tt w [EvNotify [SIGHUP; SIGINT; SIGQUIT; SIGTERM; SIGUSR1; SIGUSR2]] eq_refl).
    rewrite (Wait_loop_app _ _ _ _ _ _ _ _ _ _ Hloop).
    cbn [result_of world_of trace_of fst snd StrategyGen.Wait_loop].
    unfold StrategyGen.Wait_step, StrategyGen.run_hook, bind, logln, ret.
    cbn. destruct (h l w1) as [[e |] w2]; cbn.
    + eexists. split; [rewrite <- app_assoc; reflexivity |].
      destruct (Logger w1), (Logger w2); cbn;
        (split; [reflexivity |]); (split; [reflexivity |]);
        intros e' [= <-] Hlog; try discriminate;
        repeat first [apply list_elem_of_here | apply list_elem_of_further].
    + eexists. split; [rewrite <- app_assoc; reflexivity |].
      destruct (Logger w1); cbn;
        (split; [reflexivity |]); (split; [reflexivity |]); discriminate.
  - intros sigs w f Hres. unfold StrategyGen.Wait, bind, emit in *.
    pose proof (Wait_loop_hook_calls (Some h) OnSIGUSR1 l sigs false w f) as H.
    unfold result_of, trace_of in *.
    destruct (StrategyGen.Wait_loop (Some h) OnSIGUSR1 l false sigs w)
      as [[r w'] t]. cbn in *. now apply H.
  - intros sigs w. unfold StrategyGen.Wait, bind, emit.
    pose proof (Wait_loop_hook_calls_le (Some h) OnSIGUSR1 l sigs false w) as H.
    unfold trace_of in *.
    destruct (StrategyGen.Wait_loop (Some h) OnSIGUSR1 l false sigs w)
      as [[r w'] t]. cbn in *. exact H.
Qed.

(** A hook that fails on every call, and a second [SIGHUP] after a first:
    the error is logged and the loop goes on. *)
Lemma reload_hook_once_per_signal_witness :
  exists t2,
    StrategyGen.Wait (Some failing_hook) None tcp_listener ([SIGHUP] ++ [SIGHUP])
      (tcp_server Single) =
      (Ok (StrategyGen.Receiving false),
       snd (failing_hook tcp_listener
              (world_of (StrategyGen.Wait (Some failing_hook) None tcp_listener
                           [SIGHUP] (tcp_server Single)))),
       trace_of (StrategyGen.Wait (Some failing_hook) None tcp_listener
                   [SIGHUP] (tcp_server Single)) ++ t2) /\
    hook_calls "OnSIGHUP" t2 = 1%nat /\
    t2 = (if Logger (world_of (StrategyGen.Wait (Some failing_hook) None tcp_listener
                                 [SIGHUP] (tcp_server Single)))
          then [EvLog [LSig SIGHUP]] else []) ++
         EvHook "OnSIGHUP" ::
         match fst (failing_hook tcp_listener
                      (world_of (StrategyGen.Wait (Some failing_hook) None tcp_listener
                                   [SIGHUP] (tcp_server Single)))) with
         | Some e =>
             if Logger (snd (failing_hook tcp_listener
                               (world_of (StrategyGen.Wait (Some failing_hook) None
                                            tcp_listener [SIGHUP] (tcp_server Single)))))
             then [EvLog [LStr "OnSIGHUP:"; LErr e]] else []
         | None => []
         end /\
    forall e,
      fst (failing_hook tcp_listener
             (world_of (StrategyGen.Wait (Some failing_hook) None tcp_listener
                          [SIGHUP] (tcp_server Single)))) = Some e ->
      Logger (snd (failing_hook tcp_listener
                     (world_of (StrategyGen.Wait (Some failing_hook) None tcp_listener
                                  [SIGHUP] (tcp_server Single))))) = true ->
      EvLog [LStr "OnSIGHUP:"; LErr e] ∈ t2.
Proof.
  apply (proj1 (reload_hook_once_per_signal failing_hook None tcp_listener)
           [SIGHUP] (tcp_server Single) false).
  vm_compute. reflexivity.
Defined.

(** ** C8: only the two variants are accepted *)

(** C8.  [setEnvs] succeeds only on a TCP or unix-domain listener; on any
    other listener it returns the unsupported-type error and changes
    nothing.  [Listener] returns only TCP or unix-domain listeners; when
    the listener rebuilt from the descriptor is of another type it returns
    the type-mismatch error. *)
Theorem only_two_variants_accepted :
  (forall l w fd, result_of (setEnvs l w) = Ok fd -> accepted l) /\
  (forall ty a w,
      setEnvs (OtherListener ty a) w =
      (Err (Errorf ("setEnvs: file descriptor is " +:+ ty +:+
                    " not *net.TCPListener or *net.UnixListener")), w, [])) /\
  (forall FileListener w l,
      result_of (Listener_via FileListener w) = Ok l -> accepted l) /\
  (forall FileListener w fd ty a w1 t1,
      Fmt.Sscan_uintptr (getenv w "GOAGAIN_FD") = Ok fd ->
      FileListener fd (getenv w "GOAGAIN_NAME") w =
        (Ok (OtherListener ty a), w1, t1) ->
      result_of (Listener_via FileListener w) =
      Err (Errorf ("file descriptor is " +:+ ty +:+
                   " not *net.TCPListener or *net.UnixListener"))).
Proof.
  repeat split.
  - intros [lfd a | lfd a | ty a] w fd; [exact (fun _ => I).. | discriminate].
  - intros FL w l.
    destruct (Listener_via FL w) as [[r w'] t] eqn:E. cbn. intros ->.
    unfold Listener_via in E.
    apply bind_Ok in E as (s & w1 & t1 & t2 & _ & E & _).
    apply bind_Ok in E as (fd & w2 & t3 & t4 & _ & E & _).
    apply bind_Ok in E as (name & w2' & t3' & t4' & _ & E & _).
    apply bind_Ok in E as (r & w3 & t5 & t6 & _ & E & _).
    apply bind_Ok in E as ([] & w4 & t7 & t8 & _ & E & _).
    destruct r as [[lfd a | lfd a | ty a] | e]; try discriminate;
      injection E as <- _ _; exact I.
  - intros FL w fd ty a w1 t1 Hscan Hfl.
    unfold Listener_via, result_of.
    rewrite (bind_run _ _ _ _ _ _ (getenv_run _ _)).
    unfold lift at 1. rewrite Hscan.
    unfold bind at 1. cbn [fst snd result_of world_of trace_of].
    rewrite (bind_run _ _ _ _ _ _ (getenv_run _ _)).
    cbn [fst snd result_of world_of trace_of].
    unfold attempt, bind. rewrite Hfl. reflexivity.
Qed.

(** [setEnvs] succeeds on the TCP listener of the server. *)
Lemma only_two_variants_accepted_witness : accepted tcp_listener.
Proof.
  apply (proj1 only_two_variants_accepted tcp_listener (tcp_server Single) 4).
  vm_compute. reflexivity.
Defined.

(** ** C9: what a spawn does to the handoff fields *)



(** ** C10: when Kill falls back to the predecessor pid *)

(** C10, amended.  Scanning [GOAGAIN_PID] yields [io.EOF] exactly when the
    field is blank: unset, empty, or nothing but white space followed by at
    most one sign.  Exactly then [Kill] takes the pid from [GOAGAIN_PPID]:
    when that field scans to a pid, [Kill] sends its signal to that pid,
    once, and returns what the system call returned; when it does not,
    [Kill] returns the error of that scan and sends nothing.  When
    [GOAGAIN_PID] is not blank and does not scan, [Kill] returns that scan
    error and does nothing else; when it scans, [Kill] signals the pid it
    holds; and when it is not blank, what [Kill] does is the same whatever
    [GOAGAIN_PPID] holds.  This holds in both generations. *)
Theorem Kill_falls_back_on_EOF (w : world) :
  (Fmt.Sscan_int (getenv w "GOAGAIN_PID") = Err io_EOF <->
   blank (getenv w "GOAGAIN_PID")) /\
  (blank (getenv w "GOAGAIN_PID") ->
   result_of (StrategyGen.target_pid w) = Fmt.Sscan_int (getenv w "GOAGAIN_PPID") /\
   result_of (BoundedWait.target_pid w) = Fmt.Sscan_int (getenv w "GOAGAIN_PPID") /\
   (forall p, Fmt.Sscan_int (getenv w "GOAGAIN_PPID") = Ok p ->
      sends (StrategyGen.Kill w) p (scanned_signal w) /\
      result_of (StrategyGen.Kill w) =
        match sys_Kill w p (scanned_signal w) with None => Ok tt | Some e => Err e end /\
      forall s,
        sends (BoundedWait.Kill s w) p s /\
        result_of (BoundedWait.Kill s w) =
          match sys_Kill w p s with None => Ok tt | Some e => Err e end) /\
   (forall e, Fmt.Sscan_int (getenv w "GOAGAIN_PPID") = Err e ->
      (result_of (StrategyGen.Kill w) = Err e /\
       trace_of (StrategyGen.Kill w) = []) /\
      forall s, result_of (BoundedWait.Kill s w) = Err e /\
                trace_of (BoundedWait.Kill s w) = [])) /\
  (~ blank (getenv w "GOAGAIN_PID") ->
   (forall e, Fmt.Sscan_int (getenv w "GOAGAIN_PID") = Err e ->
      (result_of (StrategyGen.Kill w) = Err e /\
       trace_of (StrategyGen.Kill w) = []) /\
      forall s, result_of (BoundedWait.Kill s w) = Err e /\
                trace_of (BoundedWait.Kill s w) = []) /\
   (forall p, Fmt.Sscan_int (getenv w "GOAGAIN_PID") = Ok p ->
      sends (StrategyGen.Kill w) p (scanned_signal w) /\
      forall s, sends (BoundedWait.Kill s w) p s) /\
   (forall g : gmap string string -> gmap string string,
      (forall k, k <> "GOAGAIN_PPID" -> g (env w) !! k = env w !! k) ->
      (result_of (StrategyGen.Kill (set_env g w)) = result_of (StrategyGen.Kill w) /\
       trace_of (StrategyGen.Kill (set_env g w)) = trace_of (StrategyGen.Kill w)) /\
      forall s,
        result_of (BoundedWait.Kill s (set_env g w)) = result_of (BoundedWait.Kill s w) /\
        trace_of (BoundedWait.Kill s (set_env g w)) = trace_of (BoundedWait.Kill s w))).
Proof.
  split; [apply Sscan_int_EOF |]. split.
  - intros Hb. apply Sscan_int_EOF in Hb.
    assert (scanned_pid w = Fmt.Sscan_int (getenv w "GOAGAIN_PPID")) as Hscan
      by (unfold scanned_pid; now rewrite Hb).
    change BoundedWait.target_pid with StrategyGen.target_pid.
    rewrite target_pid_run. cbn [result_of fst].
    split; [exact Hscan |]. split; [exact Hscan |]. split.
    + intros p Hp. rewrite Hp in Hscan.
      split; [now apply Kill_strategy_sends |].
      split.
      * pose proof (Kill_strategy_run w) as H. rewrite Hscan in H.
        apply (f_equal fst) in H. exact H.
      * intros s. split; [now apply Kill_bounded_sends |].
        pose proof (Kill_bounded_run s w) as H. rewrite Hscan in H.
        apply (f_equal fst) in H. exact H.
    + intros e He. rewrite He in Hscan. now apply Kill_fails.
  - intros Hnb. split; [| split].
    + intros e He. apply Kill_fails. unfold scanned_pid. rewrite He.
      destruct e; try reflexivity. now apply Sscan_int_EOF in He.
    + intros p Hp.
      assert (scanned_pid w = Ok p) as Hscan
        by (unfold scanned_pid; now rewrite Hp).
      split; [now apply Kill_strategy_sends |].
      intros s. now apply Kill_bounded_sends.
    + intros g Hg. destruct (scanned_pid_frame g w Hg Hnb) as [Hp Hs].
      split; [| intros s].
      * pose proof (Kill_strategy_run (set_env g w)) as H1.
        pose proof (Kill_strategy_run w) as H2.
        rewrite Hp, Hs in H1. cbn [Strategy Logger sys_Kill set_env] in H1.
        rewrite <- H2 in H1. now injection H1.
      * pose proof (Kill_bounded_run s (set_env g w)) as H1.
        pose proof (Kill_bounded_run s w) as H2.
        rewrite Hp in H1. cbn [Strategy Logger sys_Kill set_env] in H1.
        rewrite <- H2 in H1. now injection H1.
Qed.

(** [GOAGAIN_PID] holding one space is blank: [Kill] signals the pid of
    [GOAGAIN_PPID]. *)
Lemma Kill_falls_back_on_EOF_witness :
  result_of (StrategyGen.target_pid blank_pid_env) =
    Fmt.Sscan_int (getenv blank_pid_env "GOAGAIN_PPID") /\
  result_of (BoundedWait.target_pid blank_pid_env) =
    Fmt.Sscan_int (getenv blank_pid_env "GOAGAIN_PPID") /\
  (forall p, Fmt.Sscan_int (getenv blank_pid_env "GOAGAIN_PPID") = Ok p ->
     sends (StrategyGen.Kill blank_pid_env) p (scanned_signal blank_pid_env) /\
     result_of (StrategyGen.Kill blank_pid_env) =
       match sys_Kill blank_pid_env p (scanned_signal blank_pid_env) with
       | None => Ok tt
       | Some e => Err e
       end /\
     forall s,
       sends (BoundedWait.Kill s blank_pid_env) p s /\
       result_of (BoundedWait.Kill s blank_pid_env) =
         match sys_Kill blank_pid_env p s with None => Ok tt | Some e => Err e end) /\
  (forall e, Fmt.Sscan_int (getenv blank_pid_env "GOAGAIN_PPID") = Err e ->
     (result_of (StrategyGen.Kill blank_pid_env) = Err e /\
      trace_of (StrategyGen.Kill blank_pid_env) = []) /\
     forall s, result_of (BoundedWait.Kill s blank_pid_env) = Err e /\
               trace_of (BoundedWait.Kill s blank_pid_env) = []).
Proof.
  apply (proj1 (proj2 (Kill_falls_back_on_EOF blank_pid_env))).
  left. vm_compute. reflexivity.
Defined.

(** C10 as stated fails: [GOAGAIN_PID] holds one space, so it is not empty
    and no integer scans from it, yet [Kill] returns no error and signals
    the pid of [GOAGAIN_PPID]. *)
Lemma Kill_consults_PPID_on_white_space :
  let w := with_env [("GOAGAIN_PID", " "); ("GOAGAIN_PPID", "4242")] in
  env w !! "GOAGAIN_PID" = Some " " /\
  Fmt.Sscan_int (getenv w "GOAGAIN_PID") = Err io_EOF /\
  result_of (StrategyGen.Kill w) = Ok tt /\
  signals_sent (trace_of (StrategyGen.Kill w)) = [(4242, SIGQUIT)] /\
  result_of (BoundedWait.Kill SIGQUIT w) = Ok tt /\
  signals_sent (trace_of (BoundedWait.Kill SIGQUIT w)) = [(4242, SIGQUIT)].
Proof. cbv zeta. repeat split; vm_compute; reflexivity. Qed.

(** * Further properties *)

(** ** Printing and scanning signed integers *)

Lemma ParseUint_fmt (v : Z) :
  1 <= v <= Fmt.maxUint64 ->
  exists c r, Fmt.fmt_digits 20 v "" = String c r /\ 49 <= Fmt.code c <= 57 /\
              all_decimal (String c r) = true /\
              Fmt.ParseUint (String c r) = Ok v.
Proof.
  intros Hv. unfold Fmt.maxUint64 in Hv.
  change (2 ^ 64 - 1) with 18446744073709551615 in Hv.
  assert (1 <= v < 10 ^ Z.of_nat 20) as Hr
    by (change (10 ^ Z.of_nat 20) with 100000000000000000000; lia).
  destruct (fmt_digits_head 20 v Hr) as (c & r & Heq & Hc).
  pose proof (fmt_digits_decimal 20 v ltac:(lia)) as Hdec.
  pose proof (ParseUint_loop_fmt 20 v ltac:(lia)
                ltac:(unfold Fmt.maxUint64; change (2 ^ 64 - 1) with 18446744073709551615; lia)) as Hloop.
  rewrite Heq in *. exists c, r. repeat split; try lia; try assumption.
  unfold Fmt.ParseUint. replace (Fmt.code c =? 48) with false by lia.
  rewrite Hloop. reflexivity.
Qed.

Lemma Sscan_int_decimal (c : ascii) (r : string) (sign : bool) :
  49 <= Fmt.code c <= 57 -> all_decimal (String c r) = true ->
  Fmt.Sscan_int (if sign then String "-" (String c r) else String c r) =
  Fmt.ParseInt (if sign then String "-" (String c r) else String c r).
Proof.
  intros Hc Hdec. unfold Fmt.Sscan_int.
  assert (Fmt.scanBasePrefix (String c r) = ("", Fmt.decimalDigits, false, String c r)) as Hpre.
  { unfold Fmt.scanBasePrefix. now replace (Fmt.code c =? 48) with false by lia. }
  assert (Fmt.scanNumber Fmt.decimalDigits false (String c r) = Ok (String c r)) as Hnum.
  { unfold Fmt.scanNumber.
    assert (Fmt.in_digits Fmt.decimalDigits (Fmt.code c) = true) as ->
      by (unfold Fmt.in_digits; lia).
    now rewrite (accept_all_decimal (String c r)) by exact Hdec. }
  destruct sign.
  - rewrite SkipSpace_graphic by (vm_compute; split; discriminate).
    change ((Fmt.code "-" =? 43) || (Fmt.code "-" =? 45)) with true. cbv iota.
    rewrite Hpre, Hnum. reflexivity.
  - rewrite SkipSpace_graphic by lia.
    replace ((Fmt.code c =? 43) || (Fmt.code c =? 45)) with false by lia.
    rewrite Hpre, Hnum. reflexivity.
Qed.

Lemma Sscan_Sprint_int (v : Z) :
  - 2 ^ 63 <= v < 2 ^ 63 -> Fmt.Sscan_int (Fmt.Sprint_int v) = Ok v.
Proof.
  intros Hv. change (2 ^ 63) with 9223372036854775808 in Hv.
  unfold Fmt.Sprint_int. destruct (Z.ltb_spec v 0) as [Hneg | Hpos].
  - destruct (ParseUint_fmt (- v)) as (c & r & -> & Hc & Hdec & Hparse).
    { unfold Fmt.maxUint64. change (2 ^ 64 - 1) with 18446744073709551615. lia. }
    rewrite (Sscan_int_decimal c r true Hc Hdec).
    unfold Fmt.ParseInt. change (Fmt.code "-" =? 45) with true.
    change (Fmt.code "-" =? 43) with false. cbn [orb negb andb].
    rewrite Hparse. change (2 ^ 63) with 9223372036854775808.
    replace (9223372036854775808 <? - v) with false by lia.
    f_equal. lia.
  - destruct (Z.eq_dec v 0) as [-> | Hnz]; [reflexivity |].
    destruct (ParseUint_fmt v) as (c & r & -> & Hc & Hdec & Hparse).
    { unfold Fmt.maxUint64. change (2 ^ 64 - 1) with 18446744073709551615. lia. }
    rewrite (Sscan_int_decimal c r false Hc Hdec).
    unfold Fmt.ParseInt. replace (Fmt.code c =? 45) with false by lia.
    replace (Fmt.code c =? 43) with false by lia. cbn [orb negb andb].
    rewrite Hparse. change (2 ^ 63) with 9223372036854775808.
    replace (9223372036854775808 <=? v) with false by lia.
    reflexivity.
Qed.

(** ** The descriptor table *)

Lemma find_seq_least (p : Z -> bool) (len : nat) : forall (a : nat) (n : Z),
  List.find p (Z.of_nat <$> seq a len) = Some n ->
  Z.of_nat a <= n /\ forall k, Z.of_nat a <= k < n -> p k = false.
Proof.
  induction len as [| len IH]; intros a n; [discriminate |].
  cbn [seq fmap list_fmap List.find].
  destruct (p (Z.of_nat a)) eqn:Hp.
  - intros [= <-]. split; [lia | intros k Hk; lia].
  - intros H. apply IH in H as [Hle Hmin]. split; [lia |].
    intros k Hk. destruct (Z.eq_dec k (Z.of_nat a)) as [-> | Hne]; [exact Hp |].
    apply Hmin. lia.
Qed.

Lemma find_seq_some (p : Z -> bool) (len : nat) : forall (a : nat) (k : Z),
  Z.of_nat a <= k < Z.of_nat a + Z.of_nat len -> p k = true ->
  is_Some (List.find p (Z.of_nat <$> seq a len)).
Proof.
  induction len as [| len IH]; intros a k Hk Hp; [lia |].
  cbn [seq fmap list_fmap List.find].
  destruct (p (Z.of_nat a)) eqn:Ha; [eauto |].
  apply (IH (S a) k); [| exact Hp].
  destruct (Z.eq_dec k (Z.of_nat a)) as [-> | Hne]; [congruence | lia].
Qed.

(** [dup] takes the lowest free descriptor: every smaller one is open. *)
Lemma lowest_free_least (t : gmap Z file) (limit : nat) (n : Z) :
  lowest_free t limit = Some n ->
  forall k, 0 <= k < n -> is_Some (t !! k).
Proof.
  unfold lowest_free. intros H k Hk.
  apply find_seq_least in H as [_ Hmin].
  specialize (Hmin k ltac:(lia)). apply bool_decide_eq_false in Hmin.
  destruct (t !! k); [eauto | congruence].
Qed.

Lemma lowest_free_is_Some (t : gmap Z file) (limit : nat) (k : Z) :
  0 <= k < Z.of_nat limit -> k < 2 ^ 31 -> t !! k = None ->
  is_Some (lowest_free t limit).
Proof.
  intros Hk Hk' Hfree. unfold lowest_free.
  apply (find_seq_some _ _ 0%nat k); [| now apply bool_decide_eq_true].
  rewrite Z2Nat.id by lia. lia.
Qed.

(** Slot [k] of the child is the parent's descriptor [files[k - i]]. *)
Lemma inherit_from_lookup (pfds : gmap Z file) (files : list (option Z)) :
  forall i k,
    inherit_from pfds i files !! k =
    if k <? i then None
    else o ← files !! Z.to_nat (k - i); fd ← o; pfds !! fd.
Proof.
  induction files as [| o r IH]; intros i k; cbn [inherit_from].
  - rewrite lookup_empty. now destruct (k <? i).
  - destruct (Z.ltb_spec k i) as [Hlt | Hge].
    + assert (inherit_from pfds (i + 1) r !! k = None) as Hr.
      { rewrite IH. now replace (k <? i + 1) with true by lia. }
      destruct (o ≫= _); [rewrite lookup_insert_ne by lia |]; exact Hr.
    + destruct (Z.eq_dec k i) as [-> | Hne].
      * replace (Z.to_nat (i - i)) with 0%nat by lia. cbn.
        destruct (o ≫= _) as [f |] eqn:Ho.
        -- now rewrite lookup_insert_eq.
        -- rewrite IH. now replace (i <? i + 1) with true by lia.
      * replace (Z.to_nat (k - i)) with (S (Z.to_nat (k - (i + 1)))) by lia.
        cbn [lookup list_lookup].
        assert (inherit_from pfds (i + 1) r !! k =
                o ← r !! Z.to_nat (k - (i + 1)); fd ← o; pfds !! fd) as Hr.
        { rewrite IH. now replace (k <? i + 1) with false by lia. }
        destruct (o ≫= _); [rewrite lookup_insert_ne by lia |]; exact Hr.
Qed.

(** The table [ForkExec] builds for a descriptor in the range of [dup]:
    it panics below 2, and otherwise passes the slots 0, 1, 2 and [fd]. *)
Lemma file_table_spec (fd : Z) :
  0 <= fd < 2 ^ 31 ->
  if fd <? 2 then file_table fd = Panic "index out of range"
  else exists files,
      file_table fd = Ok files /\
      forall pfds k,
        inherit_from pfds 0 files !! k =
        if (k =? 0) || (k =? 1) || (k =? 2) || (k =? fd) then pfds !! k else None.
Proof.
  intros Hr. change (2 ^ 31) with 2147483648 in Hr. unfold file_table.
  rewrite Z.mod_small by (change (2 ^ 64) with 18446744073709551616; lia).
  destruct (Z.ltb_spec fd 2) as [Hlt | Hge].
  - now replace ((fd + 1 <=? 2) || (fd + 1 <=? fd)) with true by lia.
  - replace ((fd + 1 <=? 2) || (fd + 1 <=? fd)) with false by lia.
    eexists. split; [reflexivity |]. intros pfds k.
    rewrite inherit_from_lookup.
    destruct (Z.ltb_spec k 0) as [Hneg | Hpos].
    { now replace ((k =? 0) || (k =? 1) || (k =? 2) || (k =? fd)) with false by lia. }
    rewrite Z.sub_0_r.
    assert (Z.to_nat (fd + 1) = S (Z.to_nat fd)) as Hlen by lia.
    destruct (Z.eq_dec k fd) as [-> | Hfd].
    { rewrite list_lookup_insert_eq
        by (rewrite !length_insert, length_replicate; lia).
      cbn. now rewrite Z.eqb_refl, orb_true_r. }
    rewrite list_lookup_insert_ne by lia.
    replace (k =? fd) with false by lia. rewrite orb_false_r.
    destruct (Z.eq_dec k 2) as [-> | H2].
    { rewrite list_lookup_insert_eq
        by (rewrite !length_insert, length_replicate; lia).
      reflexivity. }
    rewrite list_lookup_insert_ne by lia.
    destruct (Z.eq_dec k 1) as [-> | H1].
    { rewrite list_lookup_insert_eq
        by (rewrite !length_insert, length_replicate; lia).
      reflexivity. }
    rewrite list_lookup_insert_ne by lia.
    destruct (Z.eq_dec k 0) as [-> | H0].
    { rewrite list_lookup_insert_eq by (rewrite length_replicate; lia).
      reflexivity. }
    rewrite list_lookup_insert_ne by lia.
    replace ((k =? 0) || (k =? 1) || (k =? 2)) with false by lia.
    destruct (decide (Z.to_nat k < Z.to_nat (fd + 1))%nat) as [Hin | Hout].
    + rewrite lookup_replicate_2 by exact Hin. reflexivity.
    + assert (replicate (Z.to_nat (fd + 1)) (@None Z) !! Z.to_nat k = None) as ->
        by (apply lookup_replicate_None; lia).
      reflexivity.
Qed.

(** ** What a spawn that succeeded has done *)

Lemma ForkExec_Ok (l : listener) (w w' : world) (t : list event) :
  StrategyGen.ForkExec l w = (Ok tt, w', t) ->
  exists lfd f n argv0 files p,
    listener_fd l = Some lfd /\ fds w !! lfd = Some f /\
    fds w !! n = None /\ 0 <= n < 2 ^ 31 /\
    file_table n = Ok files /\ sys_StartProcess w argv0 = Ok p /\
    let w5 := at_spawn l n f (Some (StrategyGen.handshake_signal (Strategy w))) w in
    w' = set_env (<["GOAGAIN_PID" := Fmt.Sprint_int p]>)
           (set_children (fun c => {[p]} ∪ c) w5) /\
    spawned t = [child_world w5 files p] /\
    signals_sent t = [].
Proof.
  intros Hrun.
  refine (wp_run _ (fun r w' t => r = Ok tt -> _) _ _ _ _ _ Hrun eq_refl).
  apply wp_ForkExec; [intros r Hr ->; now destruct (Hr tt) |].
  intros lfd f n Hl Hf Hn Hr. cbn zeta.
  split; [discriminate | intros _; split].
  - intros r Hr' ->. now destruct (Hr' tt).
  - intros argv0 wd files p Hfiles Hp _.
    exists lfd, f, n, argv0, files, p.
    split; [destruct Hl as [-> | ->]; reflexivity |].
    repeat split; try assumption; try lia;
      destruct (Logger w); reflexivity.
Qed.

Lemma forkExec_Ok (l : listener) (q : Z) (w w' : world) (cp : Z)
    (e : option error) (t : list event) :
  BoundedWait.forkExec l q w = (Ok (cp, e), w', t) ->
  exists lfd f n argv0 files,
    e = None /\
    listener_fd l = Some lfd /\ fds w !! lfd = Some f /\
    fds w !! n = None /\ 0 <= n < 2 ^ 31 /\
    file_table n = Ok files /\ sys_StartProcess w argv0 = Ok cp /\
    let w4 := at_spawn l n f None w in
    w' = set_env (<["GOAGAIN_PID" := Fmt.Sprint_int cp]>)
           (set_children (fun c => {[cp]} ∪ c) w4) /\
    spawned t = [child_world w4 files cp] /\
    signals_sent t = [].
Proof.
  intros Hrun.
  refine (wp_run _ (fun r w' t => r = Ok (cp, e) -> _) _ _ _ _ _ Hrun eq_refl).
  apply wp_forkExec; [intros r Hr ->; now destruct (Hr (cp, e)) |].
  intros lfd f n Hl Hf Hn Hr. cbn zeta.
  split; [discriminate | intros _; split].
  - intros r Hr' ->. now destruct (Hr' (cp, e)).
  - intros argv0 wd files p Hfiles Hp [= -> <-].
    exists lfd, f, n, argv0, files.
    split; [reflexivity |].
    split; [destruct Hl as [-> | ->]; reflexivity |].
    repeat split; try assumption; try lia;
      destruct (Logger w); reflexivity.
Qed.

(** A listener that is live has its socket behind its descriptor. *)
Lemma bound_in_socket (w : world) (l : listener) (lfd : Z) (f : file) :
  bound_in w l -> listener_fd l = Some lfd -> fds w !! lfd = Some f ->
  exists k, f = Socket k (Addr_of l) /\
            ((k = SockTCP /\ l = TCPListener lfd (Addr_of l)) \/
             (k = SockUnix /\ l = UnixListener lfd (Addr_of l))).
Proof.
  destruct l as [fd a | fd a | ty a]; cbn; intros Hb [= ->] Hf;
    rewrite Hf in Hb; injection Hb as ->; eauto.
Qed.

(** [Listener] on a descriptor that is a TCP or unix socket, with a slot
    free for the copy. *)
Lemma Listener_decodes (w : world) (fd n : Z) (k : sock_kind) (a : Addr) :
  Fmt.Sscan_uintptr (getenv w "GOAGAIN_FD") = Ok fd ->
  fds w !! fd = Some (Socket k a) ->
  k = SockTCP \/ k = SockUnix ->
  lowest_free (fds w) (nofile w) = Some n ->
  Listener w =
  (Ok (match k with SockUnix => UnixListener n a | _ => TCPListener n a end),
   set_fds (delete fd) (set_fds (<[n := Socket k a]>) w), []).
Proof.
  intros Hscan Hfd Hk Hfree.
  unfold Listener, Listener_via.
  rewrite (bind_run _ _ _ _ _ _ (getenv_run _ _)).
  unfold lift at 1. rewrite Hscan.
  unfold bind at 1. cbn [fst snd result_of world_of trace_of].
  rewrite (bind_run _ _ _ _ _ _ (getenv_run _ _)).
  cbn [fst snd result_of world_of trace_of].
  unfold attempt, net_FileListener, bind, get, dup, close, modify.
  destruct Hk as [-> | ->]; cbn; rewrite !Hfd, Hfree; reflexivity.
Qed.

(** ** The paths of Listener *)

Lemma ParseUint_outcome (s : string) :
  match Fmt.ParseUint s with
  | Ok _ | Err (NumError _ _ _) => True
  | _ => False
  end.
Proof.
  unfold Fmt.ParseUint. destruct s as [| c r]; [exact I |].
  destruct (if Fmt.code c =? 48 then _ else _) as [base body].
  destruct (Fmt.ParseUint_loop base 0 false body) as [n us | |]; try exact I.
  destruct (us && negb (Fmt.underscoreOK (String c r))); exact I.
Qed.

(** Scanning an unsigned integer reports [io.EOF] exactly when nothing but
    white space is there. *)
Lemma Sscan_uintptr_EOF (s : string) :
  Fmt.Sscan_uintptr s = Err io_EOF <-> Fmt.SkipSpace s = "".
Proof.
  unfold Fmt.Sscan_uintptr.
  destruct (Fmt.SkipSpace s) as [| c r]; [tauto |].
  split; [| discriminate].
  destruct (Fmt.scanBasePrefix (String c r)) as [[[pre ds] have] s3] eqn:Hpre.
  destruct (Fmt.scanNumber ds have s3) as [body | e | m] eqn:Hn.
  - intros E. pose proof (ParseUint_outcome (pre +:+ body)) as Ho.
    rewrite E in Ho. destruct Ho.
  - intros [= ->]. apply scanNumber_EOF in Hn as [-> ->].
    now apply scanBasePrefix_rest in Hpre.
  - discriminate.
Qed.

(** Every path of [Listener]. *)
Lemma Listener_run (w : world) :
  Listener w =
  match Fmt.Sscan_uintptr (getenv w "GOAGAIN_FD") with
  | Ok fd =>
      match fds w !! fd with
      | Some (Socket SockOther _) =>
          (Err (Errno "invalid argument"), set_fds (delete fd) w, [])
      | Some (Socket k a) =>
          match lowest_free (fds w) (nofile w) with
          | Some n =>
              (Ok (match k with SockUnix => UnixListener n a | _ => TCPListener n a end),
               set_fds (delete fd) (set_fds (<[n := Socket k a]>) w), [])
          | None => (Err (Errno "too many open files"), set_fds (delete fd) w, [])
          end
      | Some (Plain _) =>
          (Err (Errno "socket operation on non-socket"), set_fds (delete fd) w, [])
      | None => (Err (Errno "bad file descriptor"), set_fds (delete fd) w, [])
      end
  | Err e => (Err e, w, [])
  | Panic m => (Panic m, w, [])
  end.
Proof.
  unfold Listener, Listener_via.
  rewrite (bind_run _ _ _ _ _ _ (getenv_run _ _)).
  unfold lift at 1.
  destruct (Fmt.Sscan_uintptr (getenv w "GOAGAIN_FD")) as [fd | e | m];
    [| reflexivity | reflexivity].
  unfold bind at 1. cbn [fst snd result_of world_of trace_of].
  rewrite (bind_run _ _ _ _ _ _ (getenv_run _ _)).
  cbn [fst snd result_of world_of trace_of].
  unfold attempt, net_FileListener, bind, get, dup, close, modify.
  destruct (fds w !! fd) as [[[] a | name] |] eqn:Hfd; cbn; rewrite ?Hfd;
    try reflexivity;
    destruct (lowest_free (fds w) (nofile w)); reflexivity.
Qed.

(** ** Running lookPath and setEnvs *)

(** [lookPath] asks the system twice and changes nothing. *)
Lemma lookPath_run (w : world) :
  lookPath w =
  (match Args w with
   | [] => Panic "index out of range"
   | a0 :: _ =>
       match sys_LookPath w a0 with
       | Ok argv0 =>
           match sys_Stat w argv0 with Some e => Err e | None => Ok argv0 end
       | r => r
       end
   end, w, []).
Proof.
  unfold lookPath, bind, get, exec_LookPath, Stat, panic, ret. cbn.
  destruct (Args w) as [| a0 rest]; [reflexivity |].
  destruct (sys_LookPath w a0) as [argv0 | e | m]; try reflexivity.
  destruct (sys_Stat w argv0); reflexivity.
Qed.

Lemma setEnvs_run (l : listener) (w : world) (lfd n : Z) (f : file) :
  listener_fd l = Some lfd -> fds w !! lfd = Some f ->
  lowest_free (fds w) (nofile w) = Some n ->
  has_byte 0 (fd_name l) = false ->
  setEnvs l w =
  (Ok n,
   set_env (<["GOAGAIN_NAME" := fd_name l]>)
     (set_env (<["GOAGAIN_FD" := Fmt.Sprint_uintptr n]>) (set_fds (<[n := f]>) w)),
   [EvSetenv "GOAGAIN_FD" (Fmt.Sprint_uintptr n);
    EvSetenv "GOAGAIN_NAME" (fd_name l)]).
Proof.
  intros Hl Hf Hfree Hname. unfold setEnvs.
  assert (File lfd w = (Ok n, set_fds (<[n := f]>) w, [])) as Hdup
    by (unfold File, dup; now rewrite Hf, Hfree).
  assert (forall (k : Z -> M Z),
            bind (match l with
                  | TCPListener t _ => File t
                  | UnixListener t _ => File t
                  | OtherListener _ _ =>
                      fail (Errorf ("setEnvs: file descriptor is " +:+ type_name_of l +:+
                                    " not *net.TCPListener or *net.UnixListener"))
                  end) k w =
            bind (File lfd) k w) as ->
    by (intros k; destruct l; try discriminate; now injection Hl as ->).
  rewrite (bind_run _ _ _ _ _ _ Hdup).
  unfold bind. rewrite !Setenv_run by reflexivity.
  rewrite Sprint_uintptr_no_NUL. rewrite Setenv_run by reflexivity.
  rewrite Hname. reflexivity.
Qed.

(** ** The successor *)

Lemma at_spawn_child (l : listener) (w : world) (lfd n p : Z) (f : file)
    (files : list (option Z)) (sig : option Z) :
  listener_fd l = Some lfd -> fds w !! lfd = Some f ->
  fds w !! n = None -> 0 <= n < 2 ^ 31 -> file_table n = Ok files ->
  let w5 := at_spawn l n f sig w in
  let c := child_world w5 files p in
  successor_of l w
    (set_env (<["GOAGAIN_PID" := Fmt.Sprint_int p]>)
       (set_children (fun c => {[p]} ∪ c) w5)) c /\
  pid c = p /\
  match sig with
  | Some s => getenv c "GOAGAIN_SIGNAL" = Fmt.Sprint_int s
  | None => env c !! "GOAGAIN_SIGNAL" = env w !! "GOAGAIN_SIGNAL"
  end.
Proof.
  intros Hl Hf Hn Hr Hfiles. cbv zeta.
  pose proof (file_table_spec n Hr) as Hspec.
  destruct (Z.ltb_spec n 2) as [Hlt | Hge]; [congruence |].
  destruct Hspec as (files' & Hfiles' & Htable).
  rewrite Hfiles in Hfiles'. injection Hfiles' as <-.
  assert (Fmt.Sscan_uintptr (Fmt.Sprint_uintptr n) = Ok n) as Hscan.
  { apply Sscan_Sprint_uintptr. change (2 ^ 31) with 2147483648 in Hr.
    change (2 ^ 64) with 18446744073709551616. lia. }
  split; [| split; [reflexivity |]].
  - unfold successor_of, getenv.
    destruct sig as [s |]; cbn; env_lookup; cbn;
      (repeat (split; [reflexivity |]));
      exists n, lfd;
      (split; [exact Hscan |]);
      (split; [exact Hge |]); (split; [exact Hl |]); (split; [eauto |]);
      (split; [rewrite Htable, Z.eqb_refl, orb_true_r, lookup_insert_eq;
               now rewrite Hf |]);
      intros k; apply Htable.
  - destruct sig as [s |]; unfold getenv; cbn; env_lookup; reflexivity.
Qed.

(** The successor finds the pid of its predecessor and nothing else to
    signal. *)
Lemma successor_scanned_pid (l : listener) (w w' c : world) :
  successor_of l w w' c -> - 2 ^ 63 <= pid w < 2 ^ 63 ->
  scanned_pid c = Ok (pid w).
Proof.
  intros (_ & _ & _ & Hpid & Hppid & _) Hr.
  unfold scanned_pid. rewrite Hpid, Hppid. cbn.
  now apply Sscan_Sprint_int.
Qed.

(** The successor decodes the listener it was handed: it closes the
    descriptor [fd] it inherited and holds the copy [n]. *)
Lemma successor_Listener (l : listener) (w w' c : world) :
  successor_of l w w' c -> bound_in w l -> (5 <= nofile w)%nat ->
  exists fd n k,
    fd <> n /\ (k = SockTCP \/ k = SockUnix) /\
    fds w !! default 0 (listener_fd l) = Some (Socket k (Addr_of l)) /\
    Listener c =
    (Ok (match k with SockUnix => UnixListener n (Addr_of l)
                    | _ => TCPListener n (Addr_of l) end),
     set_fds (delete fd) (set_fds (<[n := Socket k (Addr_of l)]>) c), []).
Proof.
  intros (_ & _ & _ & _ & _ & _ & _ & _ & Hno & fd & lfd & Hscan & Hfd2 & Hl &
          [f Hf] & Hcfd & Htable) Hbound Hlimit.
  destruct (bound_in_socket w l lfd f Hbound Hl Hf) as (k & -> & Hk).
  assert (exists k3, 0 <= k3 < 5 /\ fds c !! k3 = None) as (k3 & Hk3 & Hfree3).
  { destruct (Z.eq_dec fd 3) as [-> | Hne].
    - exists 4. split; [lia |]. now rewrite Htable.
    - exists 3. split; [lia |]. rewrite Htable.
      now replace (3 =? fd) with false by lia. }
  destruct (lowest_free_is_Some (fds c) (nofile c) k3) as [n Hn];
    [lia | change (2 ^ 31) with 2147483648; lia | exact Hfree3 |].
  exists fd, n, k.
  destruct (lowest_free_spec _ _ _ Hn) as [Hnone _].
  split; [intros ->; rewrite Hcfd, Hf in Hnone; discriminate |].
  assert (k = SockTCP \/ k = SockUnix) as Hk'
    by (destruct Hk as [[-> _] | [-> _]]; tauto).
  split; [exact Hk' |]. rewrite Hl. cbn [default].
  split; [exact Hf |].
  apply Listener_decodes; try assumption. now rewrite Hcfd.
Qed.

(** ** The paths of Exec *)

Lemma Exec_run (l : listener) (w : world) :
  StrategyGen.Exec l w =
  if ppid w =? guard_pid w
  then (Err (Errorf "goagain.Exec called by a child process"), w, [])
  else (argv0 <- lookPath ;;
        setEnvs l ;;;
        Setenv "GOAGAIN_SIGNAL" (Fmt.Sprint_int SIGQUIT) ;;;
        logln [LStr "re-executing"; LStr argv0] ;;;
        StrategyGen.syscall_Exec argv0) w.
Proof.
  unfold StrategyGen.Exec, guard_pid.
  rewrite (bind_run _ _ _ _ _ _ (getenv_run _ _)).
  rewrite (bind_run (get ppid) _ w (ppid w) w [] eq_refl).
  cbn [result_of world_of trace_of fst snd app].
  destruct (ppid w =? _); [reflexivity |]. symmetry. apply triple_eta.
Qed.

(** The paths of [Exec], for any postcondition: the guard refuses; or it
    fails before any field is written; or after [GOAGAIN_FD] alone; or
    [syscall.Exec] fails after the three fields; or the image is
    replaced. *)
Lemma wp_Exec (l : listener) Q w :
  (ppid w = guard_pid w ->
   Q (Err (Errorf "goagain.Exec called by a child process")) w []) ->
  (ppid w <> guard_pid w ->
   (forall r, (forall u, r <> Ok u) -> Q r w []) /\
   forall lfd f n,
      listener_fd l = Some lfd ->
      fds w !! lfd = Some f -> fds w !! n = None -> 0 <= n < 2 ^ 31 ->
      let w1 := set_env (<["GOAGAIN_FD" := Fmt.Sprint_uintptr n]>)
                        (set_fds (<[n := f]>) w) in
      let w3 := set_env (<["GOAGAIN_SIGNAL" := Fmt.Sprint_int SIGQUIT]>)
                  (set_env (<["GOAGAIN_NAME" := fd_name l]>) w1) in
      (has_byte 0 (fd_name l) = true ->
       forall e, Q (Err e) w1 [EvSetenv "GOAGAIN_FD" (Fmt.Sprint_uintptr n)]) /\
      (has_byte 0 (fd_name l) = false ->
       forall argv0,
         result_of (lookPath w) = Ok argv0 ->
         let t3 := [EvSetenv "GOAGAIN_FD" (Fmt.Sprint_uintptr n);
                    EvSetenv "GOAGAIN_NAME" (fd_name l);
                    EvSetenv "GOAGAIN_SIGNAL" (Fmt.Sprint_int SIGQUIT)] ++
                   (if Logger w then [EvLog [LStr "re-executing"; LStr argv0]]
                    else []) in
         (forall e, sys_Exec w argv0 = Some e -> Q (Err e) w3 t3) /\
         (sys_Exec w argv0 = None ->
          Q (Ok {| StrategyGen.img_argv0 := argv0;
                   StrategyGen.img_args := Args w;
                   StrategyGen.img_env := env w3 |}) w3
            (t3 ++ [EvExec argv0])))) ->
  wp (StrategyGen.Exec l) Q w.
Proof.
  intros Hguard Hgo. unfold wp. rewrite Exec_run.
  destruct (Z.eqb_spec (ppid w) (guard_pid w)) as [Heq | Hne];
    [now apply Hguard |].
  destruct (Hgo Hne) as [Hfail Hok]. clear Hguard Hgo.
  change (wp (argv0 <- lookPath ;;
              setEnvs l ;;;
              Setenv "GOAGAIN_SIGNAL" (Fmt.Sprint_int SIGQUIT) ;;;
              logln [LStr "re-executing"; LStr argv0] ;;;
              StrategyGen.syscall_Exec argv0) Q w).
  apply wp_bind. unfold wp at 1. rewrite lookPath_run.
  cbn [result_of world_of trace_of fst snd].
  pose proof (lookPath_run w) as Hlook.
  destruct (match Args w with [] => _ | _ => _ end) as [argv0 | e | s];
    [| now apply Hfail | now apply Hfail].
  cbv beta iota. apply wp_bind, wp_setEnvs; [intros e; now apply Hfail |].
  intros lfd f n Hl Hf Hn Hr w1.
  assert (listener_fd l = Some lfd) as Hl'
    by (destruct Hl as [-> | ->]; reflexivity).
  destruct (Hok lfd f n Hl' Hf Hn Hr) as [Hbad Hgood]. split; [exact Hbad |].
  intros Hb. specialize (Hgood Hb argv0 ltac:(now rewrite Hlook)).
  cbv zeta in Hgood.
  destruct Hgood as [Herr Hdone].
  apply wp_bind, wp_Setenv; [reflexivity | discriminate | intros _].
  apply wp_bind, wp_logln.
  unfold wp, StrategyGen.syscall_Exec. subst w1.
  cbn [sys_Exec set_env set_fds Logger Args env].
  destruct (sys_Exec w argv0) as [e |] eqn:He;
    cbn [result_of world_of trace_of fst snd app].
  - rewrite app_nil_r. apply (Herr e eq_refl).
  - destruct (Logger w); apply (Hdone eq_refl).
Qed.

(** ** The handoff of the listener *)

(** X1.  A successful [setEnvs] has duplicated the descriptor of the
    listener onto a descriptor [fd] that was free: [GOAGAIN_FD] scans back
    to [fd], which is not the listener's own descriptor and refers to the
    same file; [GOAGAIN_NAME] is the network, a colon, the address and an
    arrow; every other descriptor and every other variable is as before. *)
Theorem setEnvs_records_descriptor
    (l : listener) (w w' : world) (fd : Z) (t : list event) :
  setEnvs l w = (Ok fd, w', t) ->
  Fmt.Sscan_uintptr (getenv w' "GOAGAIN_FD") = Ok fd /\
  getenv w' "GOAGAIN_NAME" =
    Network (Addr_of l) +:+ ":" +:+ AddrString (Addr_of l) +:+ "->" /\
  (exists lfd, listener_fd l = Some lfd /\ fd <> lfd /\
               fds w !! fd = None /\ is_Some (fds w !! lfd) /\
               fds w' !! fd = fds w !! lfd) /\
  (forall k, k <> fd -> fds w' !! k = fds w !! k) /\
  (forall key, key <> "GOAGAIN_FD" -> key <> "GOAGAIN_NAME" ->
               env w' !! key = env w !! key).
Proof.
  intros Henc.
  apply setEnvs_Ok in Henc as (lfd & f & Hl & Hlook & Hnone & Hrange & -> & _).
  split; [| split; [| split; [| split]]].
  - unfold getenv. cbn. rewrite lookup_insert_ne by discriminate.
    rewrite lookup_insert_eq. cbn. apply Sscan_Sprint_uintptr.
    change (2 ^ 31) with 2147483648 in Hrange.
    change (2 ^ 64) with 18446744073709551616. lia.
  - unfold getenv. cbn. now rewrite lookup_insert_eq.
  - exists lfd. split; [destruct Hl as [-> | ->]; reflexivity |].
    split; [congruence |]. split; [exact Hnone |]. split; [eauto |].
    cbn. now rewrite lookup_insert_eq.
  - intros k Hk. cbn. now rewrite lookup_insert_ne by congruence.
  - intros key H1 H2. cbn. now rewrite !lookup_insert_ne by congruence.
Qed.

(** The server encodes its unix listener: descriptor 3 is duplicated onto 4. *)
Lemma setEnvs_records_descriptor_witness :
  Fmt.Sscan_uintptr
    (getenv (world_of (setEnvs unix_listener (server Single (Socket SockUnix unix_addr))))
       "GOAGAIN_FD") = Ok 4 /\
  getenv (world_of (setEnvs unix_listener (server Single (Socket SockUnix unix_addr))))
    "GOAGAIN_NAME" =
    Network (Addr_of unix_listener) +:+ ":" +:+ AddrString (Addr_of unix_listener) +:+ "->" /\
  (exists lfd, listener_fd unix_listener = Some lfd /\ 4 <> lfd /\
               fds (server Single (Socket SockUnix unix_addr)) !! 4 = None /\
               is_Some (fds (server Single (Socket SockUnix unix_addr)) !! lfd) /\
               fds (world_of (setEnvs unix_listener (server Single (Socket SockUnix unix_addr)))) !! 4 =
               fds (server Single (Socket SockUnix unix_addr)) !! lfd) /\
  (forall k, k <> 4 ->
     fds (world_of (setEnvs unix_listener (server Single (Socket SockUnix unix_addr)))) !! k =
     fds (server Single (Socket SockUnix unix_addr)) !! k) /\
  (forall key, key <> "GOAGAIN_FD" -> key <> "GOAGAIN_NAME" ->
     env (world_of (setEnvs unix_listener (server Single (Socket SockUnix unix_addr)))) !! key =
     env (server Single (Socket SockUnix unix_addr)) !! key).
Proof.
  apply (setEnvs_records_descriptor unix_listener
           (server Single (Socket SockUnix unix_addr))
           (world_of (setEnvs unix_listener (server Single (Socket SockUnix unix_addr))))
           4
           (trace_of (setEnvs unix_listener (server Single (Socket SockUnix unix_addr))))).
  vm_compute. reflexivity.
Defined.

(** X2.  [Listener] returns [io.EOF] exactly when [GOAGAIN_FD] is unset,
    empty or white space: the process was not handed a listener.  Whenever
    the field does not scan, [Listener] returns the error of the scan and
    has done nothing: no descriptor is closed. *)
Theorem Listener_without_handoff (w : world) :
  (result_of (Listener w) = Err io_EOF <->
   Fmt.SkipSpace (getenv w "GOAGAIN_FD") = "") /\
  (forall e, Fmt.Sscan_uintptr (getenv w "GOAGAIN_FD") = Err e ->
             Listener w = (Err e, w, [])).
Proof.
  rewrite Listener_run. split; [split |].
  - destruct (Fmt.Sscan_uintptr (getenv w "GOAGAIN_FD")) as [fd | e | m] eqn:Hscan.
    + destruct (fds w !! fd) as [[[] a | name] |];
        try destruct (lowest_free (fds w) (nofile w)); discriminate.
    + cbn. intros [= ->]. now apply Sscan_uintptr_EOF.
    + discriminate.
  - intros Hsp. apply Sscan_uintptr_EOF in Hsp. now rewrite Hsp.
  - now intros e ->.
Qed.

(** X3.  Once [GOAGAIN_FD] has scanned to [fd], [Listener] closes the
    descriptor [fd] on every path, whether it returns a listener or an
    error, and whatever [fd] refers to; every other descriptor that was
    open stays open. *)
Theorem Listener_closes_inherited_descriptor (w : world) (fd : Z) :
  Fmt.Sscan_uintptr (getenv w "GOAGAIN_FD") = Ok fd ->
  fds (world_of (Listener w)) !! fd = None /\
  forall k f, k <> fd -> fds w !! k = Some f ->
              fds (world_of (Listener w)) !! k = Some f.
Proof.
  intros Hscan. rewrite Listener_run, Hscan.
  assert (forall w0 : world,
             fds (set_fds (delete fd) w0) !! fd = None) as Hclosed
    by (intros w0; cbn; apply lookup_delete_eq).
  assert (forall k f, k <> fd -> fds w !! k = Some f ->
                      fds (set_fds (delete fd) w) !! k = Some f) as Hkeep
    by (intros k f Hk Hf; cbn; now rewrite lookup_delete_ne by congruence).
  destruct (fds w !! fd) as [[[] a | name] |] eqn:Hfd;
    try (split; [apply Hclosed | exact Hkeep]);
    (destruct (lowest_free (fds w) (nofile w)) as [n |] eqn:Hfree;
     [| split; [apply Hclosed | exact Hkeep]]);
    (split; [apply Hclosed |]);
    intros k f Hk Hf; cbn;
    apply lowest_free_spec in Hfree as [Hn _];
    rewrite lookup_delete_ne by congruence;
    rewrite lookup_insert_ne by congruence; exact Hf.
Qed.

(** With [GOAGAIN_FD] set to 1, [Listener] fails and standard output is
    closed. *)
Lemma Listener_closes_inherited_descriptor_witness :
  fds (world_of (Listener (with_env [("GOAGAIN_FD", "1")]))) !! 1 = None /\
  forall k f, k <> 1 -> fds (with_env [("GOAGAIN_FD", "1")]) !! k = Some f ->
              fds (world_of (Listener (with_env [("GOAGAIN_FD", "1")]))) !! k = Some f.
Proof.
  apply (Listener_closes_inherited_descriptor (with_env [("GOAGAIN_FD", "1")]) 1).
  vm_compute. reflexivity.
Defined.

(** X4.  When [Listener] returns a listener, [GOAGAIN_FD] scanned to a
    descriptor [fd] that was a TCP or unix socket; the listener is of that
    family, has the address of the socket and owns the lowest descriptor
    [n] that was free; [fd] is closed and [n] is open on the socket, so as
    many descriptors are open as before; the listener is live in the
    process; the environment is untouched. *)
Theorem Listener_returns_a_live_copy
    (w w' : world) (l : listener) (t : list event) :
  Listener w = (Ok l, w', t) ->
  exists fd n k a,
    Fmt.Sscan_uintptr (getenv w "GOAGAIN_FD") = Ok fd /\
    fds w !! fd = Some (Socket k a) /\
    lowest_free (fds w) (nofile w) = Some n /\
    ((k = SockTCP /\ l = TCPListener n a) \/ (k = SockUnix /\ l = UnixListener n a)) /\
    fds w' = delete fd (<[n := Socket k a]> (fds w)) /\
    size (fds w') = size (fds w) /\
    bound_in w' l /\
    env w' = env w /\ t = [].
Proof.
  rewrite Listener_run.
  destruct (Fmt.Sscan_uintptr (getenv w "GOAGAIN_FD")) as [fd | e | m];
    [| discriminate | discriminate].
  destruct (fds w !! fd) as [[k a | name] |] eqn:Hfd;
    [| discriminate | discriminate].
  assert (forall n, fds w !! n = None ->
            size (delete fd (<[n := Socket k a]> (fds w))) = size (fds w) /\
            delete fd (<[n := Socket k a]> (fds w)) !! n = Some (Socket k a))
    as Hsize.
  { intros n Hn. assert (n <> fd) as Hne by congruence. split.
    - rewrite map_size_delete, lookup_insert_ne, Hfd by exact Hne.
      rewrite map_size_insert, Hn. cbn. lia.
    - rewrite lookup_delete_ne by congruence. apply lookup_insert_eq. }
  destruct k; try discriminate;
    (destruct (lowest_free (fds w) (nofile w)) as [n |] eqn:Hfree;
     [| discriminate]);
    intros [= <- <- <-]; exists fd, n; eexists _, a;
    destruct (lowest_free_spec _ _ _ Hfree) as [Hn _];
    destruct (Hsize n Hn) as [Hs Hb];
    (split; [reflexivity |]); (split; [exact Hfd |]);
    (split; [reflexivity |]); (split; [tauto |]);
    (split; [reflexivity |]); (split; [exact Hs |]);
    (split; [exact Hb |]); split; reflexivity.
Qed.

(** The successor of the server inherited descriptor 4: its listener is on
    descriptor 3, the lowest that was free. *)
Lemma Listener_returns_a_live_copy_witness :
  exists fd n k a,
    Fmt.Sscan_uintptr (getenv (successor Double) "GOAGAIN_FD") = Ok fd /\
    fds (successor Double) !! fd = Some (Socket k a) /\
    lowest_free (fds (successor Double)) (nofile (successor Double)) = Some n /\
    ((k = SockTCP /\ TCPListener 3 tcp_addr = TCPListener n a) \/
     (k = SockUnix /\ TCPListener 3 tcp_addr = UnixListener n a)) /\
    fds (world_of (Listener (successor Double))) =
      delete fd (<[n := Socket k a]> (fds (successor Double))) /\
    size (fds (world_of (Listener (successor Double)))) = size (fds (successor Double)) /\
    bound_in (world_of (Listener (successor Double))) (TCPListener 3 tcp_addr) /\
    env (world_of (Listener (successor Double))) = env (successor Double) /\
    trace_of (Listener (successor Double)) = [].
Proof.
  apply (Listener_returns_a_live_copy (successor Double)
           (world_of (Listener (successor Double))) (TCPListener 3 tcp_addr)
           (trace_of (Listener (successor Double)))).
  vm_compute. reflexivity.
Defined.

(** ** Spawning *)

(** X5.  When the executable cannot be resolved, because [exec.LookPath]
    fails on the first argument of the process or because [os.Stat] fails
    on the path it found, the two spawners return that error having done
    nothing: no field is written, no descriptor duplicated, no process
    started.  So does [Exec] when its guard lets it through. *)
Theorem spawn_needs_the_executable
    (l : listener) (w : world) (a0 : string) (rest : list string) (e : error) :
  Args w = a0 :: rest ->
  sys_LookPath w a0 = Err e \/
  (exists p, sys_LookPath w a0 = Ok p /\ sys_Stat w p = Some e) ->
  StrategyGen.ForkExec l w = (Err e, w, []) /\
  (forall q, BoundedWait.forkExec l q w = (Err e, w, [])) /\
  (ppid w <> guard_pid w -> StrategyGen.Exec l w = (Err e, w, [])).
Proof.
  intros Hargs Hsys.
  assert (lookPath w = (Err e, w, [])) as Hlook.
  { rewrite lookPath_run, Hargs.
    destruct Hsys as [-> | (p & -> & ->)]; reflexivity. }
  split; [| split].
  - unfold StrategyGen.ForkExec, bind. now rewrite Hlook.
  - intros q. unfold BoundedWait.forkExec, bind. now rewrite Hlook.
  - intros Hguard. rewrite Exec_run.
    replace (ppid w =? guard_pid w) with false
      by (symmetry; now apply Z.eqb_neq).
    unfold bind. now rewrite Hlook.
Qed.

(** The executable of the server was removed: nothing is spawned. *)
Lemma spawn_needs_the_executable_witness :
  StrategyGen.ForkExec tcp_listener (moved_server Double) =
    (Err (Errno "stat: no such file or directory"), moved_server Double, []) /\
  (forall q, BoundedWait.forkExec tcp_listener q (moved_server Double) =
             (Err (Errno "stat: no such file or directory"), moved_server Double, [])) /\
  (ppid (moved_server Double) <> guard_pid (moved_server Double) ->
   StrategyGen.Exec tcp_listener (moved_server Double) =
   (Err (Errno "stat: no such file or directory"), moved_server Double, [])).
Proof.
  apply (spawn_needs_the_executable tcp_listener (moved_server Double)
           "./server" [] (Errno "stat: no such file or directory")).
  - reflexivity.
  - right. exists "/srv/./server". split; reflexivity.
Defined.

(** X6.  A spawn that succeeds has started exactly one process.  It is a
    child of the caller, with the arguments of the caller; the caller has
    recorded its pid in [GOAGAIN_PID] and among its children; the successor
    itself finds [GOAGAIN_PID] empty, the pid of its predecessor in
    [GOAGAIN_PPID] and in [GOAGAIN_FD] the number [fd] of a descriptor
    above 1 on the file of the listener, and it has no descriptor but 0, 1,
    2 and [fd].  [ForkExec] also leaves it the handshake signal of the
    strategy in [GOAGAIN_SIGNAL]; [forkExec] leaves that field as it was,
    and never returns a process together with an error. *)
Theorem spawn_starts_successor (l : listener) (w : world) :
  (forall w' t,
      StrategyGen.ForkExec l w = (Ok tt, w', t) ->
      exists c, spawned t = [c] /\ successor_of l w w' c /\
                getenv c "GOAGAIN_SIGNAL" =
                Fmt.Sprint_int (StrategyGen.handshake_signal (Strategy w))) /\
  (forall q cp e w' t,
      BoundedWait.forkExec l q w = (Ok (cp, e), w', t) ->
      e = None /\
      exists c, spawned t = [c] /\ pid c = cp /\ successor_of l w w' c /\
                env c !! "GOAGAIN_SIGNAL" = env w !! "GOAGAIN_SIGNAL").
Proof.
  split.
  - intros w' t Hrun.
    apply ForkExec_Ok in Hrun
      as (lfd & f & n & argv0 & files & p & Hl & Hf & Hn & Hr & Hfiles & _ &
          -> & -> & _).
    eexists. split; [reflexivity |].
    destruct (at_spawn_child l w lfd n p f files
                (Some (StrategyGen.handshake_signal (Strategy w)))
                Hl Hf Hn Hr Hfiles) as (Hsucc & _ & Hsig).
    split; [exact Hsucc | exact Hsig].
  - intros q cp e w' t Hrun.
    apply forkExec_Ok in Hrun
      as (lfd & f & n & argv0 & files & -> & Hl & Hf & Hn & Hr & Hfiles & _ &
          -> & -> & _).
    split; [reflexivity |]. eexists. split; [reflexivity |].
    destruct (at_spawn_child l w lfd n cp f files None Hl Hf Hn Hr Hfiles)
      as (Hsucc & Hpid & Hsig).
    split; [exact Hpid |]. split; [exact Hsucc | exact Hsig].
Qed.

(** The server spawns under [Double]: one successor, with [SIGUSR2] as its
    handshake signal. *)
Lemma spawn_starts_successor_witness :
  exists c,
    spawned (trace_of (StrategyGen.ForkExec tcp_listener (tcp_server Double))) = [c] /\
    successor_of tcp_listener (tcp_server Double)
      (world_of (StrategyGen.ForkExec tcp_listener (tcp_server Double))) c /\
    getenv c "GOAGAIN_SIGNAL" =
    Fmt.Sprint_int (StrategyGen.handshake_signal (Strategy (tcp_server Double))).
Proof.
  apply (proj1 (spawn_starts_successor tcp_listener (tcp_server Double))
           (world_of (StrategyGen.ForkExec tcp_listener (tcp_server Double)))
           (trace_of (StrategyGen.ForkExec tcp_listener (tcp_server Double)))).
  vm_compute. reflexivity.
Defined.

(** X7.  From end to end: when a live TCP or unix listener is handed over
    by a spawn that succeeds, in a process allowed at least five
    descriptors, [Listener] called in the successor returns a listener of
    the same type with the same address, live in the successor. *)
Theorem successor_decodes_the_listener (l : listener) (w : world) :
  bound_in w l -> (5 <= nofile w)%nat ->
  (forall w' t c,
      StrategyGen.ForkExec l w = (Ok tt, w', t) -> c ∈ spawned t ->
      exists l', result_of (Listener c) = Ok l' /\
                 Addr_of l' = Addr_of l /\
                 type_name_of l' = type_name_of l /\
                 bound_in (world_of (Listener c)) l') /\
  (forall q cp e w' t c,
      BoundedWait.forkExec l q w = (Ok (cp, e), w', t) -> c ∈ spawned t ->
      exists l', result_of (Listener c) = Ok l' /\
                 Addr_of l' = Addr_of l /\
                 type_name_of l' = type_name_of l /\
                 bound_in (world_of (Listener c)) l').
Proof.
  intros Hbound Hlimit.
  assert (forall w' c, successor_of l w w' c ->
            exists l', result_of (Listener c) = Ok l' /\
                       Addr_of l' = Addr_of l /\
                       type_name_of l' = type_name_of l /\
                       bound_in (world_of (Listener c)) l') as Hdecode.
  { intros w' c Hsucc.
    destruct (successor_Listener l w w' c Hsucc Hbound Hlimit)
      as (fd & n & k & Hne & Hk & Hsock & ->).
    eexists. split; [reflexivity |].
    destruct l as [lfd a | lfd a | ty a]; [| | destruct Hbound];
      cbn in Hbound, Hsock; rewrite Hbound in Hsock; injection Hsock as <-;
      cbn; (repeat split);
      rewrite lookup_delete_ne by congruence; apply lookup_insert_eq. }
  split.
  - intros w' t c Hrun Hc.
    apply ForkExec_Ok in Hrun
      as (lfd & f & n & argv0 & files & p & Hl & Hf & Hn & Hr & Hfiles & _ &
          -> & Hsp & _).
    rewrite Hsp in Hc. apply list_elem_of_singleton in Hc as ->.
    eapply Hdecode. exact (proj1 (at_spawn_child l w lfd n p f files _ Hl Hf Hn Hr Hfiles)).
  - intros q cp e w' t c Hrun Hc.
    apply forkExec_Ok in Hrun
      as (lfd & f & n & argv0 & files & -> & Hl & Hf & Hn & Hr & Hfiles & _ &
          -> & Hsp & _).
    rewrite Hsp in Hc. apply list_elem_of_singleton in Hc as ->.
    eapply Hdecode. exact (proj1 (at_spawn_child l w lfd n cp f files _ Hl Hf Hn Hr Hfiles)).
Qed.

(** The successor of the server decodes the TCP listener of the server. *)
Lemma successor_decodes_the_listener_witness :
  exists l', result_of (Listener (successor Double)) = Ok l' /\
             Addr_of l' = Addr_of tcp_listener /\
             type_name_of l' = type_name_of tcp_listener /\
             bound_in (world_of (Listener (successor Double))) l'.
Proof.
  apply (proj1 (successor_decodes_the_listener tcp_listener (tcp_server Double)
                  ltac:(vm_compute; reflexivity) ltac:(vm_compute; lia))
           (world_of (StrategyGen.ForkExec tcp_listener (tcp_server Double)))
           (trace_of (StrategyGen.ForkExec tcp_listener (tcp_server Double)))
           (successor Double)).
  - vm_compute. reflexivity.
  - vm_compute. apply list_elem_of_here.
Defined.

(** X8.  The successor's call of [Kill] reaches its predecessor: for a
    predecessor whose pid fits an [int], [Kill] in the process started by
    [ForkExec] sends the handshake signal of the strategy to the pid of the
    predecessor, once, and waits for no process; [Kill sig] in the process
    started by [forkExec] sends [sig] to it. *)
Theorem successor_signals_predecessor (l : listener) (w : world) :
  - 2 ^ 63 <= pid w < 2 ^ 63 ->
  (forall w' t c,
      StrategyGen.ForkExec l w = (Ok tt, w', t) -> c ∈ spawned t ->
      sends (StrategyGen.Kill c) (pid w) (StrategyGen.handshake_signal (Strategy w)) /\
      forall p, EvWait4 p ∉ trace_of (StrategyGen.Kill c)) /\
  (forall q cp e w' t c s,
      BoundedWait.forkExec l q w = (Ok (cp, e), w', t) -> c ∈ spawned t ->
      sends (BoundedWait.Kill s c) (pid w) s).
Proof.
  intros Hpid. split.
  - intros w' t c Hrun Hc.
    apply ForkExec_Ok in Hrun
      as (lfd & f & n & argv0 & files & p & Hl & Hf & Hn & Hr & Hfiles & _ &
          -> & Hsp & _).
    rewrite Hsp in Hc. apply list_elem_of_singleton in Hc as ->.
    destruct (at_spawn_child l w lfd n p f files
                (Some (StrategyGen.handshake_signal (Strategy w)))
                Hl Hf Hn Hr Hfiles) as (Hsucc & _ & Hsig).
    cbv zeta in Hsucc, Hsig.
    set (c := child_world _ files p) in *.
    pose proof (successor_scanned_pid l w _ c Hsucc Hpid) as Hscan.
    assert (scanned_signal c = StrategyGen.handshake_signal (Strategy w)) as Hs.
    { unfold scanned_signal. rewrite Hsig. now destruct (Strategy w). }
    split.
    + rewrite <- Hs. now apply Kill_strategy_sends.
    + intros q Hin. pose proof (Kill_strategy_run c) as Hk.
      rewrite Hscan in Hk. injection Hk as _ Ht. rewrite Ht, Hs in Hin.
      destruct (Strategy w), (Logger w); cbn in Hin;
        repeat (apply elem_of_cons in Hin as [Hin | Hin]; [discriminate |]);
        now apply elem_of_nil in Hin.
  - intros q cp e w' t c s Hrun Hc.
    apply forkExec_Ok in Hrun
      as (lfd & f & n & argv0 & files & -> & Hl & Hf & Hn & Hr & Hfiles & _ &
          -> & Hsp & _).
    rewrite Hsp in Hc. apply list_elem_of_singleton in Hc as ->.
    destruct (at_spawn_child l w lfd n cp f files None Hl Hf Hn Hr Hfiles)
      as (Hsucc & _ & _).
    apply Kill_bounded_sends.
    exact (successor_scanned_pid l w _ _ Hsucc Hpid).
Qed.

(** Under [Double] the successor of the server sends [SIGUSR2] to 4242. *)
Lemma successor_signals_predecessor_witness :
  sends (StrategyGen.Kill (successor Double)) (pid (tcp_server Double))
    (StrategyGen.handshake_signal (Strategy (tcp_server Double))) /\
  forall p, EvWait4 p ∉ trace_of (StrategyGen.Kill (successor Double)).
Proof.
  apply (proj1 (successor_signals_predecessor tcp_listener (tcp_server Double)
                  ltac:(vm_compute; split; [discriminate | reflexivity]))
           (world_of (StrategyGen.ForkExec tcp_listener (tcp_server Double)))
           (trace_of (StrategyGen.ForkExec tcp_listener (tcp_server Double)))
           (successor Double)).
  - vm_compute. reflexivity.
  - vm_compute. apply list_elem_of_here.
Defined.

Lemma wp_bind_run {A B} (m : M A) (f : A -> M B)
    (Q : result B -> world -> list event -> Prop) w a w1 t1 :
  m w = (Ok a, w1, t1) ->
  wp (f a) (fun r w2 t2 => Q r w2 (t1 ++ t2)) w1 ->
  wp (bind m f) Q w.
Proof. intros H Hk. apply wp_bind. unfold wp at 1. now rewrite H. Qed.

(** With standard input or standard output closed, the copy of the
    listener lands below descriptor 2. *)
Lemma lowest_free_below_2 (t : gmap Z file) (limit : nat) :
  t !! 0 = None \/ t !! 1 = None -> (2 <= limit)%nat ->
  exists n, lowest_free t limit = Some n /\ 0 <= n < 2.
Proof.
  intros Hfree Hlimit.
  assert (exists k, 0 <= k < 2 /\ t !! k = None) as (k & Hk & Hnone)
    by (destruct Hfree; [exists 0 | exists 1]; split; (lia || assumption)).
  destruct (lowest_free_is_Some t limit k) as [n Hn];
    [lia | change (2 ^ 31) with 2147483648; lia | exact Hnone |].
  exists n. split; [exact Hn |].
  destruct (lowest_free_spec _ _ _ Hn) as [_ Hr]. split; [lia |].
  destruct (Z.lt_ge_cases n 2) as [Hlt | Hge]; [exact Hlt |].
  destruct (lowest_free_least _ _ _ Hn k ltac:(lia)) as [f Hf]. congruence.
Qed.

(** X9.  When standard input or standard output is closed in the
    predecessor, the copy of the listener's descriptor is descriptor 0 or 1
    and filling the table of files to pass indexes it out of range: the two
    spawners panic instead of returning an error.  No process has been
    started, and the fields written before the table is built stay
    written. *)
Theorem spawn_panics_below_descriptor_2
    (l : listener) (w : world) (argv0 wd : string) :
  bound_in w l -> has_byte 0 (fd_name l) = false ->
  result_of (lookPath w) = Ok argv0 -> sys_Getwd w = Ok wd ->
  fds w !! 0 = None \/ fds w !! 1 = None -> (2 <= nofile w)%nat ->
  (result_of (StrategyGen.ForkExec l w) = Panic "index out of range" /\
   spawned (trace_of (StrategyGen.ForkExec l w)) = [] /\
   writes (trace_of (StrategyGen.ForkExec l w)) =
     ["GOAGAIN_FD"; "GOAGAIN_NAME"; "GOAGAIN_PID"; "GOAGAIN_PPID"; "GOAGAIN_SIGNAL"]) /\
  (forall q,
     result_of (BoundedWait.forkExec l q w) = Panic "index out of range" /\
     spawned (trace_of (BoundedWait.forkExec l q w)) = [] /\
     writes (trace_of (BoundedWait.forkExec l q w)) =
       ["GOAGAIN_FD"; "GOAGAIN_NAME"; "GOAGAIN_PID"; "GOAGAIN_PPID"]).
Proof.
  intros Hbound Hname Hlook Hwd Hfree Hlimit.
  destruct (lowest_free_below_2 _ _ Hfree Hlimit) as (n & Hn & Hlow).
  assert (exists lfd f, listener_fd l = Some lfd /\ fds w !! lfd = Some f)
    as (lfd & f & Hl & Hf)
    by (destruct l as [fd a | fd a | ty a]; [| | destruct Hbound];
        cbn in Hbound; eauto).
  pose proof (setEnvs_run l w lfd n f Hl Hf Hn Hname) as Henc.
  assert (file_table n = Panic "index out of range") as Htable.
  { pose proof (file_table_spec n ltac:(change (2 ^ 31) with 2147483648; lia)) as H.
    now replace (n <? 2) with true in H by lia. }
  assert (lookPath w = (Ok argv0, w, [])) as Hlook'.
  { rewrite lookPath_run in Hlook |- *. cbn in Hlook. now rewrite Hlook. }
  assert (Getwd w = (Ok wd, w, [])) as Hwd' by (unfold Getwd; now rewrite Hwd).
  assert (forall k v w0, valid_key k = true -> has_byte 0 v = false ->
            Setenv k v w0 = (Ok tt, set_env (<[k := v]>) w0, [EvSetenv k v]))
    as Hset by (intros k v w0 Hk Hv; now rewrite Setenv_run, Hv).
  assert (forall (k : list (option Z) -> M unit) w0,
            bind (lift (file_table n)) k w0 = (Panic "index out of range", w0, []))
    as HpanicU by (intros k w0; unfold bind, lift; now rewrite Htable).
  assert (forall (k : list (option Z) -> M (Z * option error)) w0,
            bind (lift (file_table n)) k w0 = (Panic "index out of range", w0, []))
    as HpanicB by (intros k w0; unfold bind, lift; now rewrite Htable).
  split; [| intros q].
  - apply (wp_bind_run _ _ (fun r _ t => r = _ /\ spawned t = _ /\ writes t = _)
             _ _ _ _ Hlook').
    apply (wp_bind_run _ _ _ _ _ _ _ Hwd').
    apply (wp_bind_run _ _ _ _ _ _ _ Henc).
    apply (wp_bind_run _ _ _ _ _ _ _ (Hset "GOAGAIN_PID" "" _ eq_refl eq_refl)).
    apply wp_bind, wp_get.
    apply (wp_bind_run _ _ _ _ _ _ _
             (Hset "GOAGAIN_PPID" _ _ eq_refl (Sprint_int_no_NUL _))).
    apply wp_bind, wp_get.
    apply (wp_bind_run _ _ _ _ _ _ _
             (Hset "GOAGAIN_SIGNAL" _ _ eq_refl (Sprint_int_no_NUL _))).
    unfold wp. rewrite HpanicU. repeat split.
  - apply (wp_bind_run _ _ (fun r _ t => r = _ /\ spawned t = _ /\ writes t = _)
             _ _ _ _ Hlook').
    apply (wp_bind_run _ _ _ _ _ _ _ Hwd').
    apply (wp_bind_run _ _ _ _ _ _ _ Henc).
    apply (wp_bind_run _ _ _ _ _ _ _ (Hset "GOAGAIN_PID" "" _ eq_refl eq_refl)).
    apply wp_bind, wp_get.
    apply (wp_bind_run _ _ _ _ _ _ _
             (Hset "GOAGAIN_PPID" _ _ eq_refl (Sprint_int_no_NUL _))).
    unfold wp. rewrite HpanicB. repeat split.
Qed.

(** The server started with standard input closed: the copy of descriptor 3
    is descriptor 0. *)
Lemma spawn_panics_below_descriptor_2_witness :
  (result_of (StrategyGen.ForkExec tcp_listener (detached_server Single)) =
     Panic "index out of range" /\
   spawned (trace_of (StrategyGen.ForkExec tcp_listener (detached_server Single))) = [] /\
   writes (trace_of (StrategyGen.ForkExec tcp_listener (detached_server Single))) =
     ["GOAGAIN_FD"; "GOAGAIN_NAME"; "GOAGAIN_PID"; "GOAGAIN_PPID"; "GOAGAIN_SIGNAL"]) /\
  (forall q,
     result_of (BoundedWait.forkExec tcp_listener q (detached_server Single)) =
       Panic "index out of range" /\
     spawned (trace_of (BoundedWait.forkExec tcp_listener q (detached_server Single))) = [] /\
     writes (trace_of (BoundedWait.forkExec tcp_listener q (detached_server Single))) =
       ["GOAGAIN_FD"; "GOAGAIN_NAME"; "GOAGAIN_PID"; "GOAGAIN_PPID"]).
Proof.
  apply (spawn_panics_below_descriptor_2 tcp_listener (detached_server Single)
           "/srv/./server" "/srv").
  - vm_compute. reflexivity.
  - vm_compute. reflexivity.
  - vm_compute. reflexivity.
  - reflexivity.
  - left. vm_compute. reflexivity.
  - vm_compute. lia.
Defined.

(** ** Re-executing *)

(** What a successful [Exec] has replaced the image with. *)
Lemma Exec_Ok (l : listener) (w w' : world) (img : StrategyGen.image)
    (t : list event) :
  StrategyGen.Exec l w = (Ok img, w', t) ->
  ppid w <> guard_pid w /\
  result_of (lookPath w) = Ok (StrategyGen.img_argv0 img) /\
  StrategyGen.img_args img = Args w /\
  StrategyGen.img_env img = env w' /\
  execs t = [StrategyGen.img_argv0 img] /\
  exists n,
    fds w !! n = None /\
    env w' = <["GOAGAIN_SIGNAL" := Fmt.Sprint_int SIGQUIT]>
               (<["GOAGAIN_NAME" := fd_name l]>
                  (<["GOAGAIN_FD" := Fmt.Sprint_uintptr n]> (env w))).
Proof.
  intros Hrun.
  refine (wp_run _ (fun r w' t => r = Ok img -> _) _ _ _ _ _ Hrun eq_refl).
  apply wp_Exec; [discriminate |]. intros Hne.
  split; [intros r Hr ->; now destruct (Hr img) |].
  intros lfd f n _ _ Hn _. cbn zeta.
  split; [discriminate | intros _ argv0 Hlook; split; [discriminate |]].
  intros _ [= <-]. cbn.
  repeat (split; [first [assumption | reflexivity] |]).
  split; [now destruct (Logger w) |].
  exists n. split; [exact Hn | reflexivity].
Qed.

(** X10.  [Exec] replaces the image at most once, as its last step: when it
    returns an error nothing was executed.  The image it starts is the
    executable [lookPath] resolved, with the arguments of the process and
    its environment, in which [GOAGAIN_SIGNAL] scans to [SIGQUIT] whatever
    the strategy, [GOAGAIN_NAME] names the listener, and every variable
    other than the three written is as before.  [Exec] starts no process,
    sends no signal and closes no descriptor. *)
Theorem Exec_replaces_the_image_or_nothing (l : listener) (w : world) :
  match result_of (StrategyGen.Exec l w) with
  | Ok img =>
      execs (trace_of (StrategyGen.Exec l w)) = [StrategyGen.img_argv0 img] /\
      result_of (lookPath w) = Ok (StrategyGen.img_argv0 img) /\
      StrategyGen.img_args img = Args w /\
      Fmt.Sscan_int (default "" (StrategyGen.img_env img !! "GOAGAIN_SIGNAL")) =
        Ok SIGQUIT /\
      default "" (StrategyGen.img_env img !! "GOAGAIN_NAME") = fd_name l /\
      forall key, key <> "GOAGAIN_FD" -> key <> "GOAGAIN_NAME" ->
                  key <> "GOAGAIN_SIGNAL" ->
                  StrategyGen.img_env img !! key = env w !! key
  | _ => execs (trace_of (StrategyGen.Exec l w)) = []
  end /\
  spawned (trace_of (StrategyGen.Exec l w)) = [] /\
  signals_sent (trace_of (StrategyGen.Exec l w)) = [] /\
  forall fd f, fds w !! fd = Some f ->
               fds (world_of (StrategyGen.Exec l w)) !! fd = Some f.
Proof.
  apply (wp_Exec l (fun r w' t =>
    match r with
    | Ok img =>
        execs t = [StrategyGen.img_argv0 img] /\
        result_of (lookPath w) = Ok (StrategyGen.img_argv0 img) /\
        StrategyGen.img_args img = Args w /\
        Fmt.Sscan_int (default "" (StrategyGen.img_env img !! "GOAGAIN_SIGNAL")) =
          Ok SIGQUIT /\
        default "" (StrategyGen.img_env img !! "GOAGAIN_NAME") = fd_name l /\
        forall key, key <> "GOAGAIN_FD" -> key <> "GOAGAIN_NAME" ->
                    key <> "GOAGAIN_SIGNAL" ->
                    StrategyGen.img_env img !! key = env w !! key
    | _ => execs t = []
    end /\
    spawned t = [] /\ signals_sent t = [] /\
    forall fd f, fds w !! fd = Some f -> fds w' !! fd = Some f)).
  - intros _. repeat split; auto.
  - intros _. split.
    { intros r Hr. destruct r as [u | e | s]; [now destruct (Hr u) | |];
        repeat split; auto. }
    intros lfd f n _ _ Hn _. cbn zeta.
    assert (forall fd g, fds w !! fd = Some g -> <[n := f]> (fds w) !! fd = Some g)
      as Hkeep by (intros fd g Hg; now apply insert_keeps_open).
    split; [intros _ e; repeat split; auto |].
    intros _ argv0 Hlook. split.
    + intros e _. destruct (Logger w); repeat split; auto.
    + intros _. split; [| destruct (Logger w); repeat split; auto].
      cbn. rewrite lookup_insert_eq.
      rewrite lookup_insert_ne, lookup_insert_eq by discriminate.
      split; [now destruct (Logger w) |].
      repeat (split; [first [assumption | reflexivity] |]).
      intros key H1 H2 H3. now rewrite !lookup_insert_ne by congruence.
Qed.

(** X11.  In a process whose parent pid is 0, as the first process of a pid
    namespace has it, [Exec] is refused with the guard error and does
    nothing, unless [GOAGAIN_PID] holds a pid other than 0: the guard
    compares the parent pid with 0 when that field is unset or does not
    scan. *)
Theorem Exec_refused_without_parent (l : listener) (w : world) :
  ppid w = 0 ->
  (forall p, Fmt.Sscan_int (getenv w "GOAGAIN_PID") = Ok p -> p = 0) ->
  StrategyGen.Exec l w =
  (Err (Errorf "goagain.Exec called by a child process"), w, []).
Proof.
  intros Hppid Hpid. rewrite Exec_run.
  replace (ppid w =? guard_pid w) with true; [reflexivity |].
  symmetry. apply Z.eqb_eq. rewrite Hppid. unfold guard_pid.
  destruct (Fmt.Sscan_int (getenv w "GOAGAIN_PID")) as [p | e | m];
    [symmetry; now apply Hpid | reflexivity | reflexivity].
Qed.

(** The server run as the first process of a container cannot re-execute. *)
Lemma Exec_refused_without_parent_witness :
  StrategyGen.Exec tcp_listener (init_server Double) =
  (Err (Errorf "goagain.Exec called by a child process"), init_server Double, []).
Proof.
  apply (Exec_refused_without_parent tcp_listener (init_server Double)).
  - reflexivity.
  - intros p H. vm_compute in H. discriminate H.
Defined.

(** X12.  The double exec, from end to end: after a [ForkExec] that started
    the successor [c] and an [Exec] that replaced the image of the
    predecessor, [Kill] called in the new image sends [SIGQUIT] to [c],
    once; under the strategy [Double] it also waits for [c], and under
    [Single] it waits for no process. *)
Theorem reexecuted_predecessor_quits_successor
    (l : listener) (w w1 w2 n : world) (t1 t2 : list event)
    (img : StrategyGen.image) (c : world) :
  StrategyGen.ForkExec l w = (Ok tt, w1, t1) ->
  c ∈ spawned t1 ->
  - 2 ^ 63 <= pid c < 2 ^ 63 ->
  StrategyGen.Exec l w1 = (Ok img, w2, t2) ->
  env n = StrategyGen.img_env img ->
  sends (StrategyGen.Kill n) (pid c) SIGQUIT /\
  (Strategy n = Double -> EvWait4 (pid c) ∈ trace_of (StrategyGen.Kill n)) /\
  (Strategy n = Single -> forall p, EvWait4 p ∉ trace_of (StrategyGen.Kill n)).
Proof.
  intros Hfork Hc Hrange Hexec Henv.
  apply ForkExec_Ok in Hfork
    as (lfd & f & k & argv0 & files & p & _ & _ & _ & _ & _ & _ & -> & Hsp & _).
  rewrite Hsp in Hc. apply list_elem_of_singleton in Hc as ->.
  cbn [pid child_world] in *.
  apply Exec_Ok in Hexec as (_ & _ & _ & Himg & _ & k' & _ & Hw2).
  rewrite <- Henv, Hw2 in Himg. clear Hw2.
  assert (getenv n "GOAGAIN_PID" = Fmt.Sprint_int p) as Hpid.
  { unfold getenv. rewrite Himg. cbn.
    rewrite !lookup_insert_ne by discriminate.
    now rewrite lookup_insert_eq. }
  assert (getenv n "GOAGAIN_SIGNAL" = Fmt.Sprint_int SIGQUIT) as Hsig.
  { unfold getenv. rewrite Himg. now rewrite lookup_insert_eq. }
  assert (scanned_pid n = Ok p) as Hscan.
  { unfold scanned_pid. rewrite Hpid, Sscan_Sprint_int by exact Hrange.
    reflexivity. }
  assert (scanned_signal n = SIGQUIT) as Hs
    by (unfold scanned_signal; now rewrite Hsig).
  split; [rewrite <- Hs; now apply Kill_strategy_sends |].
  pose proof (Kill_strategy_run n) as Hk.
  rewrite Hscan, Hs in Hk. injection Hk as _ Ht. rewrite Ht.
  split; intros ->; cbn.
  - apply list_elem_of_here.
  - intros q Hin. destruct (Logger n); cbn in Hin;
      repeat (apply elem_of_cons in Hin as [Hin | Hin]; [discriminate |]);
      now apply elem_of_nil in Hin.
Qed.

(** The server spawns 4243 and re-executes; the new image sends [SIGQUIT]
    to 4243. *)
Lemma reexecuted_predecessor_quits_successor_witness :
  sends (StrategyGen.Kill reexecuted_server) (pid (successor Double)) SIGQUIT /\
  (Strategy reexecuted_server = Double ->
   EvWait4 (pid (successor Double)) ∈ trace_of (StrategyGen.Kill reexecuted_server)) /\
  (Strategy reexecuted_server = Single ->
   forall p, EvWait4 p ∉ trace_of (StrategyGen.Kill reexecuted_server)).
Proof.
  apply (reexecuted_predecessor_quits_successor tcp_listener (tcp_server Double)
           (world_of (StrategyGen.ForkExec tcp_listener (tcp_server Double)))
           (world_of (StrategyGen.Exec tcp_listener
                        (world_of (StrategyGen.ForkExec tcp_listener (tcp_server Double)))))
           reexecuted_server
           (trace_of (StrategyGen.ForkExec tcp_listener (tcp_server Double)))
           (trace_of (StrategyGen.Exec tcp_listener
                        (world_of (StrategyGen.ForkExec tcp_listener (tcp_server Double)))))
           second_image (successor Double)).
  - vm_compute. reflexivity.
  - vm_compute. apply list_elem_of_here.
  - vm_compute. split; [discriminate | reflexivity].
  - vm_compute. reflexivity.
  - reflexivity.
Defined.

(** ** More on the coordinator loop *)

Section LoopMore.

Import StrategyGen.

Variables OnSIGHUP OnSIGUSR1 : option hook.
Variable l : listener.

Lemma Wait_step_terminating (f : bool) (sig : Z) (w : world) :
  terminating sig = true ->
  Wait_step OnSIGHUP OnSIGUSR1 l f sig w =
  (Ok (Returned sig None), w, if Logger w then [EvLog [LSig sig]] else []).
Proof.
  unfold terminating. intros H.
  assert (sig = SIGINT \/ sig = SIGQUIT \/ sig = SIGTERM) as Hs.
  { apply orb_true_iff in H as [H | H]; [apply orb_true_iff in H as [H | H] |];
      apply Z.eqb_eq in H; tauto. }
  unfold Wait_step, bind, logln, ret.
  destruct Hs as [-> | [-> | ->]]; cbn; now rewrite app_nil_r.
Qed.



(** With no hook registered, a signal that only calls a hook is logged and
    nothing else happens. *)
Lemma Wait_step_no_hook (f : bool) (sig : Z) (w : world) :
  OnSIGHUP = None -> OnSIGUSR1 = None -> hook_signal sig = true ->
  Wait_step OnSIGHUP OnSIGUSR1 l f sig w =
  (Ok (Receiving f), w, if Logger w then [EvLog [LSig sig]] else []).
Proof.
  intros -> -> H. unfold hook_signal in H.
  assert (sig = SIGHUP \/ sig = SIGUSR1) as [-> | ->]
    by (apply orb_true_iff in H as [H | H]; apply Z.eqb_eq in H; tauto);
    unfold Wait_step, bind, logln, ret; cbn; now rewrite app_nil_r.
Qed.

(** One turn of the loop calls [OnSIGUSR1] once for [SIGUSR1], when the
    hook is set, and never otherwise. *)
Lemma Wait_step_reopen_calls (forked : bool) (sig : Z) (w : world) :
  hook_calls "OnSIGUSR1" (trace_of (Wait_step OnSIGHUP OnSIGUSR1 l forked sig w)) =
  match OnSIGUSR1 with
  | Some _ => if sig =? SIGUSR1 then 1%nat else 0%nat
  | None => 0%nat
  end.
Proof.
  destruct (Z.eqb_spec sig SIGUSR1) as [-> | Hne].
  - unfold Wait_step. cbn [Z.eqb SIGUSR1 SIGHUP SIGINT SIGQUIT SIGTERM Pos.eqb].
    destruct (run_hook_calls l "OnSIGUSR1" "OnSIGUSR1" OnSIGUSR1 w)
      as (Hr & Hn & _).
    unfold bind, logln, ret, result_of, trace_of in *.
    destruct (run_hook "OnSIGUSR1" OnSIGUSR1 l w) as [[[[] | e | s] w'] t];
      try discriminate.
    cbn [fst snd] in *. rewrite app_nil_r, hook_calls_app, Hn.
    now destruct (Logger w), OnSIGUSR1.
  - assert (hook_calls "OnSIGUSR1"
              (trace_of (Wait_step OnSIGHUP OnSIGUSR1 l forked sig w)) = 0%nat)
      as ->; [| now destruct OnSIGUSR1].
    destruct (Z.eqb_spec sig SIGHUP) as [-> | Hhup].
    { unfold Wait_step. cbn [Z.eqb SIGHUP Pos.eqb].
      destruct (run_hook_calls l "OnSIGUSR1" "OnSIGHUP" OnSIGHUP w)
        as (Hr & Hn & _).
      unfold bind, logln, ret, result_of, trace_of in *.
      destruct (run_hook "OnSIGHUP" OnSIGHUP l w) as [[[[] | e | s] w'] t];
        try discriminate.
      cbn [fst snd] in *. rewrite app_nil_r, hook_calls_app, Hn.
      now destruct (Logger w), OnSIGHUP. }
    destruct (terminating sig) eqn:Hterm.
    { rewrite Wait_step_terminating by exact Hterm. cbn.
      now destruct (Logger w). }
    unfold terminating in Hterm.
    apply orb_false_iff in Hterm as [Hterm Hterm3].
    apply orb_false_iff in Hterm as [Hterm1 Hterm2].
    unfold Wait_step.
    replace (sig =? SIGHUP) with false by (symmetry; now apply Z.eqb_neq).
    replace (sig =? SIGUSR1) with false by (symmetry; now apply Z.eqb_neq).
    rewrite Hterm1, Hterm2, Hterm3.
    destruct (sig =? SIGUSR2); [destruct forked |];
      unfold bind, logln, ret, attempt, trace_of; cbn;
      try (now destruct (Logger w)).
    destruct (ForkExec_no_hooks l "OnSIGUSR1" w) as [Hn _].
    unfold trace_of in Hn.
    destruct (ForkExec l w) as [[[[] | e | s] w'] t]; cbn in *;
      rewrite ?app_nil_r; now destruct (Logger w).
Qed.

Lemma Wait_loop_reopen_calls (sigs : list Z) : forall f0 w f,
  result_of (Wait_loop OnSIGHUP OnSIGUSR1 l f0 sigs w) = Ok (Receiving f) ->
  hook_calls "OnSIGUSR1" (trace_of (Wait_loop OnSIGHUP OnSIGUSR1 l f0 sigs w)) =
  match OnSIGUSR1 with
  | Some _ => count_occ Z.eq_dec sigs SIGUSR1
  | None => 0%nat
  end.
Proof.
  induction sigs as [| sig rest IH]; intros f0 w f Hres.
  - now destruct OnSIGUSR1.
  - cbn [Wait_loop] in *.
    pose proof (Wait_step_reopen_calls f0 sig w) as Hstep.
    unfold bind, result_of, trace_of in *.
    destruct (Wait_step OnSIGHUP OnSIGUSR1 l f0 sig w)
      as [[[[s e | f'] | e | s] w'] ta]; try discriminate.
    specialize (IH f' w' f).
    destruct (Wait_loop OnSIGHUP OnSIGUSR1 l f' rest w') as [[r w2] tb].
    cbn [fst snd] in *. rewrite hook_calls_app, Hstep, (IH Hres).
    destruct OnSIGUSR1; [| reflexivity].
    cbn [count_occ].
    destruct (Z.eqb_spec sig SIGUSR1), (Z.eq_dec sig SIGUSR1);
      congruence || reflexivity.
Qed.

End LoopMore.

(** X13.  [SIGINT], [SIGQUIT] and [SIGTERM] make [Wait] return that signal
    with no error as soon as it is received, whether or not a successor has
    been spawned: the state is the one before the signal, only the signal
    is logged, and no signal that follows is looked at. *)
Theorem Wait_returns_on_a_terminating_signal
    (OnSIGHUP OnSIGUSR1 : option StrategyGen.hook) (l : listener)
    (pre post : list Z) (s : Z) (w w1 : world) (f : bool) (t1 : list event) :
  StrategyGen.Wait OnSIGHUP OnSIGUSR1 l pre w =
    (Ok (StrategyGen.Receiving f), w1, t1) ->
  terminating s = true ->
  StrategyGen.Wait OnSIGHUP OnSIGUSR1 l (pre ++ s :: post) w =
  (Ok (StrategyGen.Returned s None), w1,
   t1 ++ if Logger w1 then [EvLog [LSig s]] else []).
Proof.
  intros Hpre Hs. unfold StrategyGen.Wait in *.
  apply bind_Ok in Hpre as ([] & w0 & ta & tb & Hemit & Hloop & ->).
  injection Hemit as <- <-.
  rewrite (bind_run _ _ w tt w [EvNotify [SIGHUP; SIGINT; SIGQUIT; SIGTERM; SIGUSR1; SIGUSR2]] eq_refl).
  rewrite (Wait_loop_app _ _ _ _ _ _ _ _ _ _ Hloop).
  cbn [StrategyGen.Wait_loop].
  rewrite (bind_run _ _ _ _ _ _ (Wait_step_terminating _ _ l f s w1 Hs)).
  cbn [result_of world_of trace_of fst snd StrategyGen.Wait_loop ret].
  now rewrite app_nil_r, <- app_assoc.
Qed.

(** After [SIGHUP] and a spawn on [SIGUSR2], [SIGTERM] ends [Wait]; the
    [SIGUSR2] that follows is not received. *)
Lemma Wait_returns_on_a_terminating_signal_witness :
  StrategyGen.Wait None None tcp_listener ([SIGHUP; SIGUSR2] ++ SIGTERM :: [SIGUSR2])
    (tcp_server Double) =
  (Ok (StrategyGen.Returned SIGTERM None),
   world_of (StrategyGen.Wait None None tcp_listener [SIGHUP; SIGUSR2] (tcp_server Double)),
   trace_of (StrategyGen.Wait None None tcp_listener [SIGHUP; SIGUSR2] (tcp_server Double)) ++
   if Logger (world_of (StrategyGen.Wait None None tcp_listener [SIGHUP; SIGUSR2]
                          (tcp_server Double)))
   then [EvLog [LSig SIGTERM]] else []).
Proof.
  apply (Wait_returns_on_a_terminating_signal None None tcp_listener
           [SIGHUP; SIGUSR2] [SIGUSR2] SIGTERM (tcp_server Double) _ true).
  - vm_compute. reflexivity.
  - reflexivity.
Defined.



(** X15.  With a hook [h] registered for [SIGUSR1]: a [SIGUSR1] received
    when the loop of [Wait] is at its receive calls [h] exactly once and
    the hook of [SIGHUP] not at all, spawns nothing, and leaves the loop at
    its receive with [forked] as it was; an error that [h] returns is
    logged, not returned.  As long as the loop has not returned, [h] has
    been called as many times as [SIGUSR1] was received. *)
Theorem reopen_hook_once_per_signal
    (OnSIGHUP : option StrategyGen.hook) (h : StrategyGen.hook) (l : listener) :
  (forall pre w f w1 t1,
      StrategyGen.Wait OnSIGHUP (Some h) l pre w =
        (Ok (StrategyGen.Receiving f), w1, t1) ->
      exists t2,
        StrategyGen.Wait OnSIGHUP (Some h) l (pre ++ [SIGUSR1]) w =
          (Ok (StrategyGen.Receiving f), snd (h l w1), t1 ++ t2) /\
        hook_calls "OnSIGUSR1" t2 = 1%nat /\
        hook_calls "OnSIGHUP" t2 = 0%nat /\
        spawned t2 = [] /\
        forall e, fst (h l w1) = Some e -> Logger (snd (h l w1)) = true ->
                  EvLog [LStr "OnSIGUSR1:"; LErr e] ∈ t2) /\
  (forall sigs w f,
      result_of (StrategyGen.Wait OnSIGHUP (Some h) l sigs w) =
        Ok (StrategyGen.Receiving f) ->
      hook_calls "OnSIGUSR1"
        (trace_of (StrategyGen.Wait OnSIGHUP (Some h) l sigs w)) =
      count_occ Z.eq_dec sigs SIGUSR1).
Proof.
  split.
  - intros pre w f w1 t1 Hpre. unfold StrategyGen.Wait in *.
    apply bind_Ok in Hpre as ([] & w0 & ta & tb & Hemit & Hloop & ->).
    injection Hemit as <- <-.
    rewrite (bind_run _ _ w tt w [EvNotify [SIGHUP; SIGINT; SIGQUIT; SIGTERM; SIGUSR1; SIGUSR2]] eq_refl).
    rewrite (Wait_loop_app _ _ _ _ _ _ _ _ _ _ Hloop).
    cbn [result_of world_of trace_of fst snd StrategyGen.Wait_loop].
    unfold StrategyGen.Wait_step, StrategyGen.run_hook, bind, logln, ret.
    cbn. destruct (h l w1) as [[e |] w2]; cbn.
    + eexists. split; [rewrite <- app_assoc; reflexivity |].
      destruct (Logger w1), (Logger w2); cbn; repeat split;
        intros e' [= <-] Hlog; try discriminate;
        repeat first [apply list_elem_of_here | apply list_elem_of_further].
    + eexists. split; [rewrite <- app_assoc; reflexivity |].
      destruct (Logger w1); cbn; repeat split; discriminate.
  - intros sigs w f Hres. unfold StrategyGen.Wait, bind, emit in *.
    pose proof (Wait_loop_reopen_calls OnSIGHUP (Some h) l sigs false w f) as H.
    unfold result_of, trace_of in *.
    destruct (StrategyGen.Wait_loop OnSIGHUP (Some h) l false sigs w)
      as [[r w'] t]. cbn in *. now apply H.
Qed.

(** A hook that fails on every call, and a [SIGUSR1] after a [SIGHUP]. *)
Lemma reopen_hook_once_per_signal_witness :
  exists t2,
    StrategyGen.Wait None (Some failing_hook) tcp_listener ([SIGHUP] ++ [SIGUSR1])
      (tcp_server Single) =
      (Ok (StrategyGen.Receiving false),
       snd (failing_hook tcp_listener
              (world_of (StrategyGen.Wait None (Some failing_hook) tcp_listener
                           [SIGHUP] (tcp_server Single)))),
       trace_of (StrategyGen.Wait None (Some failing_hook) tcp_listener
                   [SIGHUP] (tcp_server Single)) ++ t2) /\
    hook_calls "OnSIGUSR1" t2 = 1%nat /\
    hook_calls "OnSIGHUP" t2 = 0%nat /\
    spawned t2 = [] /\
    forall e,
      fst (failing_hook tcp_listener
             (world_of (StrategyGen.Wait None (Some failing_hook) tcp_listener
                          [SIGHUP] (tcp_server Single)))) = Some e ->
      Logger (snd (failing_hook tcp_listener
                     (world_of (StrategyGen.Wait None (Some failing_hook) tcp_listener
                                  [SIGHUP] (tcp_server Single))))) = true ->
      EvLog [LStr "OnSIGUSR1:"; LErr e] ∈ t2.
Proof.
  apply (proj1 (reopen_hook_once_per_signal None failing_hook tcp_listener)
           [SIGHUP] (tcp_server Single) false).
  vm_compute. reflexivity.
Defined.

Lemma Wait_loop_no_hooks (l : listener) (sigs : list Z) : forall f w,
  forallb hook_signal sigs = true ->
  StrategyGen.Wait_loop None None l f sigs w =
  (Ok (StrategyGen.Receiving f), w,
   flat_map (fun s => if Logger w then [EvLog [LSig s]] else []) sigs).
Proof.
  induction sigs as [| sig rest IH]; intros f w Hs; [reflexivity |].
  cbn in Hs. apply andb_prop in Hs as [Hsig Hrest].
  cbn [StrategyGen.Wait_loop flat_map].
  rewrite (bind_run _ _ _ _ _ _
             (Wait_step_no_hook None None l f sig w eq_refl eq_refl Hsig)).
  now rewrite (IH f w Hrest).
Qed.

(** X16.  With no hook registered, [SIGHUP] and [SIGUSR1] are logged and
    nothing else happens: after any number of them [Wait] is at its
    receive, with [forked] clear and the process as it was. *)
Theorem unset_hooks_are_skipped (l : listener) (sigs : list Z) (w : world) :
  forallb hook_signal sigs = true ->
  StrategyGen.Wait None None l sigs w =
  (Ok (StrategyGen.Receiving false), w,
   EvNotify [SIGHUP; SIGINT; SIGQUIT; SIGTERM; SIGUSR1; SIGUSR2] ::
   flat_map (fun s => if Logger w then [EvLog [LSig s]] else []) sigs).
Proof.
  intros Hs. unfold StrategyGen.Wait.
  rewrite (bind_run _ _ w tt w [EvNotify [SIGHUP; SIGINT; SIGQUIT; SIGTERM; SIGUSR1; SIGUSR2]] eq_refl).
  now rewrite (Wait_loop_no_hooks l sigs false w Hs).
Qed.

(** Three such signals in the server. *)
Lemma unset_hooks_are_skipped_witness :
  StrategyGen.Wait None None tcp_listener [SIGHUP; SIGUSR1; SIGHUP] (tcp_server Single) =
  (Ok (StrategyGen.Receiving false), tcp_server Single,
   EvNotify [SIGHUP; SIGINT; SIGQUIT; SIGTERM; SIGUSR1; SIGUSR2] ::
   flat_map (fun s => if Logger (tcp_server Single) then [EvLog [LSig s]] else [])
     [SIGHUP; SIGUSR1; SIGHUP]).
Proof.
  apply (unset_hooks_are_skipped tcp_listener [SIGHUP; SIGUSR1; SIGHUP]
           (tcp_server Single)).
  reflexivity.
Defined.

(** ** More on the bounded wait *)

(** A [forkExec] that returns an error has started no process. *)
Lemma forkExec_Err (l : listener) (q : Z) (w : world) :
  match result_of (BoundedWait.forkExec l q w) with
  | Ok (_, None) => True
  | Ok (_, Some _) => False
  | _ =>
      children (world_of (BoundedWait.forkExec l q w)) = children w /\
      spawned (trace_of (BoundedWait.forkExec l q w)) = [] /\
      signals_sent (trace_of (BoundedWait.forkExec l q w)) = []
  end.
Proof.
  apply (wp_forkExec l q (fun r w' t =>
    match r with
    | Ok (_, None) => True
    | Ok (_, Some _) => False
    | _ => children w' = children w /\ spawned t = [] /\ signals_sent t = []
    end)).
  - intros r Hr. destruct r as [u | e | s]; [now destruct (Hr u) | |];
      repeat split.
  - intros lfd f n _ _ _ _. cbn zeta. split; [intros _ e; repeat split |].
    intros _. split; [| intros; exact I].
    intros r Hr. destruct r as [u | e | s]; [now destruct (Hr u) | |];
      repeat split.
Qed.

(** X17.  In the bounded-wait [Wait], once the fork signal has arrived and
    the successor [cp] has been spawned, if the quit signal arrives before
    the timer fires then [Wait] returns nil; the successor is left running,
    no signal was sent, and the process is as [forkExec] left it. *)
Theorem bounded_wait_handshake
    (l : listener) (forkSignal quitSignal timeout : Z)
    (sch : BoundedWait.schedule) (w w1 : world) (cp t : Z) (t1 : list event) :
  BoundedWait.fork_received sch = true ->
  BoundedWait.forkExec l quitSignal w = (Ok (cp, None), w1, t1) ->
  BoundedWait.quit_arrival sch = Some t -> t < Z.max 0 timeout ->
  let r := BoundedWait.Wait l forkSignal quitSignal timeout sch w in
  result_of r = Ok (BoundedWait.Finished None) /\
  world_of r = w1 /\
  cp ∈ children (world_of r) /\
  signals_sent (trace_of r) = [] /\
  spawned (trace_of r) = spawned t1.
Proof.
  intros Hfork Hrun Harr Hlt.
  pose proof (forkExec_child _ _ _ _ _ _ Hrun) as Hchild.
  assert (signals_sent t1 = []) as Hsig.
  { pose proof Hrun as H. apply forkExec_Ok in H.
    destruct H as (lfd & f & n & argv0 & files & _ & _ & _ & _ & _ & _ & _ & H).
    cbv zeta in H. tauto. }
  assert (BoundedWait.select_quit timeout sch = true) as Hsel.
  { unfold BoundedWait.select_quit. rewrite Harr.
    apply orb_true_iff. left. now apply Z.ltb_lt. }
  cbv zeta.
  unfold BoundedWait.Wait, bind, attempt, emit, logln, ret,
    result_of, world_of, trace_of.
  rewrite Hfork. cbn [negb]. rewrite Hrun, Hsel. cbn.
  repeat split; [exact Hchild | |].
  - rewrite !signals_sent_app, Hsig.
    destruct (Logger w), (Logger w1); reflexivity.
  - rewrite !spawned_app.
    destruct (Logger w), (Logger w1); cbn; now rewrite ?app_nil_r.
Qed.

(** The successor answers after a millisecond, with five seconds allowed. *)
Lemma bounded_wait_handshake_witness :
  let r := BoundedWait.Wait tcp_listener SIGUSR2 SIGQUIT 5000000000 prompt_successor
             (tcp_server Single) in
  result_of r = Ok (BoundedWait.Finished None) /\
  world_of r = world_of (BoundedWait.forkExec tcp_listener SIGQUIT (tcp_server Single)) /\
  4243 ∈ children (world_of r) /\
  signals_sent (trace_of r) = [] /\
  spawned (trace_of r) =
  spawned (trace_of (BoundedWait.forkExec tcp_listener SIGQUIT (tcp_server Single))).
Proof.
  apply (bounded_wait_handshake tcp_listener SIGUSR2 SIGQUIT 5000000000
           prompt_successor (tcp_server Single)
           (world_of (BoundedWait.forkExec tcp_listener SIGQUIT (tcp_server Single)))
           4243 1000000
           (trace_of (BoundedWait.forkExec tcp_listener SIGQUIT (tcp_server Single)))).
  - reflexivity.
  - vm_compute. reflexivity.
  - reflexivity.
  - reflexivity.
Defined.

(** X18.  [forkExec] never returns a process together with an error, so the
    branch of [Wait] that kills the process after a bad [forkExec] is never
    taken.  When [forkExec] returns an error, [Wait] returns that error; no
    process was started and no signal sent.  Until the fork signal arrives,
    [Wait] has only registered for it and logged that it waits. *)
Theorem bounded_wait_failed_spawn
    (l : listener) (forkSignal quitSignal timeout : Z)
    (sch : BoundedWait.schedule) (w : world) :
  (forall cp e, result_of (BoundedWait.forkExec l quitSignal w) <> Ok (cp, Some e)) /\
  (BoundedWait.fork_received sch = true ->
   forall e,
     result_of (BoundedWait.forkExec l quitSignal w) = Err e ->
     let r := BoundedWait.Wait l forkSignal quitSignal timeout sch w in
     result_of r = Ok (BoundedWait.Finished (Some e)) /\
     children (world_of r) = children w /\
     spawned (trace_of r) = [] /\
     signals_sent (trace_of r) = []) /\
  (BoundedWait.fork_received sch = false ->
   BoundedWait.Wait l forkSignal quitSignal timeout sch w =
   (Ok BoundedWait.AwaitingFork, w,
    EvNotify [forkSignal] ::
    if Logger w then [EvLog [LStr "Waiting for fork signal from system..."]]
    else [])).
Proof.
  pose proof (forkExec_Err l quitSignal w) as Hpaths.
  split; [| split].
  - intros cp e H. rewrite H in Hpaths. exact Hpaths.
  - intros Hfork e He. rewrite He in Hpaths.
    destruct Hpaths as (Hch & Hsp & Hsig). cbv zeta.
    unfold BoundedWait.Wait, bind, attempt, emit, logln, ret,
      result_of, world_of, trace_of in *.
    rewrite Hfork. cbn [negb].
    destruct (BoundedWait.forkExec l quitSignal w) as [[r w1] t1].
    cbn [fst snd] in *. subst r. cbn.
    split; [reflexivity |]. split; [exact Hch |].
    rewrite !spawned_app, !signals_sent_app, Hsp, Hsig.
    destruct (Logger w), (Logger w1); split; reflexivity.
  - intros Hfork. unfold BoundedWait.Wait, bind, emit, logln, ret.
    rewrite Hfork. cbn. now rewrite app_nil_r.
Qed.

(** The executable of the server was removed: the bounded [Wait] returns
    the error of [os.Stat]. *)
Lemma bounded_wait_failed_spawn_witness :
  let r := BoundedWait.Wait tcp_listener SIGUSR2 SIGQUIT 1000 silent_successor
             (moved_server Single) in
  result_of r =
    Ok (BoundedWait.Finished (Some (Errno "stat: no such file or directory"))) /\
  children (world_of r) = children (moved_server Single) /\
  spawned (trace_of r) = [] /\
  signals_sent (trace_of r) = [].
Proof.
  apply (proj1 (proj2 (bounded_wait_failed_spawn tcp_listener SIGUSR2 SIGQUIT 1000
                         silent_successor (moved_server Single)))).
  - reflexivity.
  - vm_compute. reflexivity.
Defined.

(** ** Closing errors *)

Lemma has_byte_app (b : Z) (s1 s2 : string) :
  has_byte b (s1 +:+ s2) = has_byte b s1 || has_byte b s2.
Proof.
  induction s1 as [| c s1 IH]; [reflexivity |].
  rewrite append_cons. cbn [has_byte]. now rewrite IH, orb_assoc.
Qed.

Lemma OpError_prefix_colon (op net : string) (src addr : option string) :
  has_byte 58 (OpError_prefix op net src addr) = true.
Proof.
  unfold OpError_prefix. rewrite has_byte_app.
  apply orb_true_iff. right. reflexivity.
Qed.

(** The text of an [OpError] is never the text of [errClosing]: it has a
    colon. *)
Lemma OpError_text_not_closing op net src addr err text :
  Error_text (OpError op net src addr err) = Ok text ->
  String.eqb errClosing_text text = false.
Proof.
  cbn [Error_text].
  destruct (Error_text err) as [t | e | m]; try discriminate.
  intros [= <-]. apply String.eqb_neq. intros H.
  assert (has_byte 58 errClosing_text = false) as Hno by reflexivity.
  rewrite H, has_byte_app, OpError_prefix_colon in Hno. discriminate.
Qed.

(** X19.  [IsErrClosing] answers true for exactly two shapes of error: an
    error that is not a [net.OpError] and whose text is the text of
    [net.errClosing], and a [net.OpError] that wraps such an error
    directly, whatever its operation, network and addresses.  A closing
    error wrapped twice is not recognised. *)
Theorem IsErrClosing_recognises (err : go_error) :
  IsErrClosing err = Ok true <->
  err = OtherError errClosing_text \/
  exists op net src addr,
    err = OpError op net src addr (OtherError errClosing_text).
Proof.
  split.
  - unfold IsErrClosing.
    destruct err as [| | text | op net src addr inner]; cbn [Error_text];
      try discriminate.
    + intros H.
      assert (String.eqb errClosing_text text = true) as H' by congruence.
      apply String.eqb_eq in H' as <-. now left.
    + destruct inner as [| | text | op' net' src' addr' err'].
      * discriminate.
      * discriminate.
      * cbn [Error_text]. intros H.
        assert (String.eqb errClosing_text text = true) as H' by congruence.
        apply String.eqb_eq in H' as <-.
        right. now exists op, net, src, addr.
      * destruct (Error_text (OpError op' net' src' addr' err'))
          as [text | e | m] eqn:Htext; try discriminate.
        rewrite (OpError_text_not_closing _ _ _ _ _ _ Htext). discriminate.
  - intros [-> | (op & net & src & addr & ->)]; reflexivity.
Qed.



(** ** Waiting for the signalled process *)

(** X21.  [Kill] of the strategy generation starts waiting for the process
    it signals exactly when a pid was found, the signal is [SIGQUIT] and
    the strategy is [Double]; the [Kill] of the bounded-wait generation
    never waits.  Neither changes anything in the process that calls it. *)
Theorem Kill_awaits_only_after_reexec (w : world) :
  (forall p, EvWait4 p ∈ trace_of (StrategyGen.Kill w) <->
             scanned_pid w = Ok p /\ scanned_signal w = SIGQUIT /\
             Strategy w = Double) /\
  (forall s p, EvWait4 p ∉ trace_of (BoundedWait.Kill s w)) /\
  world_of (StrategyGen.Kill w) = w /\
  (forall s, world_of (BoundedWait.Kill s w) = w).
Proof.
  split; [| split; [| split]].
  - intros p. pose proof (Kill_strategy_run w) as Hk.
    destruct (scanned_pid w) as [q | e | m] eqn:Hp;
      apply (f_equal snd) in Hk; cbn [snd] in Hk; rewrite Hk;
      [| split; [intros Hin; now apply elem_of_nil in Hin
                | intros [H _]; discriminate]..].
    assert (forall L : list event,
              EvWait4 p ∈ L ++
                (if Logger w
                 then [EvLog [LStr "sending signal"; LSig (scanned_signal w);
                              LStr "to process"; LInt q]]
                 else []) ++ [EvSignal q (scanned_signal w)] <->
              EvWait4 p ∈ L) as Hrest.
    { intros L. rewrite !elem_of_app. split; [| tauto].
      intros [H | [H | H]]; [exact H | |].
      - destruct (Logger w); [apply list_elem_of_singleton in H; discriminate
                             | now apply elem_of_nil in H].
      - apply list_elem_of_singleton in H. discriminate. }
    rewrite Hrest.
    destruct (Z.eqb_spec SIGQUIT (scanned_signal w)) as [Hs | Hs];
      destruct (Strategy w); cbn [andb].
    + split; [intros Hin; now apply elem_of_nil in Hin | intros (_ & _ & H); discriminate].
    + rewrite list_elem_of_singleton. split.
      * intros [= ->]. auto.
      * intros ([= ->] & _). reflexivity.
    + split; [intros Hin; now apply elem_of_nil in Hin | intros (_ & _ & H); discriminate].
    + split; [intros Hin; now apply elem_of_nil in Hin | intros (_ & H & _); congruence].
  - intros s p Hin. pose proof (Kill_bounded_run s w) as Hk.
    destruct (scanned_pid w) as [q | e | m]; injection Hk as _ Ht;
      rewrite Ht in Hin; [| now apply elem_of_nil in Hin..].
    destruct (Logger w); cbn in Hin;
      repeat (apply elem_of_cons in Hin as [Hin | Hin]; [discriminate |]);
      now apply elem_of_nil in Hin.
  - apply (wp_Kill_strategy (fun _ w' _ => w' = w)); reflexivity.
  - intros s. apply (wp_Kill_bounded s (fun _ w' _ => w' = w)); reflexivity.
Qed.
